(** * Mutual-fund advisor: fund lookup service, result cache and agent pipeline

    A shallow embedding of the Python sources
    [mfapi_service.py] (decorator [async_cache], [MFAPIRepository],
    [MutualFundService]), [agents/nodes.py] ([QueryAnalyzer] and the five
    stage functions) and [agents/fund_agent.py] ([process_query]).

    Conventions of the embedding.
    - Python [str] values are Rocq strings whose characters are read as the
      code points U+0000..U+00FF; [lower], [split], [strip] follow Python on
      that range.
    - Python [float] values are IEEE binary64 primitive floats.
    - [datetime] values produced by [strptime] with the format [%d-%m-%Y] are
      at midnight, so a [datetime] is its proleptic Gregorian ordinal and a
      [timedelta] a number of days.
    - [time.time()] readings are integer clock ticks.
    - A Python [dict] is an insertion-ordered association list. *)

From Stdlib Require Import ZArith List String Ascii Bool Lia Floats.
From Stdlib Require Import DecimalString.
Import ListNotations.

Set Warnings "-inexact-float".

Local Open Scope string_scope.
Local Open Scope Z_scope.

(** ** Exceptions *)

(** A raised exception: its class and its [str()]. *)
Inductive exn_class :=
| ValueError | TypeError | OverflowError | HTTPError | GenerationError.

Record exn := Exn { exn_class_of : exn_class; exn_str : string }.

(** Result of a pure call that may raise. *)
Inductive outcome (A : Type) :=
| Returned (a : A)
| Raised (e : exn).
Arguments Returned {A} a.
Arguments Raised {A} e.

(** ** Python [str] methods *)

Module Str.

Definition code (c : ascii) : Z := Z.of_nat (nat_of_ascii c).

(** [c.isspace()] on U+0000..U+00FF. *)
Definition is_space (c : ascii) : bool :=
  let n := code c in
  ((9 <=? n) && (n <=? 13)) || ((28 <=? n) && (n <=? 32))
  || (n =? 133) || (n =? 160).

(** [c.lower()] on U+0000..U+00FF. *)
Definition lower_char (c : ascii) : ascii :=
  let n := code c in
  if ((65 <=? n) && (n <=? 90))
     || ((192 <=? n) && (n <=? 222) && negb (n =? 215))
  then ascii_of_nat (Z.to_nat (n + 32)) else c.

Fixpoint lower (s : string) : string :=
  match s with
  | EmptyString => EmptyString
  | String c s' => String (lower_char c) (lower s')
  end.

(** [needle in hay]. *)
Fixpoint contains (needle hay : string) : bool :=
  String.prefix needle hay
  || match hay with
     | EmptyString => false
     | String _ hay' => contains needle hay'
     end.

(** [s.split()]: maximal runs of non-whitespace characters. *)
Fixpoint split (s : string) : list string :=
  match s with
  | EmptyString => []
  | String c s' =>
      if is_space c then split s'
      else
        match s' with
        | EmptyString => [String c EmptyString]
        | String c' _ =>
            if is_space c' then String c EmptyString :: split s'
            else
              match split s' with
              | w :: ws => String c w :: ws
              | [] => [String c EmptyString]
              end
        end
  end.

(** [s.split(sep)] for a one-character separator. *)
Fixpoint split_on (sep : ascii) (s : string) : list string :=
  match s with
  | EmptyString => [EmptyString]
  | String c s' =>
      if Ascii.eqb c sep then EmptyString :: split_on sep s'
      else
        match split_on sep s' with
        | w :: ws => String c w :: ws
        | [] => [String c EmptyString]
        end
  end.

(** [s.split(sep, 1)[1]], when the separator occurs. *)
Fixpoint after_first (sep : ascii) (s : string) : option string :=
  match s with
  | EmptyString => None
  | String c s' => if Ascii.eqb c sep then Some s' else after_first sep s'
  end.

Fixpoint lstrip (s : string) : string :=
  match s with
  | EmptyString => EmptyString
  | String c s' => if is_space c then lstrip s' else s
  end.

Fixpoint rev_acc (s acc : string) : string :=
  match s with
  | EmptyString => acc
  | String c s' => rev_acc s' (String c acc)
  end.

Definition rev (s : string) : string := rev_acc s EmptyString.

(** [s.strip()]. *)
Definition strip (s : string) : string := rev (lstrip (rev (lstrip s))).

(** Truth value of a string: non-empty. *)
Definition truthy (s : string) : bool :=
  match s with EmptyString => false | _ => true end.

(** [str(n)] for an [int]. *)
Definition of_Z (n : Z) : string := NilEmpty.string_of_int (Z.to_int n).

(** [sep.join(parts)]. *)
Definition join (sep : string) (parts : list string) : string :=
  String.concat sep parts.

End Str.

(** ** Insertion-ordered dictionaries *)

Module Dict.
Section Ops.
Context {K V : Type} (keq : K -> K -> bool).

Definition dict := list (K * V).

Fixpoint get (d : dict) (k : K) : option V :=
  match d with
  | [] => None
  | (k', v) :: d' => if keq k' k then Some v else get d' k
  end.

(** [d[k] = v]: an existing key keeps its position. *)
Fixpoint set (d : dict) (k : K) (v : V) : dict :=
  match d with
  | [] => [(k, v)]
  | (k', v') :: d' =>
      if keq k' k then (k', v) :: d' else (k', v') :: set d' k v
  end.

(** [del d[k]]. *)
Fixpoint del (d : dict) (k : K) : dict :=
  match d with
  | [] => []
  | (k', v') :: d' => if keq k' k then d' else (k', v') :: del d' k
  end.

Definition keys (d : dict) : list K := map fst d.
Definition values (d : dict) : list V := map snd d.
End Ops.
End Dict.

(** ** [datetime.strptime(s, "%d-%m-%Y")] *)

Module Dates.

Definition digit (c : ascii) : option Z :=
  let n := Str.code c in
  if (48 <=? n) && (n <=? 57) then Some (n - 48) else None.

Definition is_leap (y : Z) : bool :=
  (y mod 4 =? 0) && (negb (y mod 100 =? 0) || (y mod 400 =? 0)).

Definition days_before_year (y : Z) : Z :=
  let y1 := y - 1 in y1 * 365 + y1 / 4 - y1 / 100 + y1 / 400.

Definition days_in_month (y m : Z) : Z :=
  if (m =? 2) && is_leap y then 29
  else nth (Z.to_nat m) [0; 31; 28; 31; 30; 31; 30; 31; 31; 30; 31; 30; 31] 0.

Definition days_before_month (y m : Z) : Z :=
  nth (Z.to_nat m) [0; 0; 31; 59; 90; 120; 151; 181; 212; 243; 273; 304; 334] 0
  + (if (2 <? m) && is_leap y then 1 else 0).

(** [date(y, m, d).toordinal()]; the constructor rejects years outside
    1..9999 and days outside the month. *)
Definition toordinal (y m d : Z) : option Z :=
  if (1 <=? y) && (y <=? 9999) && (1 <=? m) && (m <=? 12)
     && (1 <=? d) && (d <=? days_in_month y m)
  then Some (days_before_year y + days_before_month y m + d)
  else None.

(** Directive [%d] followed by the literal [-]:
    [3[0-1]|[1-2]\d|0[1-9]|[1-9]| [1-9]]. *)
Definition parse_day (s : string) : option (Z * string) :=
  match s with
  | String c1 (String c2 rest) =>
      if Ascii.eqb c2 "-" then
        match digit c1 with
        | Some a => if 1 <=? a then Some (a, rest) else None
        | None => None
        end
      else
        match rest with
        | String c3 rest' =>
            if Ascii.eqb c3 "-" then
              match digit c1, digit c2 with
              | Some a, Some b =>
                  if ((a =? 3) && (b <=? 1)) || (a =? 1) || (a =? 2)
                     || ((a =? 0) && (1 <=? b))
                  then Some (10 * a + b, rest') else None
              | None, Some b =>
                  if Ascii.eqb c1 " " && (1 <=? b) then Some (b, rest')
                  else None
              | _, None => None
              end
            else None
        | EmptyString => None
        end
  | _ => None
  end.

(** Directive [%m] followed by the literal [-]: [1[0-2]|0[1-9]|[1-9]]. *)
Definition parse_month (s : string) : option (Z * string) :=
  match s with
  | String c1 (String c2 rest) =>
      if Ascii.eqb c2 "-" then
        match digit c1 with
        | Some a => if 1 <=? a then Some (a, rest) else None
        | None => None
        end
      else
        match rest with
        | String c3 rest' =>
            if Ascii.eqb c3 "-" then
              match digit c1, digit c2 with
              | Some a, Some b =>
                  if ((a =? 1) && (b <=? 2)) || ((a =? 0) && (1 <=? b))
                  then Some (10 * a + b, rest') else None
              | _, _ => None
              end
            else None
        | EmptyString => None
        end
  | _ => None
  end.

(** Directive [%Y], four digits, then the end of the text. *)
Definition parse_year (s : string) : option Z :=
  match s with
  | String c1 (String c2 (String c3 (String c4 EmptyString))) =>
      match digit c1, digit c2, digit c3, digit c4 with
      | Some a, Some b, Some c, Some d =>
          Some (1000 * a + 100 * b + 10 * c + d)
      | _, _, _, _ => None
      end
  | _ => None
  end.

(** [None] stands for the [ValueError] raised on text that does not match
    the format or names no calendar day. *)
Definition strptime (s : string) : option Z :=
  match parse_day s with
  | Some (d, s1) =>
      match parse_month s1 with
      | Some (m, s2) =>
          match parse_year s2 with
          | Some y => toordinal y m d
          | None => None
          end
      | None => None
      end
  | None => None
  end.

(** The first representable day, [datetime.min]. *)
Definition min_ordinal : Z := 1.

End Dates.

(** ** Python [float] operations *)

Module Flt.

(** Truth value of a float: any value other than [0.0] and [-0.0]. *)
Definition truthy (x : float) : bool := negb (PrimFloat.eqb x 0%float).

(** Nearest integer to [m * 2^e], ties to the even one. *)
Definition nearest_even (m e : Z) : Z :=
  if 0 <=? e then m * 2 ^ e
  else
    let d := 2 ^ (- e) in
    let q := m / d in
    let r := m mod d in
    if 2 * r <? d then q
    else if d <? 2 * r then q + 1
    else if Z.even q then q else q + 1.

(** [round(x, 2)]: the exact value of [x] is rounded half-even to two
    decimals and the decimal is converted back to the nearest float;
    zeros, infinities and NaN round to themselves. *)
Definition round2 (x : float) : float :=
  match Prim2SF x with
  | S754_finite s m e =>
      match nearest_even (Z.pos m * 100) e with
      | Z.pos n =>
          SF2Prim (SFdiv prec emax (S754_finite s n 0)
                         (S754_finite false 100 0))
      | _ => if s then (-0)%float else 0%float
      end
  | _ => x
  end.

End Flt.

(** ** Data exchanged with the fund-data API *)

(** The histories are of type [List[Dict[str, Any]]]: every entry is a JSON
    object, and its members can hold any JSON value. *)

(** The ["nav"] member of a history entry, as [float(entry.get("nav", 0))]
    sees it: absent; a number, a boolean or numeric text that converts to
    [f]; text that [float] rejects with a [ValueError]; [null], an array or
    an object, rejected with a [TypeError]; an integer beyond the range of
    a float, rejected with an [OverflowError]. *)
Inductive nav_field :=
| NavAbsent
| NavValue (f : float)
| NavMalformed
| NavNotNumber
| NavTooLarge.

(** A ["date"] member: text, or any JSON value that is not text ([null], a
    number, a boolean, an array, an object). *)
Inductive date_value :=
| DateText (s : string)
| DateNotText.

(** One element of the ["data"] array: [{"date": ..., "nav": ...}]; an
    absent ["date"] key is [None]. *)
Record nav_entry := NavEntry {
  entry_date : option date_value;
  entry_nav : nav_field
}.

(** [entry.get("date", default)] with the empty text as default. *)
Definition get_date (e : nav_entry) : date_value :=
  match entry_date e with Some v => v | None => DateText EmptyString end.

(** [float(entry.get("nav", 0))]. *)
Definition float_nav (e : nav_entry) : outcome float :=
  match entry_nav e with
  | NavAbsent => Returned 0%float
  | NavValue f => Returned f
  | NavMalformed => Raised (Exn ValueError "could not convert string to float")
  | NavNotNumber =>
      Raised (Exn TypeError "float() argument must be a string or a real number")
  | NavTooLarge => Raised (Exn OverflowError "int too large to convert to float")
  end.

(** One element of the listing served by the API root:
    [{"schemeCode": ..., "schemeName": ...}]. *)
Record fund_entry := FundEntry {
  schemeCode : option Z;
  schemeName : option string
}.

(** The ["meta"] object of a fund record. *)
Record fund_meta := FundMeta {
  meta_scheme_name : option string;
  meta_fund_house : option string;
  meta_scheme_type : option string;
  meta_scheme_category : option string
}.

(** The JSON object served for one scheme code. *)
Record fund_payload := FundPayload {
  payload_status : option string;
  payload_meta : option fund_meta;
  payload_data : option (list nav_entry)
}.

(** ** Schemas of [schemas/fund.py] *)

(** Modelled from the spec: the pydantic models [FundSummary], [FundDetail],
    [NavDataPoint] and [PerformanceMetrics] of [schemas/fund.py] are not
    among the sources; their fields are the keyword arguments the service
    passes to the constructors, and construction is taken to succeed and
    to keep each argument as it is, a date that is not text included. *)
Record FundSummary := Build_FundSummary {
  summary_scheme_code : option Z;
  summary_scheme_name : option string;
  summary_fund_house : string;
  summary_category : string
}.

Record PerformanceMetrics := Build_PerformanceMetrics {
  one_month_return : option float;
  three_month_return : option float;
  six_month_return : option float;
  one_year_return : option float;
  three_year_return : option float;
  five_year_return : option float
}.

Record NavDataPoint := Build_NavDataPoint {
  point_date : date_value;
  point_nav : float
}.

Record FundDetail := Build_FundDetail {
  detail_scheme_code : option Z;
  detail_scheme_name : string;
  detail_fund_house : string;
  detail_scheme_type : string;
  detail_scheme_category : string;
  detail_scheme_nav : option float;
  detail_scheme_nav_date : option date_value;
  detail_performance : PerformanceMetrics;
  detail_nav_data : option (list NavDataPoint)
}.

(** ** Conversation, prompts and pipeline state *)

(** An element of ["chat_history"]: a langchain message appended by a stage,
    or a [{"type": ..., "content": ...}] dictionary handed in by the caller. *)
Inductive turn :=
| HumanMessage (content : string)
| AIMessage (content : string)
| RawTurn (type content : string).

(** The five templates of [agents/prompts.py], applied to the arguments of
    their [format_messages] call.  The template texts are not among the
    sources; a prompt is kept as its template name and arguments. *)
Inductive prompt :=
| QUERY_ANALYSIS_PROMPT (query : string)
| FUND_SEARCH_PROMPT (query : string) (chat_history : list turn)
| FUND_ANALYSIS_PROMPT (query : string) (fund_data : FundDetail)
    (chat_history : list turn)
| FUND_COMPARISON_PROMPT (query : string) (fund_data_1 fund_data_2 : FundDetail)
    (chat_history : list turn)
| FINAL_RESPONSE_PROMPT (query context : string) (chat_history : list turn).

(** The state dictionary threaded through the graph; an absent key is
    [None]. *)
Record state := State {
  st_query : string;
  st_chat_history : option (list turn);
  st_query_analysis : option string;
  st_fund_names : option (list string);
  st_search_results : option (list FundSummary);
  st_fund_details : option (list FundDetail);
  st_fund_analysis : option string;
  st_response : option string;
  st_error : option string
}.

(** [state.get("chat_history", [])]. *)
Definition get_chat_history (s : state) : list turn :=
  match st_chat_history s with Some h => h | None => [] end.

(** ** Settings, external collaborators and the world *)

(** [core/config.py]. *)
Record Settings := Build_Settings {
  enable_cache : bool;
  cache_ttl : Z;
  cache_max_size : Z;
  default_temperature : float
}.

Definition default_settings : Settings :=
  Build_Settings true 3600 1000 0.1%float.

(** What lies outside the program, fixed for a run: the settings, how the
    repository object prints, and the answers of the clock, of the
    text-generation provider and of the HTTP API, each indexed by the number
    of earlier calls of its kind. *)
Record env := Env {
  settings : Settings;
  repository_str : string;
  clock : nat -> Z;
  llm_generate : nat -> prompt -> float -> outcome string;
  http_listing : nat -> outcome (list fund_entry);
  http_fund : nat -> string -> outcome fund_payload
}.

(** The closure state of one application of the decorator: the [cache]
    dictionary, from key to [(result, expiry)], and [cache_info]. *)
Record cache_state (V : Type) := CacheState {
  cache : list (string * (V * Z));
  hits : Z;
  misses : Z
}.
Arguments CacheState {V} cache hits misses.
Arguments cache {V} c.
Arguments hits {V} c.
Arguments misses {V} c.

Definition empty_cache {V : Type} : cache_state V := CacheState [] 0 0.

(** The mutable world: readings taken from the clock, prompts sent and
    endpoints requested so far (oldest first), and the two decorator
    closures of [MFAPIRepository]. *)
Record world := World {
  clock_reads : nat;
  llm_calls : list (prompt * float);
  http_calls : list string;
  all_funds_cache : cache_state (list fund_entry);
  fund_cache : cache_state (option fund_payload)
}.

Definition initial_world : world := World 0 [] [] empty_cache empty_cache.

(** ** A state-and-exception monad for the coroutines *)

Definition M (A : Type) : Type := env -> world -> outcome A * world.

Definition ret {A : Type} (a : A) : M A := fun _ w => (Returned a, w).

Definition raise {A : Type} (e : exn) : M A := fun _ w => (Raised e, w).

Definition bind {A B : Type} (m : M A) (k : A -> M B) : M B :=
  fun E w =>
    match m E w with
    | (Returned a, w') => k a E w'
    | (Raised e, w') => (Raised e, w')
    end.

(** [try: m  except Exception as e: handler e]. *)
Definition try_except {A : Type} (m : M A) (handler : exn -> M A) : M A :=
  fun E w =>
    match m E w with
    | (Returned a, w') => (Returned a, w')
    | (Raised e, w') => handler e E w'
    end.

Definition lift_outcome {A : Type} (o : outcome A) : M A := fun _ w => (o, w).

Declare Scope monad_scope.
Delimit Scope monad_scope with monad.
Notation "x <- m ;; k" := (bind m (fun x => k))
  (at level 61, m at next level, right associativity) : monad_scope.
Notation "m ;;; k" := (bind m (fun _ => k))
  (at level 61, right associativity) : monad_scope.
Local Open Scope monad_scope.

(** [for x in xs: acc = body(acc, x)], with effects. *)
Fixpoint for_each {A B : Type} (body : B -> A -> M B) (xs : list A) (acc : B)
    : M B :=
  match xs with
  | [] => ret acc
  | x :: xs' => acc' <- body acc x ;; for_each body xs' acc'
  end.

(** [time.time()]. *)
Definition time_time : M Z :=
  fun E w =>
    (Returned (clock E (clock_reads w)),
     World (S (clock_reads w)) (llm_calls w) (http_calls w)
           (all_funds_cache w) (fund_cache w)).

(** [core/llm.py]: [generate_response(messages, temperature)].  The provider
    logs and re-raises its failures. *)
Definition generate_response (messages : prompt) (temperature : option float)
    : M string :=
  fun E w =>
    let temp := match temperature with
                | Some t => t
                | None => default_temperature (settings E)
                end in
    (llm_generate E (List.length (llm_calls w)) messages temp,
     World (clock_reads w) (llm_calls w ++ [(messages, temp)])%list (http_calls w)
           (all_funds_cache w) (fund_cache w)).

Definition ask : M env := fun E w => (Returned E, w).

(** ** Result cache: the decorator [async_cache] *)

Module AsyncCache.

(** [x or d] for an optional integer: [None] and [0] are falsy. *)
Definition py_or (x : option Z) (d : Z) : Z :=
  match x with
  | Some v => if v =? 0 then d else v
  | None => d
  end.

(** [sorted(kwargs.items())], by insertion. *)
Fixpoint insert_sorted (kv : string * string) (l : list (string * string))
    : list (string * string) :=
  match l with
  | [] => [kv]
  | kv' :: l' =>
      if String.leb (fst kv) (fst kv') then kv :: l
      else kv' :: insert_sorted kv l'
  end.

Definition sorted (l : list (string * string)) : list (string * string) :=
  fold_right insert_sorted [] l.

(** [f"{func.__name__}:{':'.join(key_parts)}"]; the arguments are given by
    their [str()]. *)
Definition make_key (func_name : string) (args : list string)
    (kwargs : list (string * string)) : string :=
  let kw_parts := map (fun kv => fst kv ++ ":" ++ snd kv) (sorted kwargs) in
  let key_parts := (args ++ kw_parts)%list in
  func_name ++ ":" ++ Str.join ":" key_parts.

Section Closure.
Context {V : Type}.

Definition expiry_of (item : string * (V * Z)) : Z := snd (snd item).

(** [min(items, key=lambda x: x[1][1])] from a first candidate: a later
    item replaces it only when strictly smaller. *)
Fixpoint min_item (best : string * (V * Z)) (items : list (string * (V * Z)))
    : string * (V * Z) :=
  match items with
  | [] => best
  | item :: items' =>
      if expiry_of item <? expiry_of best then min_item item items'
      else min_item best items'
  end.

(** [min(cache.items(), key=...)[0]]; [min] of an empty sequence raises
    [ValueError]. *)
Definition oldest_key (c : list (string * (V * Z))) : outcome string :=
  match c with
  | [] => Raised (Exn ValueError "min() arg is an empty sequence")
  | item :: items => Returned (fst (min_item item items))
  end.

(** The lines after [await func(...)]: "Manage cache size", then
    [cache[cache_key] = (result, now + ttl)].  Nothing is awaited in
    between, so the segment runs without interleaving. *)
Definition store (max_items : Z) (c : list (string * (V * Z)))
    (cache_key : string) (item : V * Z) : outcome (list (string * (V * Z))) :=
  if max_items <=? Z.of_nat (List.length c) then
    match oldest_key c with
    | Returned oldest =>
        Returned (Dict.set String.eqb (Dict.del String.eqb c oldest)
                           cache_key item)
    | Raised e => Raised e
    end
  else Returned (Dict.set String.eqb c cache_key item).

(** The cached result served for [cache_key] at time [now], if any. *)
Definition lookup (c : list (string * (V * Z))) (cache_key : string)
    (now : Z) : option V :=
  match Dict.get String.eqb c cache_key with
  | Some (result, expiry) => if now <? expiry then Some result else None
  | None => None
  end.

Variable get_closure : world -> cache_state V.
Variable set_closure : cache_state V -> world -> world.

Definition read_closure : M (cache_state V) :=
  fun _ w => (Returned (get_closure w), w).

Definition write_closure (cs : cache_state V) : M unit :=
  fun _ w => (Returned tt, set_closure cs w).

(** The [wrapper] coroutine around the decorated coroutine [func], called
    with positional arguments [args] and keyword arguments [kwargs]. *)
Definition wrapper (ttl_seconds max_size : option Z) (func_name : string)
    (func : M V) (args : list string) (kwargs : list (string * string))
    : M V :=
  E <- ask ;;
  let ttl := py_or ttl_seconds (cache_ttl (settings E)) in
  let max_items := py_or max_size (cache_max_size (settings E)) in
  if negb (enable_cache (settings E)) then func
  else
    let cache_key := make_key func_name args kwargs in
    now <- time_time ;;
    cs <- read_closure ;;
    match lookup (cache cs) cache_key now with
    | Some result =>
        write_closure (CacheState (cache cs) (hits cs + 1) (misses cs)) ;;;
        ret result
    | None =>
        write_closure (CacheState (cache cs) (hits cs) (misses cs + 1)) ;;;
        result <- func ;;
        cs' <- read_closure ;;
        cache' <- lift_outcome
                    (store max_items (cache cs') cache_key
                           (result, now + ttl)) ;;
        write_closure (CacheState cache' (hits cs') (misses cs')) ;;;
        ret result
    end.

(** [wrapper.cache_clear()]. *)
Definition cache_clear : M unit :=
  cs <- read_closure ;;
  write_closure (CacheState [] (hits cs) (misses cs)).

End Closure.
End AsyncCache.

(** ** [MFAPIRepository] *)

Module MFAPIRepository.

Definition set_all_funds_cache (cs : cache_state (list fund_entry))
    (w : world) : world :=
  World (clock_reads w) (llm_calls w) (http_calls w) cs (fund_cache w).

Definition set_fund_cache (cs : cache_state (option fund_payload))
    (w : world) : world :=
  World (clock_reads w) (llm_calls w) (http_calls w) (all_funds_cache w) cs.

(** [_make_request(endpoint)]: the GET request and [response.json()];
    [answer] decodes the body at the type the caller expects.  An
    [httpx.HTTPError] is logged and re-raised. *)
Definition _make_request {A : Type} (answer : env -> nat -> outcome A)
    (endpoint : string) : M A :=
  fun E w =>
    (answer E (List.length (http_calls w)),
     World (clock_reads w) (llm_calls w) (http_calls w ++ [endpoint])%list
           (all_funds_cache w) (fund_cache w)).

(** [str(scheme_code)]. *)
Definition str_code (scheme_code : option Z) : string :=
  match scheme_code with
  | Some n => Str.of_Z n
  | None => "None"
  end.

(** The undecorated body of [get_all_funds]. *)
Definition get_all_funds_body : M (list fund_entry) :=
  try_except (_make_request http_listing EmptyString) (fun _ => ret []).

(** [@async_cache() async def get_all_funds(self)]. *)
Definition get_all_funds : M (list fund_entry) :=
  E <- ask ;;
  AsyncCache.wrapper all_funds_cache set_all_funds_cache None None
    "get_all_funds" get_all_funds_body [repository_str E] [].

(** The undecorated body of [get_fund]. *)
Definition get_fund_body (scheme_code : option Z) : M (option fund_payload) :=
  let endpoint := "/" ++ str_code scheme_code in
  try_except
    (data <- _make_request (fun E n => http_fund E n endpoint) endpoint ;;
     ret (Some data))
    (fun _ => ret None).

(** [@async_cache() async def get_fund(self, scheme_code)]. *)
Definition get_fund (scheme_code : option Z) : M (option fund_payload) :=
  E <- ask ;;
  AsyncCache.wrapper fund_cache set_fund_cache None None
    "get_fund" (get_fund_body scheme_code)
    [repository_str E; str_code scheme_code] [].

End MFAPIRepository.

(** Sequencing of pure calls that may raise. *)
Definition and_then {A B : Type} (o : outcome A) (k : A -> outcome B)
    : outcome B :=
  match o with
  | Returned a => k a
  | Raised e => Raised e
  end.

(** [d.get(key, default)] on an optional text member. *)
Definition text_or (o : option string) (default : string) : string :=
  match o with Some s => s | None => default end.

(** ** [MutualFundService] *)

Module MutualFundService.

Definition common_fund_houses : list string :=
  ["HDFC"; "SBI"; "ICICI"; "Axis"; "Kotak"; "Aditya Birla";
   "Nippon"; "DSP"; "UTI"; "IDFC"; "Franklin"; "Tata"; "Mirae";
   "Invesco"; "Canara"; "L&T"; "Motilal"; "Parag Parikh"; "Edelweiss"].

Definition _extract_fund_house (scheme_name : string) : string :=
  match find (fun fund_house => Str.contains fund_house scheme_name)
             common_fund_houses with
  | Some fund_house => fund_house
  | None => EmptyString
  end.

(** [any(term in scheme_name_lower for term in terms)]. *)
Definition any_in (terms : list string) (scheme_name_lower : string) : bool :=
  existsb (fun term => Str.contains term scheme_name_lower) terms.

Definition _categorize_fund (scheme_name : string) : string :=
  let scheme_name_lower := Str.lower scheme_name in
  if any_in ["equity"; "large cap"; "mid cap"; "small cap"; "flexi cap"]
            scheme_name_lower then "Equity"
  else if any_in ["debt"; "bond"; "income"; "liquid"; "gilt"]
                 scheme_name_lower then "Debt"
  else if any_in ["hybrid"; "balanced"; "equity savings"]
                 scheme_name_lower then "Hybrid"
  else if any_in ["retirement"; "children"; "tax saver"; "elss"]
                 scheme_name_lower then "Solution Oriented"
  else "Other".

(** *** Return calculator: [_calculate_returns] *)

(** The [periods] table, in days, in the order the loop visits it. *)
Definition periods : list (string * Z) :=
  [("1M", 30); ("3M", 91); ("6M", 182); ("1Y", 365); ("3Y", 1095); ("5Y", 1825)].

(** [datetime.strptime(entry.get("date", ""), "%d-%m-%Y")]: a [TypeError]
    for a value that is not text, a [ValueError] for text that does not
    match the format or names no day of the calendar. *)
Definition strptime_date (entry : nav_entry) : outcome Z :=
  match get_date entry with
  | DateNotText => Raised (Exn TypeError "strptime() argument 1 must be str")
  | DateText s =>
      match Dates.strptime s with
      | Some d => Returned d
      | None => Raised (Exn ValueError "time data does not match format")
      end
  end.

(** [except (ValueError, TypeError): continue], on the pair
    [(min_diff, closest_nav)] as the [try] body left it; any other
    exception leaves the loop and the function. *)
Definition except_continue (e : exn) (acc : Z * option float)
    : outcome (Z * option float) :=
  match exn_class_of e with
  | ValueError | TypeError => Returned acc
  | _ => Raised e
  end.

(** Body of the inner [for entry in nav_data] loop, on the pair
    [(min_diff, closest_nav)]; the conversion of the value comes after the
    assignment to [min_diff]. *)
Definition scan_entry (target_date : Z) (acc : Z * option float)
    (entry : nav_entry) : outcome (Z * option float) :=
  let '(min_diff, closest_nav) := acc in
  match strptime_date entry with
  | Raised e => except_continue e acc
  | Returned entry_date =>
      let diff := Z.abs (entry_date - target_date) in
      if diff <? min_diff then
        match float_nav entry with
        | Returned v => Returned (diff, Some v)
        | Raised e => except_continue e (diff, closest_nav)
        end
      else Returned acc
  end.

(** The inner loop from a given pair. *)
Fixpoint scan (target_date : Z) (nav_data : list nav_entry)
    (acc : Z * option float) : outcome (Z * option float) :=
  match nav_data with
  | [] => Returned acc
  | entry :: rest =>
      match scan_entry target_date acc entry with
      | Returned acc' => scan target_date rest acc'
      | Raised e => Raised e
      end
  end.

(** The inner loop, started from [min_diff = timedelta(days=365)] and
    [closest_nav = None]. *)
Definition find_closest (target_date : Z) (nav_data : list nav_entry)
    : outcome (Z * option float) :=
  scan target_date nav_data (365, None).

(** [if closest_nav and closest_nav > 0: ... round(period_return, 2)]. *)
Definition period_return (latest_nav : float) (closest_nav : option float)
    : option float :=
  match closest_nav with
  | Some c =>
      if Flt.truthy c && PrimFloat.ltb 0%float c
      then Some (Flt.round2 (((latest_nav - c) / c) * 100)%float)
      else None
  | None => None
  end.

(** What one turn of the outer loop stores for a window of [delta] days. *)
Definition window_return (latest_nav : float) (latest_date : Z)
    (nav_data : list nav_entry) (delta : Z) : outcome (option float) :=
  and_then (find_closest (latest_date - delta) nav_data) (fun found =>
  Returned (period_return latest_nav (snd found))).

(** The outer [for period_key, period_delta in periods.items()] loop.
    [latest_date - period_delta] raises [OverflowError] when the target
    falls before [datetime.min]; what the inner loop does not catch ends
    the outer loop too. *)
Fixpoint returns_loop (latest_nav : float) (latest_date : Z)
    (nav_data : list nav_entry) (ps : list (string * Z))
    (returns : list (string * float)) : outcome (list (string * float)) :=
  match ps with
  | [] => Returned returns
  | (period_key, period_delta) :: ps' =>
      if latest_date - period_delta <? Dates.min_ordinal
      then Raised (Exn OverflowError "date value out of range")
      else
        match window_return latest_nav latest_date nav_data period_delta with
        | Raised e => Raised e
        | Returned (Some r) =>
            returns_loop latest_nav latest_date nav_data ps'
              (Dict.set String.eqb returns period_key r)
        | Returned None =>
            returns_loop latest_nav latest_date nav_data ps' returns
        end
  end.

(** The first entry is read outside the loop: its value outside any
    [try], its date under [except ValueError] alone. *)
Definition _calculate_returns (nav_data : list nav_entry)
    : outcome (list (string * float)) :=
  match nav_data with
  | [] | [_] => Returned []
  | first :: _ =>
      match float_nav first with
      | Raised e => Raised e
      | Returned latest_nav =>
          match strptime_date first with
          | Raised e =>
              match exn_class_of e with
              | ValueError => Returned []
              | _ => Raised e
              end
          | Returned latest_date =>
              returns_loop latest_nav latest_date nav_data periods []
          end
      end
  end.

(** *** [search_funds] *)

(** [all(term in scheme_name for term in query_terms)]. *)
Definition matches (query_terms : list string) (fund : fund_entry) : bool :=
  let scheme_name := Str.lower (text_or (schemeName fund) EmptyString) in
  forallb (fun term => Str.contains term scheme_name) query_terms.

(** The [FundSummary] appended for a matching fund. *)
Definition summary_of (fund : fund_entry) : FundSummary :=
  Build_FundSummary (schemeCode fund) (schemeName fund)
    (_extract_fund_house (text_or (schemeName fund) EmptyString))
    (_categorize_fund (text_or (schemeName fund) EmptyString)).

(** The [for fund in all_funds] loop; the test against [limit] comes
    after the [append]. *)
Fixpoint filter_loop (query_terms : list string) (limit : Z)
    (all_funds : list fund_entry) (filtered_funds : list FundSummary)
    : list FundSummary :=
  match all_funds with
  | [] => filtered_funds
  | fund :: rest =>
      if matches query_terms fund then
        let filtered_funds' := (filtered_funds ++ [summary_of fund])%list in
        if limit <=? Z.of_nat (List.length filtered_funds')
        then filtered_funds'
        else filter_loop query_terms limit rest filtered_funds'
      else filter_loop query_terms limit rest filtered_funds
  end.

Definition search_funds (query : string) (limit : Z) : M (list FundSummary) :=
  try_except
    (all_funds <- MFAPIRepository.get_all_funds ;;
     let query_terms := Str.split (Str.lower query) in
     ret (filter_loop query_terms limit all_funds []))
    (fun _ => ret []).

(** *** [get_fund_details] *)

(** [[NavDataPoint(date=..., nav=float(...)) for item in items]]. *)
Fixpoint nav_points (items : list nav_entry) : outcome (list NavDataPoint) :=
  match items with
  | [] => Returned []
  | item :: items' =>
      and_then (float_nav item) (fun v =>
      and_then (nav_points items') (fun ps =>
      Returned (Build_NavDataPoint (get_date item) v :: ps)))
  end.

(** The branch taken when the record is present with status [SUCCESS]. *)
Definition build_detail (scheme_code : option Z) (include_nav_data : bool)
    (data : fund_payload) : outcome FundDetail :=
  let fund_data := match payload_meta data with
                   | Some m => m
                   | None => FundMeta None None None None
                   end in
  let nav_data_raw := match payload_data data with
                      | Some l => l
                      | None => []
                      end in
  and_then (_calculate_returns nav_data_raw) (fun returns =>
  let performance :=
    Build_PerformanceMetrics
      (Dict.get String.eqb returns "1M") (Dict.get String.eqb returns "3M")
      (Dict.get String.eqb returns "6M") (Dict.get String.eqb returns "1Y")
      (Dict.get String.eqb returns "3Y") (Dict.get String.eqb returns "5Y") in
  and_then (match nav_data_raw with
            | first :: _ => and_then (float_nav first)
                              (fun v => Returned (Some v))
            | [] => Returned None
            end) (fun scheme_nav =>
  let scheme_nav_date := match nav_data_raw with
                         | first :: _ => Some (get_date first)
                         | [] => None
                         end in
  let fund_detail :=
    Build_FundDetail scheme_code
      (text_or (meta_scheme_name fund_data) EmptyString)
      (text_or (meta_fund_house fund_data) EmptyString)
      (text_or (meta_scheme_type fund_data) EmptyString)
      (text_or (meta_scheme_category fund_data) EmptyString)
      scheme_nav scheme_nav_date performance None in
  match include_nav_data, nav_data_raw with
  | true, _ :: _ =>
      and_then (nav_points (firstn 365 nav_data_raw)) (fun points =>
      Returned
        (Build_FundDetail scheme_code
           (detail_scheme_name fund_detail) (detail_fund_house fund_detail)
           (detail_scheme_type fund_detail)
           (detail_scheme_category fund_detail)
           scheme_nav scheme_nav_date performance (Some points)))
  | _, _ => Returned fund_detail
  end)).

Definition get_fund_details (scheme_code : option Z)
    (include_nav_data : bool) : M (option FundDetail) :=
  try_except
    (data <- MFAPIRepository.get_fund scheme_code ;;
     match data with
     | Some d =>
         match payload_status d with
         | Some status =>
             if String.eqb status "SUCCESS"
             then fund_detail <- lift_outcome
                                   (build_detail scheme_code include_nav_data d) ;;
                  ret (Some fund_detail)
             else ret None
         | None => ret None
         end
     | None => ret None
     end)
    (fun _ => ret None).

End MutualFundService.

(** ** [QueryAnalyzer] *)

Module QueryAnalyzer.

Definition newline : ascii := ascii_of_nat 10.
Definition double_quote : ascii := ascii_of_nat 34.

(** [x in names] for a list of strings. *)
Definition mem (x : string) (names : list string) : bool :=
  existsb (String.eqb x) names.

(** One line of [extract_fund_names]: the name it contributes, if any. *)
Definition fund_name_of_line (line : string) : option string :=
  if Str.contains "fund" (Str.lower line) && Str.contains ":" line then
    match Str.after_first ":" line with
    | Some tail =>
        let name_part := Str.strip tail in
        if Str.truthy name_part
           && negb (mem (Str.lower name_part)
                        ["none"; "not mentioned"; "not specified"])
        then Some name_part else None
    | None => None
    end
  else None.

Fixpoint collect_names (lines : list string) : list string :=
  match lines with
  | [] => []
  | line :: lines' =>
      match fund_name_of_line line with
      | Some name => name :: collect_names lines'
      | None => collect_names lines'
      end
  end.

Definition extract_fund_names (analysis : string) : list string :=
  collect_names (Str.split_on newline analysis).

(** The text before the first ["]"], when there is one. *)
Fixpoint until_close (s : string) : option string :=
  match s with
  | EmptyString => None
  | String c s' =>
      if Ascii.eqb c "]" then Some EmptyString
      else match until_close s' with
           | Some body => Some (String c body)
           | None => None
           end
  end.

(** [re.search(r'\[(.+?)\]', s, re.DOTALL).group(1)]: at the leftmost
    ["["] that admits a match, one character and then as few as possible
    up to a ["]"]. *)
Fixpoint search_list (s : string) : option string :=
  match s with
  | EmptyString => None
  | String c s' =>
      if Ascii.eqb c "[" then
        match s' with
        | String c1 s'' =>
            match until_close s'' with
            | Some body => Some (String c1 body)
            | None => search_list s'
            end
        | EmptyString => None
        end
      else search_list s'
  end.

(** [re.findall] of a quote, a non-empty run without the quote, and the
    quote again.  [inside] holds the run read since the pending opening
    quote, in reverse. *)
Fixpoint findall_quoted (q : ascii) (inside : option string) (s : string)
    : list string :=
  match s with
  | EmptyString => []
  | String c s' =>
      match inside with
      | None =>
          if Ascii.eqb c q then findall_quoted q (Some EmptyString) s'
          else findall_quoted q None s'
      | Some run =>
          if Ascii.eqb c q then
            match run with
            | EmptyString => findall_quoted q (Some EmptyString) s'
            | _ => Str.rev run :: findall_quoted q None s'
            end
          else findall_quoted q (Some (String c run)) s'
      end
  end.

(** [[t for t in terms if t and t.strip()]]. *)
Definition usable (term : string) : bool :=
  Str.truthy term && Str.truthy (Str.strip term).

Definition parse_search_terms (search_terms_text : string) : list string :=
  match search_list search_terms_text with
  | Some terms_text =>
      let terms := findall_quoted double_quote None terms_text in
      let terms := match terms with
                   | [] => findall_quoted "'" None terms_text
                   | _ => terms
                   end in
      let terms := match terms with
                   | [] => map Str.strip (Str.split_on "," terms_text)
                   | _ => terms
                   end in
      filter usable terms
  | None =>
      if Str.contains (String newline EmptyString) search_terms_text then
        map Str.strip
          (filter (fun term => Str.truthy (Str.strip term))
                  (Str.split_on newline search_terms_text))
      else
        map Str.strip
          (filter (fun term => Str.truthy (Str.strip term))
                  (Str.split_on "," search_terms_text))
  end.

Definition comparison_keywords : list string :=
  ["compare"; "comparison"; "versus"; "vs"; "vs.";
   "better"; "difference"; "differences"; "which is better";
   "contrast"; "against"].

Definition is_comparison_query (query : string) : bool :=
  let query_lower := Str.lower query in
  existsb (fun keyword => Str.contains keyword query_lower)
          comparison_keywords.

End QueryAnalyzer.

(** ** The stage functions of [agents/nodes.py] *)

Module Nodes.

(** [{**state, key: value}] for each key the stages assign. *)
Definition with_chat_history (h : list turn) (s : state) : state :=
  State (st_query s) (Some h) (st_query_analysis s) (st_fund_names s)
    (st_search_results s) (st_fund_details s) (st_fund_analysis s)
    (st_response s) (st_error s).

Definition with_query_analysis (a : string) (s : state) : state :=
  State (st_query s) (st_chat_history s) (Some a) (st_fund_names s)
    (st_search_results s) (st_fund_details s) (st_fund_analysis s)
    (st_response s) (st_error s).

Definition with_fund_names (l : list string) (s : state) : state :=
  State (st_query s) (st_chat_history s) (st_query_analysis s) (Some l)
    (st_search_results s) (st_fund_details s) (st_fund_analysis s)
    (st_response s) (st_error s).

Definition with_search_results (l : list FundSummary) (s : state) : state :=
  State (st_query s) (st_chat_history s) (st_query_analysis s)
    (st_fund_names s) (Some l) (st_fund_details s) (st_fund_analysis s)
    (st_response s) (st_error s).

Definition with_fund_details (l : list FundDetail) (s : state) : state :=
  State (st_query s) (st_chat_history s) (st_query_analysis s)
    (st_fund_names s) (st_search_results s) (Some l) (st_fund_analysis s)
    (st_response s) (st_error s).

Definition with_fund_analysis (a : string) (s : state) : state :=
  State (st_query s) (st_chat_history s) (st_query_analysis s)
    (st_fund_names s) (st_search_results s) (st_fund_details s) (Some a)
    (st_response s) (st_error s).

Definition with_response (r : string) (s : state) : state :=
  State (st_query s) (st_chat_history s) (st_query_analysis s)
    (st_fund_names s) (st_search_results s) (st_fund_details s)
    (st_fund_analysis s) (Some r) (st_error s).

Definition with_error (e : string) (s : state) : state :=
  State (st_query s) (st_chat_history s) (st_query_analysis s)
    (st_fund_names s) (st_search_results s) (st_fund_details s)
    (st_fund_analysis s) (st_response s) (Some e).

(** [str(len(l))]. *)
Definition str_len {A : Type} (l : list A) : string :=
  Str.of_Z (Z.of_nat (List.length l)).

Definition analyze_query (s : state) : M state :=
  let query := st_query s in
  let chat_history := get_chat_history s in
  try_except
    (let messages := QUERY_ANALYSIS_PROMPT query in
     analysis <- generate_response messages None ;;
     let fund_names := QueryAnalyzer.extract_fund_names analysis in
     ret (with_chat_history
            (chat_history ++
               [HumanMessage query;
                AIMessage "I'm analyzing your query about mutual funds."])%list
            (with_fund_names fund_names
               (with_query_analysis analysis s))))
    (fun e =>
       ret (with_chat_history (chat_history ++ [HumanMessage query])%list
              (with_error ("Query analysis failed: " ++ exn_str e) s))).

(** [for name in names: results = await search_funds(name, limit=5);
    search_results.extend(results)]. *)
Definition search_each (names : list string) (search_results : list FundSummary)
    : M (list FundSummary) :=
  for_each
    (fun acc name =>
       results <- MutualFundService.search_funds name 5 ;;
       ret (acc ++ results)%list)
    names search_results.

Definition code_eqb (a b : option Z) : bool :=
  match a, b with
  | Some x, Some y => x =? y
  | None, None => true
  | _, _ => false
  end.

(** [{result.scheme_code: result for result in search_results}]. *)
Definition unique_by_code (search_results : list FundSummary)
    : list (option Z * FundSummary) :=
  fold_left (fun d result => Dict.set code_eqb d (summary_scheme_code result) result)
            search_results [].

Definition search_funds (s : state) : M state :=
  let query := st_query s in
  let chat_history := get_chat_history s in
  let fund_names := match st_fund_names s with Some l => l | None => [] end in
  try_except
    (search_results <-
       match fund_names with
       | _ :: _ => search_each fund_names []
       | [] =>
           let messages := FUND_SEARCH_PROMPT query chat_history in
           search_terms_text <- generate_response messages None ;;
           try_except
             (let search_terms :=
                QueryAnalyzer.parse_search_terms search_terms_text in
              search_each search_terms [])
             (fun _ => MutualFundService.search_funds query 10)
       end ;;
     let unique_results := unique_by_code search_results in
     ret (with_chat_history
            (chat_history ++
               [AIMessage ("I found " ++ str_len unique_results
                           ++ " funds that match your query.")])%list
            (with_search_results (Dict.values unique_results) s)))
    (fun e =>
       ret (with_chat_history chat_history
              (with_search_results []
                 (with_error ("Fund search failed: " ++ exn_str e) s)))).

Definition fetch_fund_details (s : state) : M state :=
  let search_results :=
    match st_search_results s with Some l => l | None => [] end in
  let chat_history := get_chat_history s in
  try_except
    (let max_funds := Nat.min (List.length search_results) 3 in
     match max_funds with
     | O =>
         ret (with_chat_history
                (chat_history ++
                   [AIMessage "I couldn't find any relevant funds to analyze."])%list
                (with_fund_details [] s))
     | _ =>
         fund_details <-
           for_each
             (fun acc fund =>
                details <- MutualFundService.get_fund_details
                             (summary_scheme_code fund) true ;;
                match details with
                | Some d => ret (acc ++ [d])%list
                | None => ret acc
                end)
             (firstn max_funds search_results) [] ;;
         ret (with_chat_history
                (chat_history ++
                   [AIMessage ("I've gathered detailed information on "
                               ++ str_len fund_details ++ " funds.")])%list
                (with_fund_details fund_details s))
     end)
    (fun e =>
       ret (with_chat_history chat_history
              (with_fund_details []
                 (with_error ("Fund details fetch failed: " ++ exn_str e) s)))).

Definition no_funds_response : string :=
  "I couldn't find any mutual funds matching your query. Could you please provide more specific information?".

Definition analyze_funds (s : state) : M state :=
  let query := st_query s in
  let fund_details :=
    match st_fund_details s with Some l => l | None => [] end in
  let chat_history := get_chat_history s in
  match fund_details with
  | [] =>
      ret (with_chat_history
             (chat_history ++
                [AIMessage "I couldn't find any mutual funds matching your query."])%list
             (with_response no_funds_response s))
  | first :: others =>
      try_except
        (analysis <-
           match others with
           | second :: _ =>
               if QueryAnalyzer.is_comparison_query query then
                 generate_response
                   (FUND_COMPARISON_PROMPT query first second chat_history)
                   None
               else
                 generate_response
                   (FUND_ANALYSIS_PROMPT query first chat_history) None
           | [] =>
               generate_response
                 (FUND_ANALYSIS_PROMPT query first chat_history) None
           end ;;
         ret (with_chat_history
                (chat_history ++
                   [AIMessage "I've analyzed the fund data based on your query."])%list
                (with_fund_analysis analysis s)))
        (fun e =>
           ret (with_chat_history chat_history
                  (with_fund_analysis
                     "I couldn't analyze the fund data due to a technical error."
                     (with_error ("Fund analysis failed: " ++ exn_str e) s))))
  end.

Definition analysis_failed_response : string :=
  "I'm sorry, I couldn't complete the analysis of mutual funds based on your query. Please try again with more specific details or check if the fund names are correct.".

Definition no_response_apology : string :=
  "I'm sorry, I couldn't generate a response based on your query.".

(** Truth value of [state.get(key)] for an optional text. *)
Definition text_truthy (o : option string) : bool :=
  match o with Some t => Str.truthy t | None => false end.

Definition generate_final_response (s : state) : M state :=
  let query := st_query s in
  let chat_history := get_chat_history s in
  let fund_analysis := text_or (st_fund_analysis s) EmptyString in
  let error := st_error s in
  if text_truthy error && negb (Str.truthy fund_analysis) then
    ret (with_chat_history
           (chat_history ++
              [AIMessage "I couldn't complete the analysis of mutual funds."])%list
           (with_response analysis_failed_response s))
  else
    try_except
      (let context := fund_analysis in
       let messages := FINAL_RESPONSE_PROMPT query context chat_history in
       response <- generate_response messages (Some 0.3%float) ;;
       ret (with_chat_history (chat_history ++ [AIMessage response])%list
              (with_response response s)))
      (fun _ =>
         ret (with_chat_history
                (chat_history ++
                   [AIMessage "Here's what I found about the mutual funds you asked about."])%list
                (with_response
                   (if Str.truthy fund_analysis then fund_analysis
                    else no_response_apology) s))).

End Nodes.

(** ** [FundAdvisorAgent] of [agents/fund_agent.py] *)

Module FundAdvisorAgent.

(** Modelled from the spec: the graph engine ([StateGraph], [compile] and
    [ainvoke] of the library [langgraph]) is not among the sources.
    Following section 4.4 of the specification, "a fixed, linear 5-stage
    workflow (not a general graph - no branching, no cycles)", the graph
    is taken to be built and compiled without failure, and [ainvoke] to run
    the five nodes one after the other along the edges that
    [_create_graph] adds,
    [analyze_query -> search_funds -> fetch_fund_details -> analyze_funds
     -> generate_final_response -> END],
    each on the state returned by the one before; an exception that leaves
    a node ends the run. *)
Definition ainvoke (s : state) : M state :=
  s1 <- Nodes.analyze_query s ;;
  s2 <- Nodes.search_funds s1 ;;
  s3 <- Nodes.fetch_fund_details s2 ;;
  s4 <- Nodes.analyze_funds s3 ;;
  Nodes.generate_final_response s4.

(** [{"query": query, "chat_history": chat_history or []}]. *)
Definition initial_state (query : string) (chat_history : option (list turn))
    : state :=
  State query
    (Some (match chat_history with Some h => h | None => [] end))
    None None None None None None None.

Definition process_query (query : string) (chat_history : option (list turn))
    : M string :=
  try_except
    (result <- ainvoke (initial_state query chat_history) ;;
     ret (text_or (st_response result)
            "I couldn't generate a response. Please try again."))
    (fun _ =>
       ret "I encountered an error while processing your query. Please try again.").

End FundAdvisorAgent.

(** ** The return calculator as the specification words it *)

(** A history entry as a valuation point [(date, value)], when its date
    parses and its value converts. *)
Definition point_of (e : nav_entry) : option (Z * float) :=
  match MutualFundService.strptime_date e, float_nav e with
  | Returned d, Returned v => Some (d, v)
  | _, _ => None
  end.

(** The points of a history all of whose entries are valid. *)
Fixpoint as_points (h : list nav_entry) : option (list (Z * float)) :=
  match h with
  | [] => Some []
  | e :: h' =>
      match point_of e, as_points h' with
      | Some p, Some ps => Some (p :: ps)
      | _, _ => None
      end
  end.

(** Absolute difference, in days, between a point's date and the target. *)
Definition distance (target : Z) (p : Z * float) : Z := Z.abs (fst p - target).

(** "Scan all points and select the one whose date has the smallest absolute
    difference to the target date; the first point reaching the minimum
    difference wins." *)
Fixpoint nearest_acc (target : Z) (best : option (Z * float))
    (pts : list (Z * float)) : option (Z * float) :=
  match pts with
  | [] => best
  | p :: ps =>
      match best with
      | None => nearest_acc target (Some p) ps
      | Some b =>
          if distance target p <? distance target b
          then nearest_acc target (Some p) ps
          else nearest_acc target best ps
      end
  end.

Definition nearest (target : Z) (pts : list (Z * float)) : option (Z * float) :=
  nearest_acc target None pts.

(** The window's return as the specification states it: computed from the
    nearest of all points. *)
Definition spec_window_return (latest_nav : float) (latest_date : Z)
    (pts : list (Z * float)) (delta : Z) : option float :=
  MutualFundService.period_return latest_nav
    (option_map snd (nearest (latest_date - delta) pts)).

(** The points less than 365 days away from the target. *)
Definition within_year (target : Z) (pts : list (Z * float))
    : list (Z * float) :=
  filter (fun p => distance target p <? 365) pts.


(** In the scan for [target], started with [min_diff], an entry whose value
    is an integer beyond the range of a float is converted: its date parses,
    lies less than [min_diff] from the target, and strictly nearer to it
    than the date of every earlier entry whose date parses. *)
Definition converts_too_large (target min_diff : Z) (h : list nav_entry)
    : Prop :=
  exists pre e post d,
    h = (pre ++ e :: post)%list
    /\ entry_nav e = NavTooLarge
    /\ MutualFundService.strptime_date e = Returned d
    /\ Z.abs (d - target) < min_diff
    /\ forall e' d',
         In e' pre -> MutualFundService.strptime_date e' = Returned d' ->
         Z.abs (d - target) < Z.abs (d' - target).

(** ** Sample data *)

Definition sample_history : list nav_entry :=
  [NavEntry (Some (DateText "21-04-2023")) (NavValue 845.123%float);
   NavEntry (Some (DateText "21-04-2022")) (NavValue 800%float)].


(** An entry whose date is [null]. *)
Definition untyped_date_entry : nav_entry :=
  NavEntry (Some DateNotText) (NavValue 850%float).

(** An entry whose value is an integer of some four hundred digits. *)
Definition too_large_entry : nav_entry :=
  NavEntry (Some (DateText "21-10-2020")) NavTooLarge.

(** The pair [(min_diff, closest_nav)] the scan holds when [best] is the
    point it has selected so far. *)
Definition scan_state (target : Z) (best : option (Z * float))
    : Z * option float :=
  match best with
  | Some b => (distance target b, Some (snd b))
  | None => (365, None)
  end.


(** A query that is empty or made of whitespace only. *)
Fixpoint blank (s : string) : bool :=
  match s with
  | EmptyString => true
  | String c s' => Str.is_space c && blank s'
  end.

Definition hdfc_top_100 : string := "HDFC Top 100 Fund-Growth Option".

Definition sample_listing : list fund_entry :=
  [FundEntry (Some 120465) (Some "ICICI Prudential Bluechip Fund - Growth");
   FundEntry (Some 119010) (Some hdfc_top_100);
   FundEntry (Some 118560) (Some "HDFC Liquid Fund - Growth");
   FundEntry (Some 100033) None].

(** A run in which the API serves [sample_listing], serves no fund record,
    and the text generation answers every prompt with the same sentence. *)
Definition sample_env : env :=
  Env default_settings "<MFAPIRepository object>"
      (fun n => 1000 + Z.of_nat n)
      (fun _ _ _ => Returned "No specific scheme is mentioned.")
      (fun _ => Returned sample_listing)
      (fun _ _ => Raised (Exn HTTPError "404 Not Found")).

(** ** Vocabulary for the result cache *)

(** The dictionaries the [cache] of one closure can hold: empty when the
    decorator is applied and after [cache_clear]; afterwards [wrapper]
    assigns to it only in the [store] segment of some call, whatever the
    interleaving of the calls. *)
Inductive reachable {V : Type} (max_items : Z)
    : list (string * (V * Z)) -> Prop :=
| reachable_empty : reachable max_items []
| reachable_store c cache_key item c' :
    reachable max_items c ->
    AsyncCache.store max_items c cache_key item = Returned c' ->
    reachable max_items c'.

(** The two cached lookups of the repository. *)
Inductive cached_lookup :=
| GetAllFunds
| GetFund (scheme_code : option Z).

Inductive lookup_result :=
| Listing (funds : list fund_entry)
| FundRecord (data : option fund_payload).

Definition call_lookup (q : cached_lookup) : M lookup_result :=
  match q with
  | GetAllFunds =>
      bind MFAPIRepository.get_all_funds (fun l => ret (Listing l))
  | GetFund scheme_code =>
      bind (MFAPIRepository.get_fund scheme_code) (fun r => ret (FundRecord r))
  end.

(** The cache key of a lookup. *)
Definition lookup_key (E : env) (q : cached_lookup) : string :=
  match q with
  | GetAllFunds => AsyncCache.make_key "get_all_funds" [repository_str E] []
  | GetFund scheme_code =>
      AsyncCache.make_key "get_fund"
        [repository_str E; MFAPIRepository.str_code scheme_code] []
  end.

(** No fresh entry is held for the lookup at time [now]. *)
Definition is_miss (E : env) (w : world) (q : cached_lookup) (now : Z) : Prop :=
  match q with
  | GetAllFunds =>
      AsyncCache.lookup (cache (all_funds_cache w)) (lookup_key E q) now = None
  | GetFund _ =>
      AsyncCache.lookup (cache (fund_cache w)) (lookup_key E q) now = None
  end.

(** The external call behind the lookup fails when made as the [n]-th
    request. *)
Definition external_call_fails (E : env) (n : nat) (q : cached_lookup) : Prop :=
  match q with
  | GetAllFunds => exists e, http_listing E n = Raised e
  | GetFund scheme_code =>
      exists e,
        http_fund E n ("/" ++ MFAPIRepository.str_code scheme_code) = Raised e
  end.

(** What the lookup returns for a failed external call. *)
Definition failure_result (q : cached_lookup) : lookup_result :=
  match q with
  | GetAllFunds => Listing []
  | GetFund _ => FundRecord None
  end.

Definition sample_payload : fund_payload :=
  FundPayload (Some "SUCCESS")
    (Some (FundMeta (Some hdfc_top_100) (Some "HDFC Mutual Fund")
                    (Some "Open Ended Schemes") (Some "Equity Scheme - Large Cap Fund")))
    (Some sample_history).

(** A run in which the first request to the API fails and every later one
    is answered. *)
Definition outage_env : env :=
  Env default_settings "<MFAPIRepository object>"
      (fun n => 1000 + Z.of_nat n)
      (fun _ _ _ => Returned "No specific scheme is mentioned.")
      (fun n => match n with
                | O => Raised (Exn HTTPError "503 Service Unavailable")
                | _ => Returned sample_listing
                end)
      (fun n _ => match n with
                  | O => Raised (Exn HTTPError "503 Service Unavailable")
                  | _ => Returned sample_payload
                  end).

(** ** Vocabulary for the pipeline *)

(** A computation that always returns a state whose conversation history
    is the history of [s] with turns appended. *)
Definition extends_history (s : state) (m : M state) : Prop :=
  forall E w,
    exists s' added,
      fst (m E w) = Returned s'
      /\ get_chat_history s' = (get_chat_history s ++ added)%list.

(** A stage that, on every input state, only appends to the history. *)
Definition appends_only (stage : state -> M state) : Prop :=
  forall s, extends_history s (stage s).

(** [generate_final_response] takes its short cut on [s]: an error is
    recorded and there is no fund-analysis text. *)
Definition error_without_analysis (s : state) : Prop :=
  Nodes.text_truthy (st_error s) = true
  /\ Str.truthy (text_or (st_fund_analysis s) EmptyString) = false.

Definition sample_query : string := "Tell me about the XYZ scheme".

(** A sequence of calls of the cached lookups, one after the other; a call
    that raises ends the sequence. *)
Fixpoint run_lookups (qs : list cached_lookup) : M unit :=
  match qs with
  | [] => ret tt
  | q :: qs' => bind (call_lookup q) (fun _ => run_lookups qs')
  end.

(** ** Request models of [schemas/request.py] *)

Module Requests.

(** [QueryRequest.validate_query]. *)
Definition validate_query (v : string) : outcome string :=
  if negb (Str.truthy v) || negb (Str.truthy (Str.strip v))
  then Raised (Exn ValueError "Query cannot be empty")
  else Returned (Str.strip v).

(** [QueryRequest.validate_max_results]. *)
Definition validate_max_results (v : option Z) : option Z :=
  match v with
  | Some n => if (n <? 1) || (10 <? n) then Some 5 else v
  | None => v
  end.

(** [ComparisonRequest.validate_fund_ids]. *)
Definition validate_fund_ids (v : list string) : outcome (list string) :=
  if (List.length v <? 2)%nat
  then Raised (Exn ValueError "At least 2 fund IDs are required for comparison")
  else if (3 <? List.length v)%nat then Returned (firstn 3 v)
  else Returned v.

Definition valid_periods : list string :=
  ["1M"; "3M"; "6M"; "1Y"; "3Y"; "5Y"].

(** [ComparisonRequest.validate_period]; [None] is in no list. *)
Definition validate_period (v : option string) : string :=
  match v with
  | Some p => if existsb (String.eqb p) valid_periods then p else "1Y"
  | None => "1Y"
  end.

End Requests.

(** ** Views of the two closures, by lookup *)

(** The [cache] of the closure behind a lookup, its values injected into
    [lookup_result]. *)
Definition cached_entries (w : world) (q : cached_lookup)
    : list (string * (lookup_result * Z)) :=
  match q with
  | GetAllFunds =>
      map (fun item => (fst item, (Listing (fst (snd item)), snd (snd item))))
          (cache (all_funds_cache w))
  | GetFund _ =>
      map (fun item => (fst item, (FundRecord (fst (snd item)), snd (snd item))))
          (cache (fund_cache w))
  end.

(** Its [cache_info]: hits and misses. *)
Definition cache_info (w : world) (q : cached_lookup) : Z * Z :=
  match q with
  | GetAllFunds => (hits (all_funds_cache w), misses (all_funds_cache w))
  | GetFund _ => (hits (fund_cache w), misses (fund_cache w))
  end.

(** The endpoint a lookup requests. *)
Definition endpoint_of (q : cached_lookup) : string :=
  match q with
  | GetAllFunds => EmptyString
  | GetFund scheme_code => "/" ++ MFAPIRepository.str_code scheme_code
  end.

(** What the lookup's coroutine returns when its request is the [n]-th one:
    the decoded body, or the failure result. *)
Definition fetched (E : env) (n : nat) (q : cached_lookup) : lookup_result :=
  match q with
  | GetAllFunds =>
      match http_listing E n with
      | Returned l => Listing l
      | Raised _ => Listing []
      end
  | GetFund scheme_code =>
      match http_fund E n (endpoint_of q) with
      | Returned data => FundRecord (Some data)
      | Raised _ => FundRecord None
      end
  end.

(** A record whose history holds a value that does not convert. *)
Definition damaged_payload : fund_payload :=
  FundPayload (Some "SUCCESS") None
    (Some (sample_history ++ [NavEntry (Some (DateText "21-04-2021")) NavMalformed])%list).

Definition damaged_env : env :=
  Env default_settings "<MFAPIRepository object>"
      (fun n => 1000 + Z.of_nat n)
      (fun _ _ _ => Returned "No specific scheme is mentioned.")
      (fun _ => Returned sample_listing)
      (fun _ _ => Returned damaged_payload).

(** Variants of [sample_env]: the cache switched off, a cache of size zero,
    and a text generation that fails on every call. *)
Definition disabled_env : env :=
  Env (Build_Settings false 3600 1000 0.1%float) (repository_str sample_env)
      (clock sample_env) (llm_generate sample_env)
      (http_listing sample_env) (http_fund sample_env).

Definition zero_size_env : env :=
  Env (Build_Settings true 3600 0 0.1%float) (repository_str sample_env)
      (clock sample_env) (llm_generate sample_env)
      (http_listing sample_env) (http_fund sample_env).

Definition silent_env : env :=
  Env default_settings (repository_str sample_env) (clock sample_env)
      (fun _ _ _ => Raised (Exn GenerationError "provider unavailable"))
      (http_listing sample_env) (http_fund sample_env).

Definition sample_detail : FundDetail :=
  Build_FundDetail (Some 119010) hdfc_top_100 "HDFC Mutual Fund"
    "Open Ended Schemes" "Equity Scheme - Large Cap Fund" None None
    (Build_PerformanceMetrics None None None None None None) None.

(** A run in which the text generation answers every prompt with the
    sentence of the fixed apology of [generate_final_response]. *)
Definition parroting_env : env :=
  Env default_settings (repository_str sample_env) (clock sample_env)
      (fun _ _ _ => Returned Nodes.analysis_failed_response)
      (http_listing sample_env) (http_fund sample_env).

(** A state that reaches [analyze_funds] with two details and a comparison
    query. *)
Definition comparison_state : state :=
  State "compare these two" None None None None
        (Some [sample_detail; sample_detail]) None None None.

(** The entry held for a lookup: what the [cache] of its closure maps the
    lookup's key to. *)
Definition entry_of (E : env) (w : world) (q : cached_lookup)
    : option (lookup_result * Z) :=
  Dict.get String.eqb (cached_entries w q) (lookup_key E q).

(** The key of the lookup is in the [cache] of its closure. *)
Definition holds_key (E : env) (w : world) (q : cached_lookup) : bool :=
  match entry_of E w q with
  | Some _ => true
  | None => false
  end.

(** The entry of [q] is not evicted while the lookups [between] are called
    one after the other from [w]: after each of them the key of [q] is
    still in the cache. *)
Fixpoint not_evicted (E : env) (q : cached_lookup)
    (between : list cached_lookup) (w : world) : Prop :=
  match between with
  | [] => True
  | q' :: rest =>
      holds_key E (snd (call_lookup q' E w)) q = true
      /\ not_evicted E q rest (snd (call_lookup q' E w))
  end.

(** The association list behind the lookup holds each key once, as the
    dictionary it stands for. *)
Definition distinct_keys (w : world) (q : cached_lookup) : Prop :=
  NoDup (Dict.keys (cached_entries w q)).

(** A run with room for one cache entry, in which the first request to the
    API fails and every later one is answered. *)
Definition single_slot_env : env :=
  Env (Build_Settings true 3600 1 0.1%float) (repository_str outage_env)
      (clock outage_env) (llm_generate outage_env)
      (http_listing outage_env) (http_fund outage_env).

(** * Properties *)
(** ** Facts about dictionaries *)

Lemma dict_get_set_same {V : Type} (d : list (string * V)) k v :
  Dict.get String.eqb (Dict.set String.eqb d k v) k = Some v.
Proof.
  induction d as [|[k' v'] d IH]; simpl.
  - now rewrite String.eqb_refl.
  - destruct (String.eqb k' k) eqn:Hk; simpl; rewrite Hk; auto.
Qed.

Lemma dict_get_set_other {V : Type} (d : list (string * V)) k k' v :
  k <> k' ->
  Dict.get String.eqb (Dict.set String.eqb d k v) k' = Dict.get String.eqb d k'.
Proof.
  intros Hne. induction d as [|[k0 v0] d IH]; simpl.
  - destruct (String.eqb_spec k k'); [contradiction|reflexivity].
  - destruct (String.eqb_spec k0 k) as [->|Hk0]; simpl.
    + destruct (String.eqb_spec k k'); [contradiction|reflexivity].
    + destruct (String.eqb k0 k'); auto.
Qed.

Lemma dict_get_del_other {V : Type} (d : list (string * V)) k k' :
  k <> k' ->
  Dict.get String.eqb (Dict.del String.eqb d k) k' = Dict.get String.eqb d k'.
Proof.
  intros Hne. induction d as [|[k0 v0] d IH]; simpl; [reflexivity|].
  destruct (String.eqb_spec k0 k) as [->|Hk0]; simpl.
  - destruct (String.eqb_spec k k'); [contradiction|reflexivity].
  - destruct (String.eqb k0 k'); auto.
Qed.

Lemma dict_get_map {V W : Type} (f : V -> W) (c : list (string * (V * Z))) k :
  Dict.get String.eqb
    (map (fun item => (fst item, (f (fst (snd item)), snd (snd item)))) c) k
  = match Dict.get String.eqb c k with
    | Some (v, e) => Some (f v, e)
    | None => None
    end.
Proof.
  induction c as [|[k' [v e]] c IH]; simpl; [reflexivity|].
  destruct (String.eqb k' k); [reflexivity|exact IH].
Qed.

(** ** The return calculator *)

Import MutualFundService.

(** The table of the outer loop read as a dictionary: every window ends up
    with what its turn of the loop stored. *)
Lemma returns_loop_lookup latest_nav latest_date nav_data :
  forall ps acc m,
    NoDup (map fst ps) ->
    returns_loop latest_nav latest_date nav_data ps acc = Returned m ->
    forall k,
      Dict.get String.eqb m k =
      match Dict.get String.eqb ps k with
      | Some delta =>
          match window_return latest_nav latest_date nav_data delta with
          | Returned (Some r) => Some r
          | _ => Dict.get String.eqb acc k
          end
      | None => Dict.get String.eqb acc k
      end.
Proof.
  induction ps as [|[k0 d0] ps IH]; intros acc m Hnd Hrun k; simpl in *.
  - injection Hrun as <-. reflexivity.
  - destruct (latest_date - d0 <? Dates.min_ordinal); [discriminate|].
    inversion Hnd as [|? ? Hnotin Hnd']; subst.
    assert (Hnone : k0 = k -> Dict.get String.eqb ps k = None).
    { intros <-. clear -Hnotin.
      induction ps as [|[k1 d1] ps IHp]; simpl in *; auto.
      destruct (String.eqb_spec k1 k0) as [->|]; [tauto|].
      apply IHp. tauto. }
    destruct (window_return latest_nav latest_date nav_data d0)
      as [[r|]|e] eqn:Hw; [| |discriminate]; rewrite (IH _ _ Hnd' Hrun k).
    + destruct (String.eqb_spec k0 k) as [->|Hne].
      * rewrite (Hnone eq_refl), Hw. apply dict_get_set_same.
      * rewrite dict_get_set_other by assumption.
        destruct (Dict.get String.eqb ps k) as [delta|]; auto.
    + destruct (String.eqb_spec k0 k) as [->|Hne].
      * now rewrite (Hnone eq_refl), Hw.
      * reflexivity.
Qed.

(** The outer loop returns when every target is a date and every scan
    returns. *)
Lemma returns_loop_returns latest_nav latest_date nav_data :
  forall ps acc,
    (forall k d, In (k, d) ps -> Dates.min_ordinal <= latest_date - d) ->
    (forall k d, In (k, d) ps ->
       exists found, find_closest (latest_date - d) nav_data = Returned found) ->
    exists m, returns_loop latest_nav latest_date nav_data ps acc = Returned m.
Proof.
  induction ps as [|[k0 d0] ps IH]; intros acc Hok Hscan; simpl.
  - eauto.
  - destruct (Z.ltb_spec (latest_date - d0) Dates.min_ordinal) as [Hlt|_].
    + specialize (Hok k0 d0 (or_introl eq_refl)). lia.
    + unfold window_return.
      destruct (Hscan k0 d0 (or_introl eq_refl)) as [found ->]. simpl.
      destruct (period_return latest_nav (snd found));
        apply IH; intros k d Hin; eauto using in_cons.
Qed.

Lemma periods_nodup : NoDup (map fst periods).
Proof.
  simpl. repeat constructor; simpl; intuition discriminate.
Qed.

Lemma periods_bound k d : In (k, d) periods -> d <= 1825.
Proof.
  simpl. intuition (match goal with H : (_, _) = (_, _) |- _ =>
                      injection H as <- <- end; lia).
Qed.

Lemma periods_get k d :
  In (k, d) periods -> Dict.get String.eqb periods k = Some d.
Proof.
  simpl. intuition (match goal with H : (_, _) = (_, _) |- _ =>
                      injection H as <- <- end; reflexivity).
Qed.

(** What [strptime] raises is caught inside the loop. *)
Lemma strptime_date_caught e x acc :
  strptime_date e = Raised x -> except_continue x acc = Returned acc.
Proof.
  unfold strptime_date.
  destruct (get_date e) as [s|]; [destruct (Dates.strptime s)|];
    intros [= <-]; reflexivity.
Qed.





(** The scan in terms of points. *)
Lemma scan_is_nearest target :
  forall h pts best,
    as_points h = Some pts ->
    (forall b, best = Some b -> distance target b < 365) ->
    scan target h (scan_state target best)
    = Returned
        (scan_state target (nearest_acc target best (within_year target pts))).
Proof.
  induction h as [|e h IH]; intros pts best Hpts Hbest; simpl in Hpts.
  - injection Hpts as <-. reflexivity.
  - unfold point_of in Hpts.
    destruct (strptime_date e) as [d|] eqn:Hd; [|discriminate].
    destruct (float_nav e) as [v|] eqn:Hv; [|discriminate].
    destruct (as_points h) as [ps|] eqn:Hps; [|discriminate].
    injection Hpts as <-. simpl scan.
    assert (Hstep :
      scan_entry target (scan_state target best) e
      = Returned
         (scan_state target
          (if distance target (d, v) <? 365 then
             match best with
             | None => Some (d, v)
             | Some b => if distance target (d, v) <? distance target b
                         then Some (d, v) else best
             end
           else best))).
    { unfold scan_entry. destruct best as [b|]; simpl scan_state.
      - rewrite Hd, Hv.
        change (Z.abs (d - target)) with (distance target (d, v)).
        specialize (Hbest b eq_refl).
        destruct (Z.ltb_spec (distance target (d, v)) (distance target b)).
        + destruct (Z.ltb_spec (distance target (d, v)) 365); [reflexivity|lia].
        + destruct (distance target (d, v) <? 365); reflexivity.
      - rewrite Hd, Hv.
        change (Z.abs (d - target)) with (distance target (d, v)).
        destruct (distance target (d, v) <? 365); reflexivity. }
    rewrite Hstep. unfold within_year. simpl filter.
    fold (within_year target ps).
    destruct (Z.ltb_spec (distance target (d, v)) 365) as [Hin|Hout].
    + simpl nearest_acc. destruct best as [b|].
      * destruct (distance target (d, v) <? distance target b).
        -- apply (IH ps _ eq_refl). intros b' [= <-]. exact Hin.
        -- apply (IH ps _ eq_refl). exact Hbest.
      * apply (IH ps _ eq_refl). intros b' [= <-]. exact Hin.
    + apply (IH ps _ eq_refl). exact Hbest.
Qed.


(** On a history of valid points the scan returns, with the nearest of the
    points less than 365 days from the target. *)
Lemma find_closest_points target h pts :
  as_points h = Some pts ->
  find_closest target h
  = Returned (scan_state target (nearest target (within_year target pts))).
Proof.
  intros Hall. unfold find_closest.
  change (365, @None float) with (scan_state target None).
  now rewrite (scan_is_nearest _ _ _ None Hall) by discriminate.
Qed.

Lemma window_return_points latest_nav latest_date h pts delta :
  as_points h = Some pts ->
  window_return latest_nav latest_date h delta
  = Returned
      (period_return latest_nav
         (option_map snd
            (nearest (latest_date - delta)
               (within_year (latest_date - delta) pts)))).
Proof.
  intros Hall. unfold window_return.
  rewrite (find_closest_points _ _ _ Hall). simpl.
  destruct (nearest _ _) as [b|]; reflexivity.
Qed.

(** [nearest] selects a point of the list at minimal distance, and the
    first one at that distance. *)
Lemma nearest_acc_first target :
  forall pts best p,
    nearest_acc target best pts = Some p ->
    (best = Some p /\ forall q, In q pts -> distance target p <= distance target q)
    \/ (exists l1 l2,
          pts = (l1 ++ p :: l2)%list
          /\ (forall b, best = Some b -> distance target p < distance target b)
          /\ (forall q, In q l1 -> distance target p < distance target q)
          /\ (forall q, In q l2 -> distance target p <= distance target q)).
Proof.
  induction pts as [|x pts IH]; intros best p Hn; simpl in Hn.
  - left. split; [assumption|]. intros q [].
  - destruct best as [b|].
    + destruct (Z.ltb_spec (distance target x) (distance target b)) as [Hlt|Hge].
      * destruct (IH _ _ Hn) as [[Heq Hmin]|(l1 & l2 & -> & Hb & H1 & H2)].
        -- injection Heq as ->. right. exists [], pts. simpl.
           repeat split; auto.
           ++ intros b' [= <-]. exact Hlt.
           ++ intros q [].
        -- right. exists (x :: l1), l2. simpl. repeat split; auto.
           ++ intros b' [= <-]. specialize (Hb x eq_refl). lia.
           ++ intros q [<-|Hq]; auto.
      * destruct (IH _ _ Hn) as [[Heq Hmin]|(l1 & l2 & -> & Hb & H1 & H2)].
        -- injection Heq as ->. left. split; [reflexivity|].
           intros q [<-|Hq]; auto.
        -- right. exists (x :: l1), l2. simpl. repeat split; auto.
           intros q [<-|Hq]; auto. specialize (Hb b eq_refl). lia.
    + destruct (IH _ _ Hn) as [[Heq Hmin]|(l1 & l2 & -> & Hb & H1 & H2)].
      * injection Heq as ->. right. exists [], pts. simpl.
        repeat split; auto; try discriminate. intros q [].
      * right. exists (x :: l1), l2. simpl. repeat split; auto; try discriminate.
        intros q [<-|Hq]; auto.
Qed.

Lemma nearest_first target pts p :
  nearest target pts = Some p ->
  exists l1 l2,
    pts = (l1 ++ p :: l2)%list
    /\ (forall q, In q l1 -> distance target p < distance target q)
    /\ (forall q, In q l2 -> distance target p <= distance target q).
Proof.
  intros Hn. destruct (nearest_acc_first _ _ _ _ Hn)
    as [[Heq _]|(l1 & l2 & -> & _ & H1 & H2)]; [discriminate|].
  exists l1, l2. auto.
Qed.

(** C2. On the two-point history [(21-04-2023, 845.123), (21-04-2022, 800.0)]
    the calculator returns a metrics map whose ["1Y"] entry is 5.64 to
    within 0.01 and which has no ["3Y"] and no ["5Y"] entry. *)
Theorem calculate_returns_two_point_sample :
  exists m,
    _calculate_returns sample_history = Returned m
    /\ (exists r, Dict.get String.eqb m "1Y" = Some r
                  /\ PrimFloat.leb (PrimFloat.abs (r - 5.64)) 0.01 = true)
    /\ Dict.get String.eqb m "3Y" = None
    /\ Dict.get String.eqb m "5Y" = None.
Proof.
  eexists. split; [vm_compute; reflexivity|].
  split; [|split; reflexivity].
  eexists. split; reflexivity.
Qed.

(** C3, as stated, fails: on the two-point sample the point nearest to the
    three-year target among all points is the 2022 one, with a positive
    value, so the window as the specification words it is 5.64; the calculator
    omits the window. *)
Lemma window_over_all_points_counterexample :
  exists m pts,
    _calculate_returns sample_history = Returned m
    /\ as_points sample_history = Some pts
    /\ spec_window_return 845.123 738631 pts 1095 = Some 5.64%float
    /\ Dict.get String.eqb m "3Y" = None.
Proof.
  do 2 eexists. split; [vm_compute; reflexivity|].
  split; [vm_compute; reflexivity|].
  split; reflexivity.
Qed.

(** C3, amended.  For a history whose entries are all valid points, the
    latest first, with at least two entries and a latest date after
    31-12-0005, every window's entry is computed from the first point
    reaching the smallest distance to the target among the points less than
    365 days away from it; the window is omitted when there is no such point
    or its value is not positive. *)
Theorem window_uses_nearest_within_year :
  forall h latest_date latest_nav pts,
    as_points h = Some ((latest_date, latest_nav) :: pts) ->
    pts <> [] ->
    1825 < latest_date ->
    exists m,
      _calculate_returns h = Returned m
      /\ forall key delta,
           In (key, delta) periods ->
           Dict.get String.eqb m key
           = period_return latest_nav
               (option_map snd
                  (nearest (latest_date - delta)
                     (within_year (latest_date - delta)
                        ((latest_date, latest_nav) :: pts)))).
Proof.
  intros h latest_date latest_nav pts Hpts Hne Hlate.
  destruct h as [|first rest]; [discriminate|].
  assert (Hall := Hpts). simpl in Hpts. unfold point_of in Hpts.
  destruct (strptime_date first) as [d|] eqn:Hd; [|discriminate].
  destruct (float_nav first) as [v|] eqn:Hv; [|discriminate].
  destruct (as_points rest) as [ps|] eqn:Hrest; [|discriminate].
  injection Hpts as -> -> ->.
  destruct rest as [|second rest]; [simpl in Hrest; congruence|].
  destruct (returns_loop_returns latest_nav latest_date
              (first :: second :: rest) periods [])
    as [m Hm].
  { intros k dlt Hin. apply periods_bound in Hin.
    unfold Dates.min_ordinal. lia. }
  { intros k dlt _. eexists. apply (find_closest_points _ _ _ Hall). }
  exists m. split.
  - unfold _calculate_returns. rewrite Hv, Hd. exact Hm.
  - intros key delta Hin.
    rewrite (returns_loop_lookup _ _ _ _ _ _ periods_nodup Hm key).
    rewrite (periods_get _ _ Hin). simpl Dict.get.
    rewrite (window_return_points _ _ _ _ delta Hall).
    destruct (period_return _ _); reflexivity.
Qed.

Lemma window_uses_nearest_within_year_witness :
  exists m,
    _calculate_returns sample_history = Returned m
    /\ forall key delta,
         In (key, delta) periods ->
         Dict.get String.eqb m key
         = period_return 845.123
             (option_map snd
                (nearest (738631 - delta)
                   (within_year (738631 - delta)
                      [(738631, 845.123%float); (738266, 800%float)]))).
Proof.
  apply (window_uses_nearest_within_year sample_history 738631 845.123
           [(738266, 800%float)]).
  - reflexivity.
  - discriminate.
  - lia.
Defined.




(** Members that are not of the expected type.  A first date that is not
    text raises a [TypeError]; the same entry further down the history is
    skipped; and a value too large for a float, in an entry the scan of the
    three-year window converts, raises an [OverflowError]. *)
Lemma untyped_members_examples :
  (exists e,
     _calculate_returns (untyped_date_entry :: sample_history) = Raised e
     /\ exn_class_of e = TypeError)
  /\ _calculate_returns
       (hd untyped_date_entry sample_history :: untyped_date_entry
          :: tl sample_history)
     = _calculate_returns sample_history
  /\ (exists e,
        _calculate_returns (sample_history ++ [too_large_entry])%list
        = Raised e
        /\ exn_class_of e = OverflowError).
Proof.
  split; [eexists; split; reflexivity|].
  split; [vm_compute; reflexivity|].
  eexists. split; [vm_compute; reflexivity|reflexivity].
Qed.

(** ** Fund search *)

(** Funds that do not match leave the loop's result as it is. *)
Lemma filter_loop_no_match terms limit :
  forall funds acc,
    (forall f, In f funds -> matches terms f = false) ->
    filter_loop terms limit funds acc = acc.
Proof.
  induction funds as [|f funds IH]; intros acc Hno; simpl; [reflexivity|].
  rewrite (Hno f (or_introl eq_refl)). apply IH.
  intros g Hg. apply Hno. now right.
Qed.

Lemma filter_loop_skip_prefix terms limit :
  forall before funds acc,
    (forall f, In f before -> matches terms f = false) ->
    filter_loop terms limit (before ++ funds) acc
    = filter_loop terms limit funds acc.
Proof.
  induction before as [|f before IH]; intros funds acc Hno; simpl;
    [reflexivity|].
  rewrite (Hno f (or_introl eq_refl)). apply IH.
  intros g Hg. apply Hno. now right.
Qed.

(** What [search_funds] returns once the listing is known. *)
Lemma search_funds_of_listing query limit E w listing w' :
  MFAPIRepository.get_all_funds E w = (Returned listing, w') ->
  search_funds query limit E w
  = (Returned (filter_loop (Str.split (Str.lower query)) limit listing []), w').
Proof.
  intros Hget. unfold search_funds, try_except, bind. rewrite Hget.
  reflexivity.
Qed.

(** C1, as stated, fails: the fund is found, alone, with fund house
    ["HDFC"], but no keyword of the Equity set occurs in its name and its
    category is ["Other"]. *)
Lemma search_hdfc_category_counterexample :
  exists r,
    fst (search_funds "hdfc top 100" 5 sample_env initial_world) = Returned [r]
    /\ summary_scheme_name r = Some hdfc_top_100
    /\ summary_fund_house r = "HDFC"
    /\ summary_category r = "Other"
    /\ summary_category r <> "Equity".
Proof.
  eexists. split; [vm_compute; reflexivity|].
  repeat split. discriminate.
Qed.

(** C1, amended.  When the backing listing holds the fund
    "HDFC Top 100 Fund-Growth Option" and otherwise only funds whose
    lowercase names do not contain all of "hdfc", "top", "100",
    [search_funds("hdfc top 100", limit=5)] returns exactly one summary, for
    that fund, with fund house ["HDFC"] and category ["Other"]. *)
Theorem search_hdfc_top_100 :
  forall E w w' before after code,
    MFAPIRepository.get_all_funds E w
    = (Returned (before ++ FundEntry code (Some hdfc_top_100) :: after)%list, w') ->
    (forall f, In f (before ++ after)%list ->
               matches ["hdfc"; "top"; "100"] f = false) ->
    search_funds "hdfc top 100" 5 E w
    = (Returned [Build_FundSummary code (Some hdfc_top_100) "HDFC" "Other"], w').
Proof.
  intros E w w' before after code Hget Hno.
  rewrite (search_funds_of_listing _ _ _ _ _ _ Hget).
  change (Str.split (Str.lower "hdfc top 100")) with ["hdfc"; "top"; "100"].
  rewrite filter_loop_skip_prefix
    by (intros f Hf; apply Hno, in_or_app; now left).
  simpl filter_loop.
  change (matches ["hdfc"; "top"; "100"] (FundEntry code (Some hdfc_top_100)))
    with true.
  cbv iota. 
  change (5 <=? Z.of_nat (List.length ([] ++ [summary_of (FundEntry code (Some hdfc_top_100))])%list))
    with false.
  cbv iota.
  rewrite filter_loop_no_match
    by (intros f Hf; apply Hno, in_or_app; now right).
  reflexivity.
Qed.

Lemma search_hdfc_top_100_witness :
  search_funds "hdfc top 100" 5 sample_env initial_world
  = (Returned [Build_FundSummary (Some 119010) (Some hdfc_top_100) "HDFC" "Other"],
     snd (MFAPIRepository.get_all_funds sample_env initial_world)).
Proof.
  apply (search_hdfc_top_100 sample_env initial_world _
           [FundEntry (Some 120465)
              (Some "ICICI Prudential Bluechip Fund - Growth")]
           [FundEntry (Some 118560) (Some "HDFC Liquid Fund - Growth");
            FundEntry (Some 100033) None]
           (Some 119010)).
  - reflexivity.
  - simpl. intros f [<-|[<-|[<-|[]]]]; reflexivity.
Defined.

(** Lowering a whitespace character leaves it a whitespace character. *)
Lemma is_space_lower_char c :
  Str.is_space c = true -> Str.is_space (Str.lower_char c) = true.
Proof.
  destruct c as [[] [] [] [] [] [] [] []]; vm_compute; intros H;
    first [exact H | reflexivity].
Qed.

(** A blank query has no terms. *)
Lemma split_lower_blank query :
  blank query = true -> Str.split (Str.lower query) = [].
Proof.
  induction query as [|c q IH]; simpl; [reflexivity|].
  intros H. apply andb_prop in H as [Hc Hq].
  rewrite (is_space_lower_char _ Hc). auto.
Qed.

(** Without terms every fund matches, and the loop collects funds until the
    list it has built reaches [limit]. *)
Lemma filter_loop_no_terms limit :
  forall funds acc,
    Z.of_nat (List.length acc) < limit ->
    filter_loop [] limit funds acc
    = (acc ++ map summary_of
                  (firstn (Z.to_nat (limit - Z.of_nat (List.length acc))) funds))%list.
Proof.
  induction funds as [|f funds IH]; intros acc Hlt.
  - simpl. rewrite firstn_nil. simpl. now rewrite app_nil_r.
  - simpl filter_loop.
    assert (Hlen : Z.of_nat (List.length (acc ++ [summary_of f])%list)
                   = Z.of_nat (List.length acc) + 1).
    { rewrite length_app. simpl. lia. }
    replace (Z.to_nat (limit - Z.of_nat (List.length acc)))
      with (S (Z.to_nat (limit - Z.of_nat (List.length acc) - 1))) by lia.
    simpl firstn. simpl map.
    destruct (Z.leb_spec limit
                (Z.of_nat (List.length (acc ++ [summary_of f])%list)))
      as [Hfull|Hroom].
    + replace (Z.to_nat (limit - Z.of_nat (List.length acc) - 1)) with O by lia.
      reflexivity.
    + rewrite IH by exact Hroom. rewrite Hlen, <- app_assoc. simpl.
      do 4 f_equal. lia.
Qed.

(** With a blank query and a limit of at least one, the search returns the
    summaries of the first [min(limit, N)] funds of the listing. *)
Lemma search_blank_query_positive_limit query limit E w listing w' :
  blank query = true ->
  1 <= limit ->
  MFAPIRepository.get_all_funds E w = (Returned listing, w') ->
  search_funds query limit E w
  = (Returned
       (map summary_of
            (firstn (Z.to_nat (Z.min limit (Z.of_nat (List.length listing))))
                    listing)), w').
Proof.
  intros Hblank Hlimit Hget.
  rewrite (search_funds_of_listing _ _ _ _ _ _ Hget).
  rewrite (split_lower_blank _ Hblank).
  rewrite filter_loop_no_terms by (simpl; lia).
  simpl. do 3 f_equal. rewrite Z.sub_0_r.
  destruct (Z.le_ge_cases limit (Z.of_nat (List.length listing))) as [Hle|Hge].
  - now rewrite Z.min_l.
  - rewrite Z.min_r by assumption. rewrite Nat2Z.id.
    rewrite firstn_all. apply firstn_all2. lia.
Qed.

(** C10 at [limit = 0].  A blank query matches every fund, and the loop
    tests the limit only after appending: one summary is returned where
    [min(limit, N)] is zero. *)
Theorem search_blank_query_zero_limit :
  blank " " = true
  /\ Z.min 0 (Z.of_nat (List.length sample_listing)) = 0
  /\ exists r,
       fst (search_funds " " 0 sample_env initial_world) = Returned [r]
       /\ summary_scheme_code r = Some 120465.
Proof.
  split; [reflexivity|]. split; [reflexivity|].
  eexists. split; [vm_compute; reflexivity|reflexivity].
Qed.

(** ** Result cache *)

Section CacheFacts.
Context {V : Type}.
Implicit Types c : list (string * (V * Z)).

Lemma min_item_in (best : string * (V * Z)) items :
  In (AsyncCache.min_item best items) (best :: items).
Proof.
  revert best. induction items as [|x items IH]; intros best; simpl.
  - now left.
  - destruct (AsyncCache.expiry_of x <? AsyncCache.expiry_of best).
    + right. apply IH.
    + destruct (IH best) as [H|H]; [now left|right; now right].
Qed.

Lemma min_item_le (best : string * (V * Z)) items :
  forall x, In x (best :: items) ->
    AsyncCache.expiry_of (AsyncCache.min_item best items)
    <= AsyncCache.expiry_of x.
Proof.
  revert best. induction items as [|y items IH]; intros best x Hx; simpl.
  - destruct Hx as [<-|[]]. lia.
  - destruct (Z.ltb_spec (AsyncCache.expiry_of y) (AsyncCache.expiry_of best)).
    + destruct Hx as [<-|[<-|Hx]].
      * specialize (IH y y (or_introl eq_refl)). lia.
      * apply IH. now left.
      * apply IH. now right.
    + destruct Hx as [<-|[<-|Hx]].
      * apply IH. now left.
      * specialize (IH best best (or_introl eq_refl)). lia.
      * apply IH. now right.
Qed.

Lemma dict_set_length c k (v : V * Z) :
  (List.length (Dict.set String.eqb c k v) <= S (List.length c))%nat.
Proof.
  induction c as [|[k' v'] c IH]; simpl; [lia|].
  destruct (String.eqb k' k); simpl; lia.
Qed.

Lemma dict_set_nonempty c k (v : V * Z) :
  Dict.set String.eqb c k v <> [].
Proof.
  destruct c as [|[k' v'] c]; simpl; [discriminate|].
  destruct (String.eqb k' k); discriminate.
Qed.

Lemma dict_set_keys c k (v : V * Z) k0 :
  In k0 (Dict.keys (Dict.set String.eqb c k v)) ->
  k0 = k \/ In k0 (Dict.keys c).
Proof.
  unfold Dict.keys. induction c as [|[k' v'] c IH]; simpl.
  - intros [<-|[]]. now left.
  - destruct (String.eqb k' k); simpl; intuition.
Qed.

Lemma dict_set_nodup c k (v : V * Z) :
  NoDup (Dict.keys c) -> NoDup (Dict.keys (Dict.set String.eqb c k v)).
Proof.
  unfold Dict.keys. induction c as [|[k' v'] c IH]; simpl; intros Hnd.
  - repeat constructor. intros [].
  - inversion Hnd as [|? ? Hnotin Hnd']; subst.
    destruct (String.eqb_spec k' k) as [->|Hne]; simpl.
    + constructor; assumption.
    + constructor; [|auto].
      intros Hin. apply dict_set_keys in Hin as [->|Hin]; tauto.
Qed.

(** Deleting the key of an entry of a dictionary removes that entry and
    nothing else. *)
Lemma dict_del_split c k (x : V * Z) :
  NoDup (Dict.keys c) -> In (k, x) c ->
  exists l1 l2, c = (l1 ++ (k, x) :: l2)%list
                /\ Dict.del String.eqb c k = (l1 ++ l2)%list.
Proof.
  unfold Dict.keys. induction c as [|[k' v'] c IH]; simpl; intros Hnd Hin.
  - contradiction.
  - inversion Hnd as [|? ? Hnotin Hnd']; subst.
    destruct Hin as [Heq|Hin].
    + injection Heq as -> ->. rewrite String.eqb_refl.
      exists [], c. split; reflexivity.
    + destruct (String.eqb_spec k' k) as [->|Hne].
      * exfalso. apply Hnotin. apply (in_map fst) in Hin. exact Hin.
      * destruct (IH Hnd' Hin) as (l1 & l2 & -> & Hdel).
        exists ((k', v') :: l1), l2. simpl. split; [reflexivity|].
        now rewrite Hdel.
Qed.

Lemma nodup_keys_remove (l1 l2 : list (string * (V * Z))) y :
  NoDup (Dict.keys (l1 ++ y :: l2)%list) -> NoDup (Dict.keys (l1 ++ l2)%list).
Proof.
  unfold Dict.keys. rewrite !map_app. simpl. apply NoDup_remove_1.
Qed.

Lemma oldest_key_spec c oldest :
  AsyncCache.oldest_key c = Returned oldest ->
  exists v e, In (oldest, (v, e)) c
              /\ forall x, In x c -> e <= AsyncCache.expiry_of x.
Proof.
  destruct c as [|first others]; simpl; [discriminate|].
  intros [= <-].
  pose proof (min_item_in first others) as Hin.
  pose proof (min_item_le first others) as Hle.
  destruct (AsyncCache.min_item first others) as [oldest [v e]].
  exists v, e. split; [exact Hin|exact Hle].
Qed.

(** What a successful [store] does to a dictionary with distinct keys. *)
Lemma store_effect max_items c cache_key item c' :
  NoDup (Dict.keys c) ->
  AsyncCache.store max_items c cache_key item = Returned c' ->
  if max_items <=? Z.of_nat (List.length c) then
    exists oldest v e l1 l2,
      AsyncCache.oldest_key c = Returned oldest
      /\ c = (l1 ++ (oldest, (v, e)) :: l2)%list
      /\ Dict.del String.eqb c oldest = (l1 ++ l2)%list
      /\ (forall x, In x c -> e <= AsyncCache.expiry_of x)
      /\ c' = Dict.set String.eqb (l1 ++ l2)%list cache_key item
  else c' = Dict.set String.eqb c cache_key item.
Proof.
  intros Hnd Hstore. unfold AsyncCache.store in Hstore.
  destruct (max_items <=? Z.of_nat (List.length c)).
  - destruct (AsyncCache.oldest_key c) as [oldest|] eqn:Hold; [|discriminate].
    injection Hstore as <-.
    destruct (oldest_key_spec _ _ Hold) as (v & e & Hin & Hle).
    destruct (dict_del_split _ _ _ Hnd Hin) as (l1 & l2 & Hc & Hdel).
    exists oldest, v, e, l1, l2. rewrite Hdel. auto.
  - now injection Hstore as <-.
Qed.

(** Reachable dictionaries have distinct keys and, unless empty, at most
    [max_items] entries. *)
Lemma reachable_invariant max_items c :
  reachable max_items c ->
  NoDup (Dict.keys c)
  /\ (c = [] \/ Z.of_nat (List.length c) <= max_items).
Proof.
  induction 1 as [|c cache_key item c' Hreach [Hnd Hsize] Hstore].
  - split; [constructor|now left].
  - pose proof (store_effect _ _ _ _ _ Hnd Hstore) as Heff.
    destruct (Z.leb_spec max_items (Z.of_nat (List.length c))) as [Hfull|Hroom].
    + destruct Heff as (oldest & v & e & l1 & l2 & _ & Hc & _ & _ & ->).
      split.
      * apply dict_set_nodup. subst c. eapply nodup_keys_remove; eauto.
      * right. destruct Hsize as [->|Hsize]; [destruct l1; discriminate|].
        pose proof (dict_set_length (l1 ++ l2)%list cache_key item).
        subst c. rewrite length_app in *. simpl in *. lia.
    + subst c'. split; [now apply dict_set_nodup|].
      right. pose proof (dict_set_length c cache_key item). lia.
Qed.

End CacheFacts.

(** C5.  In a cache reached by any sequence of calls through the wrapper,
    an insert performed while the cache holds at least [max_items] entries
    removes exactly one entry, one whose expiry timestamp no other entry
    undercuts, and after the insert the cache holds at most [max_items]
    entries. *)
Theorem store_evicts_oldest_within_bound :
  forall (V : Type) (max_items : Z) (c c' : list (string * (V * Z)))
         (cache_key : string) (item : V * Z),
    reachable max_items c ->
    AsyncCache.store max_items c cache_key item = Returned c' ->
    (max_items <= Z.of_nat (List.length c) ->
     exists oldest v e l1 l2,
       AsyncCache.oldest_key c = Returned oldest
       /\ c = (l1 ++ (oldest, (v, e)) :: l2)%list
       /\ (forall x, In x c -> e <= AsyncCache.expiry_of x)
       /\ c' = Dict.set String.eqb (l1 ++ l2)%list cache_key item)
    /\ Z.of_nat (List.length c') <= max_items.
Proof.
  intros V max_items c c' cache_key item Hreach Hstore.
  split.
  - intros Hfull.
    destruct (reachable_invariant _ _ Hreach) as [Hnd _].
    pose proof (store_effect _ _ _ _ _ Hnd Hstore) as Heff.
    destruct (Z.leb_spec max_items (Z.of_nat (List.length c))); [|lia].
    destruct Heff as (oldest & v & e & l1 & l2 & Hold & Hc & _ & Hmin & Hc').
    exists oldest, v, e, l1, l2. auto.
  - assert (Hreach' : reachable max_items c')
      by (eapply reachable_store; eauto).
    destruct (reachable_invariant _ _ Hreach') as [_ [->|Hsize]];
      [|exact Hsize].
    exfalso. unfold AsyncCache.store in Hstore.
    destruct (max_items <=? Z.of_nat (List.length c)).
    + destruct (AsyncCache.oldest_key c); [|discriminate].
      injection Hstore as Hset. exact (dict_set_nonempty _ _ _ Hset).
    + injection Hstore as Hset. exact (dict_set_nonempty _ _ _ Hset).
Qed.

Lemma store_evicts_oldest_within_bound_witness :
  (2 <= Z.of_nat (List.length [("a", (1, 10)); ("b", (2, 5))]) ->
   exists oldest v e l1 l2,
     AsyncCache.oldest_key [("a", (1, 10)); ("b", (2, 5))] = Returned oldest
     /\ [("a", (1, 10)); ("b", (2, 5))] = (l1 ++ (oldest, (v, e)) :: l2)%list
     /\ (forall x, In x [("a", (1, 10)); ("b", (2, 5))] ->
                   e <= AsyncCache.expiry_of x)
     /\ [("a", (1, 10)); ("c", (3, 20))]
        = Dict.set String.eqb (l1 ++ l2)%list "c" (3, 20))
  /\ Z.of_nat (List.length [("a", (1, 10)); ("c", (3, 20))]) <= 2.
Proof.
  apply (store_evicts_oldest_within_bound Z 2
           [("a", (1, 10)); ("b", (2, 5))] [("a", (1, 10)); ("c", (3, 20))]
           "c" (3, 20)).
  - apply (reachable_store 2 [("a", (1, 10))] "b" (2, 5)); [|reflexivity].
    apply (reachable_store 2 [] "a" (1, 10)); [|reflexivity].
    apply reachable_empty.
  - reflexivity.
Defined.

(** A successful [store] ends with the assignment of the new item. *)
Lemma store_assigns {V : Type} max_items (c c' : list (string * (V * Z)))
    cache_key item :
  AsyncCache.store max_items c cache_key item = Returned c' ->
  Dict.get String.eqb c' cache_key = Some item.
Proof.
  unfold AsyncCache.store.
  destruct (max_items <=? Z.of_nat (List.length c)).
  - destruct (AsyncCache.oldest_key c); [|discriminate].
    intros [= <-]. apply dict_get_set_same.
  - intros [= <-]. apply dict_get_set_same.
Qed.

(** With room for at least one entry, [store] does not raise. *)
Lemma store_returns {V : Type} max_items (c : list (string * (V * Z)))
    cache_key item :
  1 <= max_items ->
  exists c', AsyncCache.store max_items c cache_key item = Returned c'.
Proof.
  intros Hmax. unfold AsyncCache.store.
  destruct (Z.leb_spec max_items (Z.of_nat (List.length c))) as [Hfull|_].
  - destruct c as [|first others]; [simpl in Hfull; lia|].
    simpl. eauto.
  - eauto.
Qed.

(** C6, as stated, fails.  The first request for scheme 119010 fails; the
    lookup returns [None] and stores it.  One tick later, well within the
    TTL of 3600, the API would answer, but the same lookup is a cache hit
    that returns the stored [None] and sends no request. *)
Lemma failure_served_from_cache_counterexample :
  exists w1 w2,
    MFAPIRepository.get_fund (Some 119010) outage_env initial_world
    = (Returned None, w1)
    /\ MFAPIRepository.get_fund (Some 119010) outage_env w1
       = (Returned None, w2)
    /\ http_fund outage_env (List.length (http_calls w1)) "/119010"
       = Returned sample_payload
    /\ http_calls w1 = ["/119010"]
    /\ http_calls w2 = ["/119010"]
    /\ hits (fund_cache w2) = 1
    /\ clock outage_env 1 < clock outage_env 0 + cache_ttl (settings outage_env).
Proof.
  do 2 eexists. split; [vm_compute; reflexivity|].
  split; [vm_compute; reflexivity|].
  repeat split.
Qed.

(** Unfolds the monadic plumbing of the decorated coroutines. *)
Ltac run_coroutine :=
  cbv [MFAPIRepository.get_fund MFAPIRepository.get_all_funds
       AsyncCache.wrapper bind ask time_time AsyncCache.read_closure
       AsyncCache.write_closure ret lift_outcome
       MFAPIRepository.get_fund_body MFAPIRepository.get_all_funds_body
       try_except MFAPIRepository._make_request
       MFAPIRepository.set_fund_cache MFAPIRepository.set_all_funds_cache
       AsyncCache.py_or];
  simpl.

(** A call of a cached lookup that misses while the external call fails:
    the failure is turned into the ordinary result before the decorator
    sees it, and that result is stored. *)
Lemma get_fund_failure_stored E w scheme_code e :
  enable_cache (settings E) = true ->
  1 <= cache_max_size (settings E) ->
  is_miss E w (GetFund scheme_code) (clock E (clock_reads w)) ->
  http_fund E (List.length (http_calls w))
            ("/" ++ MFAPIRepository.str_code scheme_code) = Raised e ->
  exists c',
    MFAPIRepository.get_fund scheme_code E w
    = (Returned None,
       World (S (clock_reads w)) (llm_calls w)
             (http_calls w ++ [("/" ++ MFAPIRepository.str_code scheme_code)%string])%list
             (all_funds_cache w)
             (CacheState c' (hits (fund_cache w)) (misses (fund_cache w) + 1)))
    /\ Dict.get String.eqb c' (lookup_key E (GetFund scheme_code))
       = Some (None, clock E (clock_reads w) + cache_ttl (settings E)).
Proof.
  intros Hon Hmax Hmiss Hfail. simpl in Hmiss.
  destruct (store_returns (cache_max_size (settings E)) (cache (fund_cache w))
              (lookup_key E (GetFund scheme_code))
              (@None fund_payload,
               clock E (clock_reads w) + cache_ttl (settings E)) Hmax)
    as [c' Hstore].
  exists c'. split; [|exact (store_assigns _ _ _ _ _ Hstore)].
  run_coroutine. simpl in Hfail.
  rewrite Hon. simpl. unfold lookup_key in Hmiss, Hstore.
  rewrite Hmiss. simpl. rewrite Hfail. simpl.
  rewrite Hstore. reflexivity.
Qed.

Lemma get_all_funds_failure_stored E w e :
  enable_cache (settings E) = true ->
  1 <= cache_max_size (settings E) ->
  is_miss E w GetAllFunds (clock E (clock_reads w)) ->
  http_listing E (List.length (http_calls w)) = Raised e ->
  exists c',
    MFAPIRepository.get_all_funds E w
    = (Returned [],
       World (S (clock_reads w)) (llm_calls w)
             (http_calls w ++ [EmptyString])%list
             (CacheState c' (hits (all_funds_cache w))
                         (misses (all_funds_cache w) + 1))
             (fund_cache w))
    /\ Dict.get String.eqb c' (lookup_key E GetAllFunds)
       = Some ([], clock E (clock_reads w) + cache_ttl (settings E)).
Proof.
  intros Hon Hmax Hmiss Hfail. simpl in Hmiss.
  destruct (store_returns (cache_max_size (settings E))
              (cache (all_funds_cache w)) (lookup_key E GetAllFunds)
              (@nil fund_entry,
               clock E (clock_reads w) + cache_ttl (settings E)) Hmax)
    as [c' Hstore].
  exists c'. split; [|exact (store_assigns _ _ _ _ _ Hstore)].
  run_coroutine.
  rewrite Hon. simpl. unfold lookup_key in Hmiss, Hstore.
  rewrite Hmiss. simpl. rewrite Hfail. simpl.
  rewrite Hstore. reflexivity.
Qed.

(** A call that finds a fresh entry returns it and sends no request. *)
Lemma get_fund_hit E w scheme_code result expiry :
  enable_cache (settings E) = true ->
  Dict.get String.eqb (cache (fund_cache w)) (lookup_key E (GetFund scheme_code))
  = Some (result, expiry) ->
  clock E (clock_reads w) < expiry ->
  MFAPIRepository.get_fund scheme_code E w
  = (Returned result,
     World (S (clock_reads w)) (llm_calls w) (http_calls w) (all_funds_cache w)
           (CacheState (cache (fund_cache w)) (hits (fund_cache w) + 1)
                       (misses (fund_cache w)))).
Proof.
  intros Hon Hget Hfresh.
  run_coroutine.
  rewrite Hon. simpl. unfold AsyncCache.lookup.
  unfold lookup_key in Hget. rewrite Hget.
  apply Z.ltb_lt in Hfresh. rewrite Hfresh. reflexivity.
Qed.

Lemma get_all_funds_hit E w result expiry :
  enable_cache (settings E) = true ->
  Dict.get String.eqb (cache (all_funds_cache w)) (lookup_key E GetAllFunds)
  = Some (result, expiry) ->
  clock E (clock_reads w) < expiry ->
  MFAPIRepository.get_all_funds E w
  = (Returned result,
     World (S (clock_reads w)) (llm_calls w) (http_calls w)
           (CacheState (cache (all_funds_cache w)) (hits (all_funds_cache w) + 1)
                       (misses (all_funds_cache w)))
           (fund_cache w)).
Proof.
  intros Hon Hget Hfresh.
  run_coroutine.
  rewrite Hon. simpl. unfold AsyncCache.lookup.
  unfold lookup_key in Hget. rewrite Hget.
  apply Z.ltb_lt in Hfresh. rewrite Hfresh. reflexivity.
Qed.

(** A call through the wrapper leaves the [cache] of its closure as it was
    (a hit, or a raise), or replaces it by the result of [store]. *)
Lemma get_fund_cache_step E w scheme_code :
  let w' := snd (MFAPIRepository.get_fund scheme_code E w) in
  all_funds_cache w' = all_funds_cache w
  /\ (cache (fund_cache w') = cache (fund_cache w)
      \/ exists cache_key item,
           AsyncCache.store (cache_max_size (settings E))
             (cache (fund_cache w)) cache_key item
           = Returned (cache (fund_cache w'))).
Proof.
  run_coroutine.
  destruct (enable_cache (settings E)); simpl.
  - destruct (AsyncCache.lookup _ _ _); simpl; [auto|].
    destruct (http_fund E _ _); simpl;
      match goal with
      | |- context [AsyncCache.store ?m ?c ?k ?i] =>
          destruct (AsyncCache.store m c k i) eqn:Hstore
      end; simpl; eauto.
  - destruct (http_fund E _ _); simpl; auto.
Qed.

Lemma get_all_funds_cache_step E w :
  let w' := snd (MFAPIRepository.get_all_funds E w) in
  fund_cache w' = fund_cache w
  /\ (cache (all_funds_cache w') = cache (all_funds_cache w)
      \/ exists cache_key item,
           AsyncCache.store (cache_max_size (settings E))
             (cache (all_funds_cache w)) cache_key item
           = Returned (cache (all_funds_cache w'))).
Proof.
  run_coroutine.
  destruct (enable_cache (settings E)); simpl.
  - destruct (AsyncCache.lookup _ _ _); simpl; [auto|].
    destruct (http_listing E _); simpl;
      match goal with
      | |- context [AsyncCache.store ?m ?c ?k ?i] =>
          destruct (AsyncCache.store m c k i) eqn:Hstore
      end; simpl; eauto.
  - destruct (http_listing E _); simpl; auto.
Qed.

(** Hence any sequence of lookups, started in the initial world, keeps both
    caches among the reachable ones. *)
Lemma lookups_keep_caches_reachable E :
  forall qs w,
    reachable (cache_max_size (settings E)) (cache (all_funds_cache w)) ->
    reachable (cache_max_size (settings E)) (cache (fund_cache w)) ->
    let w' := snd (run_lookups qs E w) in
    reachable (cache_max_size (settings E)) (cache (all_funds_cache w'))
    /\ reachable (cache_max_size (settings E)) (cache (fund_cache w')).
Proof.
  induction qs as [|q qs IH]; intros w Ha Hf; simpl.
  - auto.
  - unfold bind, call_lookup.
    destruct q as [|scheme_code].
    + pose proof (get_all_funds_cache_step E w) as [Hother Hstep].
      unfold bind.
      destruct (MFAPIRepository.get_all_funds E w) as [[l|e] w1];
        simpl in Hother, Hstep |- *.
      * apply IH.
        -- destruct Hstep as [->|(k & i & Hs)];
             [assumption|eapply reachable_store; eauto].
        -- now rewrite Hother.
      * split.
        -- destruct Hstep as [->|(k & i & Hs)];
             [assumption|eapply reachable_store; eauto].
        -- now rewrite Hother.
    + pose proof (get_fund_cache_step E w scheme_code) as [Hother Hstep].
      unfold bind.
      destruct (MFAPIRepository.get_fund scheme_code E w) as [[r|e] w1];
        simpl in Hother, Hstep |- *.
      * apply IH.
        -- now rewrite Hother.
        -- destruct Hstep as [->|(k & i & Hs)];
             [assumption|eapply reachable_store; eauto].
      * split.
        -- now rewrite Hother.
        -- destruct Hstep as [->|(k & i & Hs)];
             [assumption|eapply reachable_store; eauto].
Qed.

(** ** Entries that outlive later calls *)

Lemma dict_get_notin {V : Type} (d : list (string * V)) k :
  ~ In k (Dict.keys d) -> Dict.get String.eqb d k = None.
Proof.
  unfold Dict.keys. induction d as [|[k0 v0] d IH]; simpl; [reflexivity|].
  intros Hnotin. destruct (String.eqb_spec k0 k) as [->|_]; [tauto|].
  apply IH. tauto.
Qed.

Lemma dict_get_del_same {V : Type} (d : list (string * V)) k :
  NoDup (Dict.keys d) ->
  Dict.get String.eqb (Dict.del String.eqb d k) k = None.
Proof.
  unfold Dict.keys. induction d as [|[k0 v0] d IH]; simpl; intros Hnd.
  - reflexivity.
  - inversion Hnd as [|? ? Hnotin Hnd']; subst.
    destruct (String.eqb_spec k0 k) as [->|Hne].
    + now apply dict_get_notin.
    + simpl. destruct (String.eqb_spec k0 k); [contradiction|auto].
Qed.

Lemma store_nodup {V : Type} max_items (c c' : list (string * (V * Z)))
    cache_key item :
  NoDup (Dict.keys c) ->
  AsyncCache.store max_items c cache_key item = Returned c' ->
  NoDup (Dict.keys c').
Proof.
  intros Hnd Hstore.
  pose proof (store_effect _ _ _ _ _ Hnd Hstore) as Heff.
  destruct (max_items <=? Z.of_nat (List.length c)).
  - destruct Heff as (oldest & v & e & l1 & l2 & _ & Hc & _ & _ & ->).
    apply dict_set_nodup. subst c. eapply nodup_keys_remove; eauto.
  - subst c'. now apply dict_set_nodup.
Qed.

(** An entry under another key is still there after a [store], unless the
    [store] evicted it. *)
Lemma store_keeps_present {V : Type} max_items (c c' : list (string * (V * Z)))
    cache_key item k :
  NoDup (Dict.keys c) ->
  AsyncCache.store max_items c cache_key item = Returned c' ->
  cache_key <> k ->
  Dict.get String.eqb c' k <> None ->
  Dict.get String.eqb c' k = Dict.get String.eqb c k.
Proof.
  intros Hnd Hstore Hne. unfold AsyncCache.store in Hstore.
  destruct (max_items <=? Z.of_nat (List.length c)).
  - destruct (AsyncCache.oldest_key c) as [oldest|]; [|discriminate].
    injection Hstore as <-. rewrite dict_get_set_other by assumption.
    destruct (String.eqb_spec oldest k) as [->|Hother].
    + rewrite dict_get_del_same by assumption. congruence.
    + intros _. now apply dict_get_del_other.
  - injection Hstore as <-. intros _. now apply dict_get_set_other.
Qed.

(** One call through the wrapper, seen from an entry that is fresh at the
    time of the call: the [cache] is left as it was, or a [store] under a
    key that missed replaces it. *)
Lemma cache_step_keeps {V : Type} max_items (c c' : list (string * (V * Z)))
    cache_key now k r x :
  NoDup (Dict.keys c) ->
  c' = c
  \/ (AsyncCache.lookup c cache_key now = None
      /\ exists item, AsyncCache.store max_items c cache_key item = Returned c') ->
  Dict.get String.eqb c k = Some (r, x) ->
  now < x ->
  NoDup (Dict.keys c')
  /\ (Dict.get String.eqb c' k <> None -> Dict.get String.eqb c' k = Some (r, x)).
Proof.
  intros Hnd [->|[Hmiss [item Hstore]]] Hget Hfresh; [auto|].
  split; [eapply store_nodup; eauto|].
  intros Hheld. rewrite <- Hget.
  eapply store_keeps_present; eauto.
  intros ->. unfold AsyncCache.lookup in Hmiss. rewrite Hget in Hmiss.
  apply Z.ltb_lt in Hfresh. rewrite Hfresh in Hmiss. discriminate.
Qed.

(** With the cache enabled and room for one entry, a cached lookup
    returns, reads the clock once and leaves the other closure alone. *)
Lemma get_fund_step E v scheme_code :
  enable_cache (settings E) = true ->
  1 <= cache_max_size (settings E) ->
  exists res v',
    MFAPIRepository.get_fund scheme_code E v = (Returned res, v')
    /\ clock_reads v' = S (clock_reads v)
    /\ all_funds_cache v' = all_funds_cache v
    /\ (cache (fund_cache v') = cache (fund_cache v)
        \/ (AsyncCache.lookup (cache (fund_cache v))
              (lookup_key E (GetFund scheme_code)) (clock E (clock_reads v))
            = None
            /\ exists item,
                 AsyncCache.store (cache_max_size (settings E))
                   (cache (fund_cache v))
                   (lookup_key E (GetFund scheme_code)) item
                 = Returned (cache (fund_cache v')))).
Proof.
  intros Hon Hmax. run_coroutine. rewrite Hon. simpl. unfold lookup_key.
  destruct (AsyncCache.lookup _ _ _) eqn:Hlook; simpl.
  - do 2 eexists. split; [reflexivity|]. simpl. auto.
  - destruct (http_fund E _ _); simpl;
      match goal with
      | |- context [AsyncCache.store ?m ?c ?k ?i] =>
          destruct (store_returns m c k i Hmax) as [c' Hstore]; rewrite Hstore
      end; simpl; do 2 eexists; (split; [reflexivity|]); simpl;
      repeat split; right; split; eauto.
Qed.

Lemma get_all_funds_step E v :
  enable_cache (settings E) = true ->
  1 <= cache_max_size (settings E) ->
  exists res v',
    MFAPIRepository.get_all_funds E v = (Returned res, v')
    /\ clock_reads v' = S (clock_reads v)
    /\ fund_cache v' = fund_cache v
    /\ (cache (all_funds_cache v') = cache (all_funds_cache v)
        \/ (AsyncCache.lookup (cache (all_funds_cache v))
              (lookup_key E GetAllFunds) (clock E (clock_reads v))
            = None
            /\ exists item,
                 AsyncCache.store (cache_max_size (settings E))
                   (cache (all_funds_cache v))
                   (lookup_key E GetAllFunds) item
                 = Returned (cache (all_funds_cache v')))).
Proof.
  intros Hon Hmax. run_coroutine. rewrite Hon. simpl. unfold lookup_key.
  destruct (AsyncCache.lookup _ _ _) eqn:Hlook; simpl.
  - do 2 eexists. split; [reflexivity|]. simpl. auto.
  - destruct (http_listing E _); simpl;
      match goal with
      | |- context [AsyncCache.store ?m ?c ?k ?i] =>
          destruct (store_returns m c k i Hmax) as [c' Hstore]; rewrite Hstore
      end; simpl; do 2 eexists; (split; [reflexivity|]); simpl;
      repeat split; right; split; eauto.
Qed.

Lemma keys_map {V W : Type} (f : V -> W) (c : list (string * (V * Z))) :
  Dict.keys (map (fun item => (fst item, (f (fst (snd item)), snd (snd item)))) c)
  = Dict.keys c.
Proof.
  unfold Dict.keys. rewrite map_map. reflexivity.
Qed.

(** One call of any cached lookup, seen from the entry of a lookup [q]
    that is fresh at the time of the call. *)
Lemma call_lookup_step E v q q' r x :
  enable_cache (settings E) = true ->
  1 <= cache_max_size (settings E) ->
  distinct_keys v q ->
  entry_of E v q = Some (r, x) ->
  clock E (clock_reads v) < x ->
  exists res v',
    call_lookup q' E v = (Returned res, v')
    /\ clock_reads v' = S (clock_reads v)
    /\ distinct_keys v' q
    /\ (holds_key E v' q = true -> entry_of E v' q = Some (r, x)).
Proof.
  intros Hon Hmax Hnd Hentry Hfresh.
  unfold distinct_keys, holds_key, entry_of in *.
  destruct q' as [|code'].
  - destruct (get_all_funds_step E v Hon Hmax)
      as (res & v' & Hcall & Hclock & Hother & Hstep).
    exists (Listing res), v'. unfold call_lookup, bind, ret. rewrite Hcall.
    split; [reflexivity|]. split; [exact Hclock|].
    destruct q as [|code]; cbn [cached_entries] in *.
    + rewrite keys_map in *. rewrite dict_get_map in *.
      destruct (Dict.get String.eqb (cache (all_funds_cache v)) _)
        as [[l x0]|] eqn:Hget; [|discriminate].
      injection Hentry as <- <-.
      assert (Hstep' :
        cache (all_funds_cache v') = cache (all_funds_cache v)
        \/ (AsyncCache.lookup (cache (all_funds_cache v))
              (lookup_key E GetAllFunds) (clock E (clock_reads v)) = None
            /\ exists item,
                 AsyncCache.store (cache_max_size (settings E))
                   (cache (all_funds_cache v)) (lookup_key E GetAllFunds) item
                 = Returned (cache (all_funds_cache v')))) by exact Hstep.
      destruct (cache_step_keeps _ _ _ _ _ _ _ _ Hnd Hstep' Hget Hfresh)
        as [Hnd' Hkept].
      split; [exact Hnd'|].
      destruct (Dict.get String.eqb (cache (all_funds_cache v')) _)
        as [[l' x']|] eqn:Hget'; [|discriminate].
      intros _. assert (Hk := Hkept ltac:(discriminate)).
      injection Hk as -> ->. reflexivity.
    + rewrite Hother. split; [exact Hnd|]. intros _. exact Hentry.
  - destruct (get_fund_step E v code' Hon Hmax)
      as (res & v' & Hcall & Hclock & Hother & Hstep).
    exists (FundRecord res), v'. unfold call_lookup, bind, ret. rewrite Hcall.
    split; [reflexivity|]. split; [exact Hclock|].
    destruct q as [|code]; cbn [cached_entries] in *.
    + rewrite Hother. split; [exact Hnd|]. intros _. exact Hentry.
    + rewrite keys_map in *. rewrite dict_get_map in *.
      destruct (Dict.get String.eqb (cache (fund_cache v)) _)
        as [[l x0]|] eqn:Hget; [|discriminate].
      injection Hentry as <- <-.
      destruct (cache_step_keeps _ _ _ _ _ _ _ _ Hnd Hstep Hget Hfresh)
        as [Hnd' Hkept].
      split; [exact Hnd'|].
      destruct (Dict.get String.eqb (cache (fund_cache v')) _)
        as [[l' x']|] eqn:Hget'; [|discriminate].
      intros _. assert (Hk := Hkept ltac:(discriminate)).
      injection Hk as -> ->. reflexivity.
Qed.

(** Any sequence of lookups made while the entry of [q] is fresh and not
    evicted leaves that entry as it is. *)
Lemma entry_survives E q r x :
  enable_cache (settings E) = true ->
  1 <= cache_max_size (settings E) ->
  forall between v,
    distinct_keys v q ->
    entry_of E v q = Some (r, x) ->
    (forall n, (clock_reads v <= n < clock_reads v + List.length between)%nat ->
               clock E n < x) ->
    not_evicted E q between v ->
    exists v2,
      run_lookups between E v = (Returned tt, v2)
      /\ clock_reads v2 = (clock_reads v + List.length between)%nat
      /\ entry_of E v2 q = Some (r, x).
Proof.
  intros Hon Hmax.
  induction between as [|q' rest IH]; intros v Hnd Hentry Hwin Hkeep.
  - exists v. simpl. split; [reflexivity|]. split; [lia|exact Hentry].
  - simpl in Hkeep. destruct Hkeep as [Hheld Hkeep].
    destruct (call_lookup_step E v q q' r x Hon Hmax Hnd Hentry)
      as (res & v' & Hcall & Hclock & Hnd' & Hkept).
    { apply Hwin. simpl. lia. }
    rewrite Hcall in Hheld, Hkeep. simpl in Hheld, Hkeep.
    destruct (IH v' Hnd' (Hkept Hheld)) as (v2 & Hrun & Hclock2 & Hentry2).
    + intros n Hn. apply Hwin. simpl. lia.
    + exact Hkeep.
    + exists v2. simpl. unfold bind. rewrite Hcall.
      split; [exact Hrun|]. split; [simpl; lia|exact Hentry2].
Qed.

(** A lookup whose entry is fresh returns the stored result and sends no
    request. *)
Lemma call_lookup_hit E v q r x :
  enable_cache (settings E) = true ->
  entry_of E v q = Some (r, x) ->
  clock E (clock_reads v) < x ->
  exists v',
    call_lookup q E v = (Returned r, v') /\ http_calls v' = http_calls v.
Proof.
  intros Hon Hentry Hfresh. unfold entry_of in Hentry.
  destruct q as [|code]; cbn [cached_entries] in Hentry;
    rewrite dict_get_map in Hentry.
  - destruct (Dict.get String.eqb (cache (all_funds_cache v)) _)
      as [[l x0]|] eqn:Hget; [|discriminate].
    injection Hentry as <- <-.
    eexists. unfold call_lookup, bind, ret.
    rewrite (get_all_funds_hit E v l x0 Hon Hget Hfresh).
    split; reflexivity.
  - destruct (Dict.get String.eqb (cache (fund_cache v)) _)
      as [[l x0]|] eqn:Hget; [|discriminate].
    injection Hentry as <- <-.
    eexists. unfold call_lookup, bind, ret.
    rewrite (get_fund_hit E v code l x0 Hon Hget Hfresh).
    split; reflexivity.
Qed.

(** A lookup that misses while its external call fails stores its failure
    result. *)
Lemma failed_lookup_stored E w q :
  enable_cache (settings E) = true ->
  1 <= cache_max_size (settings E) ->
  is_miss E w q (clock E (clock_reads w)) ->
  external_call_fails E (List.length (http_calls w)) q ->
  exists w1,
    call_lookup q E w = (Returned (failure_result q), w1)
    /\ List.length (http_calls w1) = S (List.length (http_calls w))
    /\ clock_reads w1 = S (clock_reads w)
    /\ entry_of E w1 q
       = Some (failure_result q,
               clock E (clock_reads w) + cache_ttl (settings E)).
Proof.
  intros Hon Hmax Hmiss Hfail. unfold entry_of.
  destruct q as [|scheme_code]; destruct Hfail as [e Hfail].
  - destruct (get_all_funds_failure_stored E w e Hon Hmax Hmiss Hfail)
      as (c' & Hcall & Hget).
    eexists. unfold call_lookup, bind, ret. rewrite Hcall.
    split; [reflexivity|]. split; [simpl; rewrite length_app; simpl; lia|].
    split; [reflexivity|].
    cbn [cached_entries all_funds_cache cache]. rewrite dict_get_map, Hget.
    reflexivity.
  - destruct (get_fund_failure_stored E w scheme_code e Hon Hmax Hmiss Hfail)
      as (c' & Hcall & Hget).
    eexists. unfold call_lookup, bind, ret. rewrite Hcall.
    split; [reflexivity|]. split; [simpl; rewrite length_app; simpl; lia|].
    split; [reflexivity|].
    cbn [cached_entries fund_cache cache]. rewrite dict_get_map, Hget.
    reflexivity.
Qed.

(** Calls through the wrapper keep the keys distinct. *)
Lemma call_lookup_distinct E w q q' :
  distinct_keys w q -> distinct_keys (snd (call_lookup q' E w)) q.
Proof.
  unfold distinct_keys. intros Hnd.
  destruct q' as [|code']; unfold call_lookup, bind, ret.
  - pose proof (get_all_funds_cache_step E w) as [Hother Hstep].
    destruct (MFAPIRepository.get_all_funds E w) as [[l|e] w1];
      simpl in Hother, Hstep |- *;
      (destruct q as [|code]; cbn [cached_entries] in *;
       [rewrite keys_map in *|now rewrite Hother]);
      (destruct Hstep as [->|(k & i & Hs)];
       [assumption|eapply store_nodup; eauto]).
  - pose proof (get_fund_cache_step E w code') as [Hother Hstep].
    destruct (MFAPIRepository.get_fund code' E w) as [[l|e] w1];
      simpl in Hother, Hstep |- *;
      (destruct q as [|code]; cbn [cached_entries] in *;
       [now rewrite Hother|rewrite keys_map in *]);
      (destruct Hstep as [->|(k & i & Hs)];
       [assumption|eapply store_nodup; eauto]).
Qed.

(** The entry of [get_all_funds] cannot be evicted while it is fresh: its
    closure is only ever called with one key, and every such call is a
    hit. *)
Lemma listing_entry_not_evicted E r x :
  enable_cache (settings E) = true ->
  1 <= cache_max_size (settings E) ->
  forall between v,
    entry_of E v GetAllFunds = Some (r, x) ->
    (forall n, (clock_reads v <= n < clock_reads v + List.length between)%nat ->
               clock E n < x) ->
    not_evicted E GetAllFunds between v.
Proof.
  intros Hon Hmax.
  induction between as [|q' rest IH]; intros v Hentry Hwin; simpl; [exact I|].
  assert (Hfresh : clock E (clock_reads v) < x) by (apply Hwin; simpl; lia).
  assert (Hnext : exists v',
            snd (call_lookup q' E v) = v'
            /\ clock_reads v' = S (clock_reads v)
            /\ entry_of E v' GetAllFunds = Some (r, x)).
  { destruct q' as [|code']; unfold call_lookup, bind, ret.
    - unfold entry_of in Hentry. cbn [cached_entries] in Hentry.
      rewrite dict_get_map in Hentry.
      destruct (Dict.get String.eqb (cache (all_funds_cache v)) _)
        as [[l x0]|] eqn:Hget; [|discriminate].
      injection Hentry as <- <-.
      rewrite (get_all_funds_hit E v l x0 Hon Hget Hfresh).
      eexists. split; [reflexivity|]. split; [reflexivity|].
      unfold entry_of. cbn [cached_entries all_funds_cache cache snd].
      rewrite dict_get_map, Hget. reflexivity.
    - destruct (get_fund_step E v code' Hon Hmax)
        as (res & v' & Hcall & Hclock & Hother & _).
      rewrite Hcall. exists v'. split; [reflexivity|]. split; [exact Hclock|].
      unfold entry_of in *. cbn [cached_entries] in *. now rewrite Hother. }
  destruct Hnext as (v' & -> & Hclock & Hentry').
  split.
  - unfold holds_key. now rewrite Hentry'.
  - apply IH; [exact Hentry'|]. intros n Hn. apply Hwin. simpl. lia.
Qed.

(** C6, amended.  With the cache enabled and room for at least one entry,
    when a cached lookup ([get_all_funds] or [get_fund]) misses and its
    external call fails, the lookup returns its ordinary failure result
    ([[]] or [None]) and that result is stored.  After any sequence of
    further cached lookups, a call with the same arguments returns the
    stored failure result and sends no request to the API, provided every
    clock reading up to and including its own lies within the TTL window of
    the stored entry and, for [get_fund], no lookup in between evicted that
    entry; the entry of [get_all_funds] cannot be evicted. *)
Theorem failed_lookup_is_cached :
  forall E w q between,
    enable_cache (settings E) = true ->
    1 <= cache_max_size (settings E) ->
    distinct_keys w q ->
    is_miss E w q (clock E (clock_reads w)) ->
    external_call_fails E (List.length (http_calls w)) q ->
    (forall n,
       (S (clock_reads w) <= n <= S (clock_reads w) + List.length between)%nat ->
       clock E n < clock E (clock_reads w) + cache_ttl (settings E)) ->
    q = GetAllFunds \/ not_evicted E q between (snd (call_lookup q E w)) ->
    exists w1 w2 w3,
      call_lookup q E w = (Returned (failure_result q), w1)
      /\ List.length (http_calls w1) = S (List.length (http_calls w))
      /\ run_lookups between E w1 = (Returned tt, w2)
      /\ call_lookup q E w2 = (Returned (failure_result q), w3)
      /\ http_calls w3 = http_calls w2.
Proof.
  intros E w q between Hon Hmax Hnd Hmiss Hfail Hwin Hkeep.
  destruct (failed_lookup_stored E w q Hon Hmax Hmiss Hfail)
    as (w1 & Hcall & Hsent & Hclock & Hentry).
  pose proof (call_lookup_distinct E w q q Hnd) as Hnd1.
  rewrite Hcall in Hkeep, Hnd1. simpl in Hkeep, Hnd1.
  assert (Hkeep' : not_evicted E q between w1).
  { destruct Hkeep as [->|Hkeep]; [|exact Hkeep].
    apply (listing_entry_not_evicted E _ _ Hon Hmax between w1 Hentry).
    intros n Hn. apply Hwin. lia. }
  destruct (entry_survives E q _ _ Hon Hmax between w1 Hnd1 Hentry)
    as (w2 & Hrun & Hclock2 & Hentry2).
  { intros n Hn. apply Hwin. lia. }
  { exact Hkeep'. }
  destruct (call_lookup_hit E w2 q _ _ Hon Hentry2) as (w3 & Hhit & Hquiet).
  { apply Hwin. lia. }
  exists w1, w2, w3. auto.
Qed.

Lemma failed_lookup_is_cached_witness :
  exists w1 w2 w3,
    call_lookup (GetFund (Some 119010)) outage_env initial_world
    = (Returned (FundRecord None), w1)
    /\ List.length (http_calls w1) = 1%nat
    /\ run_lookups [GetFund (Some 120465); GetAllFunds] outage_env w1
       = (Returned tt, w2)
    /\ call_lookup (GetFund (Some 119010)) outage_env w2
       = (Returned (FundRecord None), w3)
    /\ http_calls w3 = http_calls w2.
Proof.
  apply (failed_lookup_is_cached outage_env initial_world
           (GetFund (Some 119010)) [GetFund (Some 120465); GetAllFunds]).
  - reflexivity.
  - vm_compute. discriminate.
  - constructor.
  - reflexivity.
  - simpl. eexists. reflexivity.
  - intros n Hn. change (1000 + Z.of_nat n < 1000 + Z.of_nat 0 + 3600).
    simpl in Hn. lia.
  - right. vm_compute. auto.
Defined.

(** The proviso on eviction is needed.  With room for a single entry, a
    lookup of another fund evicts the stored failure, and the first lookup,
    repeated two ticks after it failed, sends its request again. *)
Lemma evicted_failure_is_retried :
  exists w1 w2 w3,
    call_lookup (GetFund (Some 119010)) single_slot_env initial_world
    = (Returned (FundRecord None), w1)
    /\ run_lookups [GetFund (Some 120465)] single_slot_env w1
       = (Returned tt, w2)
    /\ holds_key single_slot_env w2 (GetFund (Some 119010)) = false
    /\ call_lookup (GetFund (Some 119010)) single_slot_env w2
       = (Returned (FundRecord (Some sample_payload)), w3)
    /\ http_calls w3 = ["/119010"; "/120465"; "/119010"]
    /\ clock single_slot_env 2
       < clock single_slot_env 0 + cache_ttl (settings single_slot_env).
Proof.
  do 3 eexists. split; [vm_compute; reflexivity|].
  split; [vm_compute; reflexivity|].
  split; [vm_compute; reflexivity|].
  split; [vm_compute; reflexivity|].
  split; reflexivity.
Qed.

(** ** The pipeline stages *)

Lemma extends_ret s s' added :
  get_chat_history s' = (get_chat_history s ++ added)%list ->
  extends_history s (ret s').
Proof.
  intros H E w. exists s', added. split; [reflexivity|exact H].
Qed.

Lemma extends_same s s' :
  get_chat_history s' = get_chat_history s -> extends_history s (ret s').
Proof.
  intros H. apply (extends_ret s s' []). now rewrite app_nil_r.
Qed.

(** The shape shared by the stages: a [try] whose body computes something
    and then returns a state, and whose handler returns a state. *)
Lemma extends_try_bind {X : Type} s (m : M X) (k : X -> M state)
    (handler : exn -> M state) :
  (forall x, extends_history s (k x)) ->
  (forall e, extends_history s (handler e)) ->
  extends_history s (try_except (bind m k) handler).
Proof.
  intros Hk Hh E w. unfold try_except, bind.
  destruct (m E w) as [[x|e] w1].
  - destruct (Hk x E w1) as (s' & added & Hret & Hhist).
    exists s', added. split; [|exact Hhist].
    destruct (k x E w1) as [[s1|e1] w2]; simpl in Hret |- *;
      [exact Hret|discriminate].
  - apply Hh.
Qed.

Lemma analyze_query_appends : appends_only Nodes.analyze_query.
Proof.
  intros s. unfold Nodes.analyze_query.
  apply extends_try_bind; intros; eapply extends_ret; reflexivity.
Qed.

Lemma search_funds_appends : appends_only Nodes.search_funds.
Proof.
  intros s. unfold Nodes.search_funds.
  apply extends_try_bind; intros.
  - eapply extends_ret; reflexivity.
  - apply extends_same. reflexivity.
Qed.

Lemma fetch_fund_details_appends : appends_only Nodes.fetch_fund_details.
Proof.
  intros s. unfold Nodes.fetch_fund_details.
  destruct (Nat.min _ 3).
  - intros E w. unfold try_except, ret. simpl. do 2 eexists.
    split; reflexivity.
  - apply extends_try_bind; intros.
    + eapply extends_ret; reflexivity.
    + apply extends_same. reflexivity.
Qed.

Lemma analyze_funds_appends : appends_only Nodes.analyze_funds.
Proof.
  intros s. unfold Nodes.analyze_funds.
  destruct (st_fund_details s) as [[|first others]|].
  - eapply extends_ret; reflexivity.
  - apply extends_try_bind; intros.
    + eapply extends_ret; reflexivity.
    + apply extends_same. reflexivity.
  - eapply extends_ret; reflexivity.
Qed.

Lemma generate_final_response_appends :
  appends_only Nodes.generate_final_response.
Proof.
  intros s. unfold Nodes.generate_final_response.
  destruct (Nodes.text_truthy (st_error s) && _).
  - eapply extends_ret; reflexivity.
  - apply extends_try_bind; intros; eapply extends_ret; reflexivity.
Qed.

(** C9.  Each of the five stage functions, on every input state and in
    every run, failure branches included, returns a state whose
    conversation history has the incoming history as a prefix. *)
Theorem stages_append_only :
  appends_only Nodes.analyze_query
  /\ appends_only Nodes.search_funds
  /\ appends_only Nodes.fetch_fund_details
  /\ appends_only Nodes.analyze_funds
  /\ appends_only Nodes.generate_final_response.
Proof.
  repeat split.
  - apply analyze_query_appends.
  - apply search_funds_appends.
  - apply fetch_fund_details_appends.
  - apply analyze_funds_appends.
  - apply generate_final_response_appends.
Qed.

Lemma app_singleton_neq {A : Type} (l : list A) (x : A) : (l ++ [x])%list <> l.
Proof.
  intros H. apply (f_equal (@List.length A)) in H.
  rewrite length_app in H. simpl in H. lia.
Qed.

(** C8, as stated, fails in its "only when" half.  No error is recorded and
    the text generation answers the final-response prompt with the very
    sentence of the fixed apology: the response is the fixed apology,
    although the short cut was not taken and the prompt was sent. *)
Lemma apology_without_error_counterexample :
  exists s' w',
    Nodes.generate_final_response
      (FundAdvisorAgent.initial_state sample_query None)
      parroting_env initial_world
    = (Returned s', w')
    /\ st_response s' = Some Nodes.analysis_failed_response
    /\ st_error (FundAdvisorAgent.initial_state sample_query None) = None
    /\ ~ error_without_analysis
           (FundAdvisorAgent.initial_state sample_query None)
    /\ llm_calls w'
       = [(FINAL_RESPONSE_PROMPT sample_query EmptyString [], 0.3%float)].
Proof.
  do 2 eexists. split; [vm_compute; reflexivity|].
  split; [reflexivity|]. split; [reflexivity|].
  split; [|reflexivity].
  intros [Herr _]. discriminate Herr.
Qed.

(** C8, amended.  [generate_final_response] never raises and changes only
    the response and the history, to which it appends one turn.  It takes
    its short cut, the fixed apology with the text generation not
    consulted, exactly when an error is recorded and no fund-analysis text
    exists.  Otherwise it sends the final-response prompt at temperature
    0.3: the response is the generated text, or, when that call fails, the
    fund-analysis text verbatim, or the second fixed apology when that text
    is empty. *)
Theorem generate_final_response_fallbacks :
  forall s E w,
    exists response turn w',
      Nodes.generate_final_response s E w
      = (Returned
           (Nodes.with_chat_history
              (get_chat_history s ++ [AIMessage turn])%list
              (Nodes.with_response response s)),
         w')
      /\ (error_without_analysis s ->
          response = Nodes.analysis_failed_response
          /\ turn = "I couldn't complete the analysis of mutual funds."
          /\ w' = w)
      /\ (~ error_without_analysis s ->
          w' = World (clock_reads w)
                 (llm_calls w
                  ++ [(FINAL_RESPONSE_PROMPT (st_query s)
                         (text_or (st_fund_analysis s) EmptyString)
                         (get_chat_history s), 0.3%float)])%list
                 (http_calls w) (all_funds_cache w) (fund_cache w)
          /\ match llm_generate E (List.length (llm_calls w))
                     (FINAL_RESPONSE_PROMPT (st_query s)
                        (text_or (st_fund_analysis s) EmptyString)
                        (get_chat_history s)) 0.3%float with
             | Returned text => response = text /\ turn = text
             | Raised _ =>
                 response
                 = (if Str.truthy (text_or (st_fund_analysis s) EmptyString)
                    then text_or (st_fund_analysis s) EmptyString
                    else Nodes.no_response_apology)
                 /\ turn
                    = "Here's what I found about the mutual funds you asked about."
             end)
      /\ (llm_calls w' = llm_calls w <-> error_without_analysis s).
Proof.
  intros s E w. unfold error_without_analysis, Nodes.generate_final_response.
  destruct (Nodes.text_truthy (st_error s)) eqn:Herr;
    destruct (Str.truthy (text_or (st_fund_analysis s) EmptyString)) eqn:Hfa;
    cbn [andb negb].
  2: { do 3 eexists. split; [reflexivity|]. split; [auto|].
       split; [|tauto]. intros Hn. exfalso. apply Hn. split; reflexivity. }
  all: unfold try_except, bind, generate_response, ret; cbv beta;
    rewrite ?Hfa;
    destruct (llm_generate E (List.length (llm_calls w))
                (FINAL_RESPONSE_PROMPT (st_query s)
                   (text_or (st_fund_analysis s) EmptyString)
                   (get_chat_history s)) 0.3%float) as [text|e0] eqn:Hllm;
    do 3 eexists; (split; [reflexivity|]); simpl;
    (split; [intros [? ?]; discriminate|]);
    (split;
     [intros _; split; [reflexivity|split; reflexivity]
     |split;
      [intros Hlog; exfalso; exact (app_singleton_neq _ _ Hlog)
      |intros [? ?]; discriminate]]).
Qed.

(** With no search results, the later stages send at most the
    final-response prompt: neither the analysis prompt nor the comparison
    prompt goes to the text generation. *)
Lemma empty_search_sends_no_analysis_prompt s E w :
  st_search_results s = Some [] ->
  let run := bind (Nodes.fetch_fund_details s) (fun s3 =>
             bind (Nodes.analyze_funds s3) Nodes.generate_final_response) in
  llm_calls (snd (run E w)) = llm_calls w
  \/ exists query context history temp,
       llm_calls (snd (run E w))
       = (llm_calls w ++ [(FINAL_RESPONSE_PROMPT query context history, temp)])%list.
Proof.
  intros Hres run. subst run.
  unfold Nodes.fetch_fund_details, Nodes.analyze_funds, bind, try_except, ret.
  rewrite Hres. simpl.
  unfold Nodes.generate_final_response. simpl.
  match goal with
  | |- context [if ?b then _ else _] => destruct b
  end.
  - left. reflexivity.
  - right. unfold try_except, bind, generate_response, ret.
    destruct (llm_generate E _ _ _); simpl; do 4 eexists; reflexivity.
Qed.

(** With no search results and no error recorded, whatever
    [analyze_funds] stored as the response, the state that leaves the graph
    carries the text generated for the final-response prompt. *)
Lemma empty_search_delivers_generated_text s E w text :
  st_search_results s = Some [] ->
  st_error s = None ->
  llm_generate E (List.length (llm_calls w))
    (FINAL_RESPONSE_PROMPT (st_query s)
       (text_or (st_fund_analysis s) EmptyString)
       (get_chat_history s
        ++ [AIMessage "I couldn't find any relevant funds to analyze."]
        ++ [AIMessage "I couldn't find any mutual funds matching your query."])%list)
    0.3%float = Returned text ->
  exists s' w',
    bind (Nodes.fetch_fund_details s) (fun s3 =>
    bind (Nodes.analyze_funds s3) Nodes.generate_final_response) E w
    = (Returned s', w')
    /\ st_response s' = Some text.
Proof.
  intros Hres Herr Hllm.
  unfold Nodes.fetch_fund_details, Nodes.analyze_funds, bind, try_except, ret.
  rewrite Hres. simpl.
  unfold Nodes.generate_final_response. simpl. rewrite Herr. simpl.
  unfold try_except, bind, generate_response, ret.
  rewrite app_assoc in Hllm.
  cbn [get_chat_history Nodes.with_chat_history Nodes.with_response
       Nodes.with_fund_details st_chat_history st_query st_fund_analysis]
    in Hllm |- *.
  rewrite Hllm.
  do 2 eexists. split; reflexivity.
Qed.

(** C7 on a run with no search results.  The search stage finds nothing,
    [analyze_funds] sets the response to the empty-detail apology, and
    [generate_final_response], which runs next on every path, replaces it
    with the text it generates: the pipeline delivers that text. *)
Theorem empty_search_response_overwritten :
  exists s2 w2 s4 w4,
    bind (Nodes.analyze_query
            (FundAdvisorAgent.initial_state sample_query None))
         Nodes.search_funds sample_env initial_world
    = (Returned s2, w2)
    /\ st_search_results s2 = Some []
    /\ bind (Nodes.fetch_fund_details s2) Nodes.analyze_funds sample_env w2
       = (Returned s4, w4)
    /\ st_response s4 = Some Nodes.no_funds_response
    /\ fst (FundAdvisorAgent.process_query sample_query None
              sample_env initial_world)
       = Returned "No specific scheme is mentioned."
    /\ "No specific scheme is mentioned." <> Nodes.no_funds_response.
Proof.
  do 4 eexists.
  split; [vm_compute; reflexivity|].
  split; [reflexivity|].
  split; [vm_compute; reflexivity|].
  split; [reflexivity|].
  split; [vm_compute; reflexivity|].
  discriminate.
Qed.

(** * Further properties *)

(** ** Whitespace, [strip] and [split] *)

Lemma append_assoc_str (a b c : string) : ((a ++ b) ++ c = a ++ (b ++ c))%string.
Proof.
  induction a as [|x a IH]; simpl; [reflexivity|now rewrite IH].
Qed.

Lemma rev_acc_append s : forall acc,
  Str.rev_acc s acc = (Str.rev_acc s EmptyString ++ acc)%string.
Proof.
  induction s as [|a s IH]; intros acc; simpl; [reflexivity|].
  rewrite IH. rewrite (IH (String a EmptyString)).
  now rewrite append_assoc_str.
Qed.

Lemma rev_acc_snoc s c : forall acc,
  Str.rev_acc (s ++ String c EmptyString) acc = String c (Str.rev_acc s acc).
Proof.
  induction s as [|a s IH]; intros acc; simpl; [reflexivity|apply IH].
Qed.

Lemma lstrip_snoc u c :
  Str.is_space c = false ->
  Str.lstrip (u ++ String c EmptyString)
  = (Str.lstrip u ++ String c EmptyString)%string.
Proof.
  intros Hc. induction u as [|a u IH]; simpl.
  - now rewrite Hc.
  - destruct (Str.is_space a); [exact IH|reflexivity].
Qed.

Lemma lstrip_head s c r :
  Str.lstrip s = String c r -> Str.is_space c = false.
Proof.
  induction s as [|a s IH]; simpl; [discriminate|].
  destruct (Str.is_space a) eqn:Ha; [exact IH|].
  intros [= <- <-]. exact Ha.
Qed.

Lemma lstrip_empty_blank s : Str.lstrip s = EmptyString <-> blank s = true.
Proof.
  induction s as [|a s IH]; simpl; [tauto|].
  destruct (Str.is_space a); simpl; [exact IH|].
  split; discriminate.
Qed.

(** A non-empty [strip] starts with the first non-whitespace character of
    the text. *)
Lemma strip_of_lstrip s c r :
  Str.lstrip s = String c r ->
  exists r', Str.strip s = String c r'.
Proof.
  intros Hl. pose proof (lstrip_head _ _ _ Hl) as Hc.
  unfold Str.strip, Str.rev. rewrite Hl.
  change (Str.rev_acc (String c r) EmptyString)
    with (Str.rev_acc r (String c EmptyString)).
  rewrite (rev_acc_append r (String c EmptyString)).
  rewrite lstrip_snoc by exact Hc.
  rewrite rev_acc_snoc. eauto.
Qed.

Lemma strip_head s c r :
  Str.strip s = String c r -> Str.is_space c = false.
Proof.
  destruct (Str.lstrip s) as [|c0 r0] eqn:Hl.
  - unfold Str.strip. rewrite Hl. discriminate.
  - destruct (strip_of_lstrip _ _ _ Hl) as [r' ->].
    intros [= <- _]. exact (lstrip_head _ _ _ Hl).
Qed.

Lemma strip_empty_blank s : Str.strip s = EmptyString <-> blank s = true.
Proof.
  rewrite <- lstrip_empty_blank.
  destruct (Str.lstrip s) as [|c r] eqn:Hl.
  - unfold Str.strip. rewrite Hl. split; reflexivity.
  - destruct (strip_of_lstrip _ _ _ Hl) as [r' ->]. split; discriminate.
Qed.

Lemma strip_not_blank s :
  Str.truthy (Str.strip s) = true -> blank (Str.strip s) = false.
Proof.
  destruct (Str.lstrip s) as [|c r] eqn:Hl.
  - unfold Str.strip. rewrite Hl. discriminate.
  - destruct (strip_of_lstrip _ _ _ Hl) as [r' ->]. intros _. simpl.
    now rewrite (lstrip_head _ _ _ Hl).
Qed.

Lemma is_space_lower_char_eq c :
  Str.is_space (Str.lower_char c) = Str.is_space c.
Proof.
  destruct c as [[] [] [] [] [] [] [] []]; vm_compute; reflexivity.
Qed.

Lemma blank_lower s : blank (Str.lower s) = blank s.
Proof.
  induction s as [|c s IH]; simpl; [reflexivity|].
  now rewrite is_space_lower_char_eq, IH.
Qed.

(** [split] yields no term exactly on blank text. *)
Lemma split_nil_blank s : Str.split s = [] <-> blank s = true.
Proof.
  induction s as [|c s IH]; simpl; [tauto|].
  destruct (Str.is_space c); simpl; [exact IH|].
  split; [|discriminate].
  destruct s as [|c' s']; [discriminate|].
  destruct (Str.is_space c'); [discriminate|].
  destruct (Str.split (String c' s')); discriminate.
Qed.

Lemma not_blank_has_terms s :
  blank s = false -> Str.split (Str.lower s) <> [].
Proof.
  intros Hb Hs. apply split_nil_blank in Hs. rewrite blank_lower in Hs.
  congruence.
Qed.

(** ** Query analyzer *)

Lemma usable_not_blank t : QueryAnalyzer.usable t = true -> blank t = false.
Proof.
  unfold QueryAnalyzer.usable. intros H. apply andb_prop in H as [_ H].
  destruct (blank t) eqn:Hb; [|reflexivity].
  apply strip_empty_blank in Hb. rewrite Hb in H. discriminate.
Qed.

Lemma stripped_terms_not_blank l t :
  In t (map Str.strip (filter (fun term => Str.truthy (Str.strip term)) l)) ->
  blank t = false.
Proof.
  intros Hin. apply in_map_iff in Hin as (term & <- & Hin).
  apply filter_In in Hin as [_ Htr]. now apply strip_not_blank.
Qed.

(** X1.  No term returned by [parse_search_terms] is blank: the search run
    for it has at least one query term, so it is never the search that
    matches every fund. *)
Theorem parse_search_terms_never_blank :
  forall text t,
    In t (QueryAnalyzer.parse_search_terms text) ->
    blank t = false /\ Str.split (Str.lower t) <> [].
Proof.
  intros text t Hin.
  assert (Hb : blank t = false).
  { unfold QueryAnalyzer.parse_search_terms in Hin.
    destruct (QueryAnalyzer.search_list text) as [terms_text|].
    - apply filter_In in Hin as [_ Hu]. now apply usable_not_blank.
    - destruct (Str.contains _ text);
        exact (stripped_terms_not_blank _ _ Hin). }
  split; [exact Hb|now apply not_blank_has_terms].
Qed.

(** X2.  No name returned by [extract_fund_names] is blank or one of the
    placeholders "none", "not mentioned", "not specified" in any letter
    case, and it has no leading whitespace. *)
Theorem extract_fund_names_are_names :
  forall analysis name,
    In name (QueryAnalyzer.extract_fund_names analysis) ->
    blank name = false
    /\ Str.split (Str.lower name) <> []
    /\ Str.lstrip name = name
    /\ ~ In (Str.lower name) ["none"; "not mentioned"; "not specified"].
Proof.
  intros analysis name. unfold QueryAnalyzer.extract_fund_names.
  induction (Str.split_on QueryAnalyzer.newline analysis) as [|line lines IH];
    simpl; [contradiction|].
  destruct (QueryAnalyzer.fund_name_of_line line) as [n|] eqn:Hline;
    [|exact IH].
  intros [<-|Hin]; [|auto].
  unfold QueryAnalyzer.fund_name_of_line in Hline.
  destruct (_ && _); [|discriminate].
  destruct (Str.after_first ":" line) as [tail|]; [|discriminate].
  destruct (Str.truthy (Str.strip tail)) eqn:Htr; [|discriminate].
  destruct (QueryAnalyzer.mem _ _) eqn:Hmem; [discriminate|].
  simpl in Hline. injection Hline as <-.
  pose proof (strip_not_blank _ Htr) as Hb.
  repeat split.
  - exact Hb.
  - now apply not_blank_has_terms.
  - destruct (Str.strip tail) as [|c r] eqn:Hs; [reflexivity|].
    simpl. now rewrite (strip_head _ _ _ Hs).
  - intros Hin. unfold QueryAnalyzer.mem in Hmem.
    assert (existsb (String.eqb (Str.lower (Str.strip tail)))
              ["none"; "not mentioned"; "not specified"] = true).
    { apply existsb_exists. exists (Str.lower (Str.strip tail)).
      split; [exact Hin|apply String.eqb_refl]. }
    congruence.
Qed.

Lemma parse_search_terms_never_blank_witness :
  blank "hdfc top" = false /\ Str.split (Str.lower "hdfc top") <> [].
Proof.
  apply (parse_search_terms_never_blank "Terms: [hdfc top, sbi]" "hdfc top").
  vm_compute. left. reflexivity.
Defined.

Lemma extract_fund_names_are_names_witness :
  blank "HDFC Top 100" = false
  /\ Str.split (Str.lower "HDFC Top 100") <> []
  /\ Str.lstrip "HDFC Top 100" = "HDFC Top 100"
  /\ ~ In (Str.lower "HDFC Top 100") ["none"; "not mentioned"; "not specified"].
Proof.
  apply (extract_fund_names_are_names "Fund name:  HDFC Top 100 " "HDFC Top 100").
  vm_compute. left. reflexivity.
Defined.

(** ** Request models *)

(** X3.  [validate_query] rejects exactly the blank queries; an accepted
    query is returned stripped, is not blank, and splits into at least one
    search term. *)
Theorem validate_query_rejects_blank :
  forall v,
    match Requests.validate_query v with
    | Raised _ => blank v = true
    | Returned q =>
        blank v = false /\ q = Str.strip v /\ blank q = false
        /\ Str.split (Str.lower q) <> []
    end.
Proof.
  intros v. unfold Requests.validate_query.
  destruct (Str.truthy (Str.strip v)) eqn:Hs.
  - destruct (Str.truthy v) eqn:Hv; simpl.
    + pose proof (strip_not_blank _ Hs) as Hb.
      repeat split; try assumption.
      * destruct (blank v) eqn:Hbv; [|reflexivity].
        apply strip_empty_blank in Hbv. rewrite Hbv in Hs. discriminate.
      * now apply not_blank_has_terms.
    + destruct v; [discriminate Hs|discriminate Hv].
  - rewrite orb_true_r. apply strip_empty_blank.
    destruct (Str.strip v); [reflexivity|discriminate].
Qed.

(** X4.  What the other validators let through: a [max_results] between 1
    and 10 (or none), two or three fund ids that are the first ones given,
    and one of the six periods. *)
Theorem validators_normalise :
  (forall v r, Requests.validate_max_results v = Some r -> 1 <= r <= 10)
  /\ (forall v, Requests.validate_max_results v = None <-> v = None)
  /\ (forall v,
        match Requests.validate_fund_ids v with
        | Raised _ => (List.length v < 2)%nat
        | Returned ids =>
            ids = firstn 3 v /\ (2 <= List.length ids <= 3)%nat
        end)
  /\ (forall v, In (Requests.validate_period v) Requests.valid_periods)
  /\ (forall p, In p Requests.valid_periods ->
                Requests.validate_period (Some p) = p).
Proof.
  split; [|split; [|split; [|split]]].
  - intros v r H. unfold Requests.validate_max_results in H.
    destruct v as [n|]; [|discriminate].
    destruct (Z.ltb_spec n 1); simpl in H.
    + injection H as <-. lia.
    + destruct (Z.ltb_spec 10 n); injection H as <-; lia.
  - intros v. split; [|intros ->; reflexivity].
    destruct v as [n|]; [|reflexivity]. simpl.
    destruct ((n <? 1) || (10 <? n)); discriminate.
  - intros v. unfold Requests.validate_fund_ids.
    destruct (Nat.ltb_spec (List.length v) 2); [assumption|].
    destruct (Nat.ltb_spec 3 (List.length v)).
    + split; [reflexivity|]. rewrite length_firstn. lia.
    + split; [|lia]. symmetry. apply firstn_all2. lia.
  - intros v. unfold Requests.validate_period. destruct v as [p|]; [|simpl; tauto].
    destruct (existsb (String.eqb p) Requests.valid_periods) eqn:Hp;
      [|simpl; tauto].
    apply existsb_exists in Hp as (x & Hin & Heq).
    apply String.eqb_eq in Heq. now subst.
  - intros p Hin. unfold Requests.validate_period.
    assert (Hp : existsb (String.eqb p) Requests.valid_periods = true).
    { apply existsb_exists. exists p. split; [assumption|apply String.eqb_refl]. }
    now rewrite Hp.
Qed.

(** ** Fund lookup service *)

(** The loop in closed form: the matching funds in listing order, cut at
    [limit], and at one when [limit] is below one. *)
Lemma filter_loop_closed_form terms limit :
  forall funds acc,
    MutualFundService.filter_loop terms limit funds acc
    = (acc ++ map MutualFundService.summary_of
                  (firstn (Z.to_nat (Z.max 1 (limit - Z.of_nat (List.length acc))))
                          (filter (MutualFundService.matches terms) funds)))%list.
Proof.
  induction funds as [|f funds IH]; intros acc; simpl.
  - rewrite firstn_nil. simpl. now rewrite app_nil_r.
  - destruct (MutualFundService.matches terms f) eqn:Hm.
    + assert (Hlen : Z.of_nat (List.length (acc ++ [MutualFundService.summary_of f])%list)
                     = Z.of_nat (List.length acc) + 1).
      { rewrite length_app. simpl. lia. }
      destruct (Z.leb_spec limit
                  (Z.of_nat (List.length (acc ++ [MutualFundService.summary_of f])%list)))
        as [Hfull|Hroom].
      * replace (Z.to_nat (Z.max 1 (limit - Z.of_nat (List.length acc))))
          with 1%nat by lia.
        simpl. reflexivity.
      * rewrite IH, Hlen, <- app_assoc. simpl.
        replace (Z.to_nat (Z.max 1 (limit - Z.of_nat (List.length acc))))
          with (S (Z.to_nat (Z.max 1 (limit - (Z.of_nat (List.length acc) + 1)))))
          by lia.
        reflexivity.
    + apply IH.
Qed.

(** X5.  [search_funds] returns the summaries of the funds of the backing
    listing all of whose lowercase names contain every query term, in
    listing order, cut after [limit] of them, and after one when [limit] is
    below one. *)
Theorem search_funds_closed_form :
  forall E w listing w' query limit,
    MFAPIRepository.get_all_funds E w = (Returned listing, w') ->
    MutualFundService.search_funds query limit E w
    = (Returned
         (map MutualFundService.summary_of
              (firstn (Z.to_nat (Z.max 1 limit))
                      (filter (MutualFundService.matches
                                 (Str.split (Str.lower query))) listing))),
       w').
Proof.
  intros E w listing w' query limit Hget.
  unfold MutualFundService.search_funds, try_except, bind, ret.
  rewrite Hget. rewrite filter_loop_closed_form. simpl.
  now rewrite Z.sub_0_r.
Qed.

Lemma search_funds_closed_form_witness :
  MutualFundService.search_funds "hdfc" 1 sample_env initial_world
  = (Returned
       (map MutualFundService.summary_of
            (firstn (Z.to_nat (Z.max 1 1))
                    (filter (MutualFundService.matches
                               (Str.split (Str.lower "hdfc"))) sample_listing))),
     snd (MFAPIRepository.get_all_funds sample_env initial_world)).
Proof.
  apply (search_funds_closed_form sample_env initial_world sample_listing).
  reflexivity.
Defined.

(** Substring tests and prefixes of the needle. *)
Lemma prefix_append_l a b : forall s,
  String.prefix (a ++ b) s = true -> String.prefix a s = true.
Proof.
  induction a as [|x a IH]; intros s H.
  - destruct s; reflexivity.
  - destruct s as [|y s]; [discriminate H|].
    simpl in H |- *.
    destruct (Ascii.ascii_dec x y); [now apply IH|discriminate H].
Qed.

Lemma contains_unfold needle hay :
  Str.contains needle hay
  = String.prefix needle hay
    || match hay with
       | EmptyString => false
       | String _ hay' => Str.contains needle hay'
       end.
Proof.
  destruct hay; reflexivity.
Qed.

Lemma contains_append_l a b : forall s,
  Str.contains (a ++ b) s = true -> Str.contains a s = true.
Proof.
  induction s as [|y s IH]; intros H; rewrite contains_unfold in H |- *;
    apply orb_true_iff in H as [H|H].
  - apply prefix_append_l in H. now rewrite H.
  - discriminate.
  - apply prefix_append_l in H. now rewrite H.
  - rewrite (IH H). apply orb_true_r.
Qed.

(** X6.  The keyword "equity savings" of the Hybrid set never decides: a
    name that contains it contains "equity" and is categorised
    ["Equity"]; a fund is categorised ["Hybrid"] only through "hybrid" or
    "balanced". *)
Theorem categorize_equity_savings_is_equity :
  forall scheme_name,
    (Str.contains "equity savings" (Str.lower scheme_name) = true ->
     MutualFundService._categorize_fund scheme_name = "Equity")
    /\ (MutualFundService._categorize_fund scheme_name = "Hybrid" ->
        Str.contains "hybrid" (Str.lower scheme_name) = true
        \/ Str.contains "balanced" (Str.lower scheme_name) = true).
Proof.
  intros scheme_name.
  assert (Heq : Str.contains "equity savings" (Str.lower scheme_name) = true ->
                MutualFundService.any_in
                  ["equity"; "large cap"; "mid cap"; "small cap"; "flexi cap"]
                  (Str.lower scheme_name) = true).
  { intros H. unfold MutualFundService.any_in. simpl.
    rewrite (contains_append_l "equity" " savings" _ H). reflexivity. }
  unfold MutualFundService._categorize_fund. split.
  - intros H. now rewrite (Heq H).
  - destruct (MutualFundService.any_in
                ["equity"; "large cap"; "mid cap"; "small cap"; "flexi cap"]
                (Str.lower scheme_name)) eqn:He; [discriminate|].
    destruct (MutualFundService.any_in ["debt"; "bond"; "income"; "liquid"; "gilt"]
                (Str.lower scheme_name)); [discriminate|].
    destruct (MutualFundService.any_in ["hybrid"; "balanced"; "equity savings"]
                (Str.lower scheme_name)) eqn:Hh.
    + intros _. unfold MutualFundService.any_in in Hh. simpl in Hh.
      destruct (Str.contains "hybrid" (Str.lower scheme_name)); [now left|].
      destruct (Str.contains "balanced" (Str.lower scheme_name)); [now right|].
      simpl in Hh. rewrite orb_false_r in Hh.
      discriminate (Heq Hh).
    + destruct (MutualFundService.any_in
                  ["retirement"; "children"; "tax saver"; "elss"]
                  (Str.lower scheme_name)); intros H; discriminate H.
Qed.

(** X7.  [_extract_fund_house] returns the first house of the table that
    occurs, letter case included, in the scheme name, and the empty text
    exactly when none occurs. *)
Theorem extract_fund_house_first_listed :
  forall scheme_name,
    let house := MutualFundService._extract_fund_house scheme_name in
    (house = EmptyString <->
     forall h, In h MutualFundService.common_fund_houses ->
               Str.contains h scheme_name = false)
    /\ (house <> EmptyString ->
        exists before after,
          MutualFundService.common_fund_houses = (before ++ house :: after)%list
          /\ Str.contains house scheme_name = true
          /\ forall h, In h before -> Str.contains h scheme_name = false).
Proof.
  intros scheme_name house. subst house.
  unfold MutualFundService._extract_fund_house.
  set (test := fun fund_house : string => Str.contains fund_house scheme_name).
  assert (Hsplit :
    forall l, match find test l with
              | Some h => exists before after,
                            l = (before ++ h :: after)%list /\ test h = true
                            /\ forall x, In x before -> test x = false
              | None => forall x, In x l -> test x = false
              end).
  { induction l as [|x l IH]; simpl; [intros ? []|].
    destruct (test x) eqn:Hx.
    - exists [], l. repeat split; auto. intros ? [].
    - destruct (find test l) as [h|].
      + destruct IH as (before & after & -> & Hh & Hb).
        exists (x :: before), after. repeat split; auto.
        intros y [<-|Hy]; auto.
      + intros y [<-|Hy]; auto. }
  specialize (Hsplit MutualFundService.common_fund_houses).
  destruct (find test MutualFundService.common_fund_houses) as [h|] eqn:Hf.
  - destruct Hsplit as (before & after & Hl & Hh & Hb). split.
    + split.
      * intros ->. apply find_some in Hf as [Hin _].
        simpl in Hin. repeat (destruct Hin as [Hin|Hin]; [discriminate|]).
        contradiction.
      * intros Hnone. apply find_some in Hf as [Hin Ht].
        unfold test in Ht. rewrite (Hnone h Hin) in Ht. discriminate.
    + intros _. exists before, after. auto.
  - split; [|congruence]. split; auto.
Qed.

(** ** Details of one fund *)

(** The points built from a list of entries, when all values convert. *)
Lemma nav_points_returned items :
  forall ps,
    MutualFundService.nav_points items = Returned ps ->
    Forall2 (fun item p =>
               point_date p = get_date item
               /\ float_nav item = Returned (point_nav p))
            items ps.
Proof.
  induction items as [|item items IH]; simpl; intros ps H.
  - injection H as <-. constructor.
  - unfold and_then in H. destruct (float_nav item) as [v|] eqn:Hv;
      [|discriminate].
    destruct (MutualFundService.nav_points items) as [ps'|]; [|discriminate].
    injection H as <-. constructor; [simpl; auto|now apply IH].
Qed.

Lemma nav_points_malformed items entry e :
  In entry items -> float_nav entry = Raised e ->
  exists e', MutualFundService.nav_points items = Raised e'.
Proof.
  induction items as [|item items IH]; simpl; [contradiction|].
  intros [<-|Hin] Hbad; unfold and_then.
  - rewrite Hbad. eauto.
  - destruct (float_nav item); [|eauto].
    destruct (IH Hin Hbad) as [e' ->]. eauto.
Qed.

(** What [build_detail] returns, when it returns. *)
Lemma build_detail_returned scheme_code include_nav_data data d :
  MutualFundService.build_detail scheme_code include_nav_data data = Returned d ->
  let meta := match payload_meta data with
              | Some m => m
              | None => FundMeta None None None None
              end in
  let raw := match payload_data data with Some l => l | None => [] end in
  detail_scheme_code d = scheme_code
  /\ detail_scheme_name d = text_or (meta_scheme_name meta) EmptyString
  /\ detail_fund_house d = text_or (meta_fund_house meta) EmptyString
  /\ detail_scheme_type d = text_or (meta_scheme_type meta) EmptyString
  /\ detail_scheme_category d = text_or (meta_scheme_category meta) EmptyString
  /\ match raw with
     | first :: _ =>
         (exists v, float_nav first = Returned v
                    /\ detail_scheme_nav d = Some v)
         /\ detail_scheme_nav_date d = Some (get_date first)
     | [] => detail_scheme_nav d = None /\ detail_scheme_nav_date d = None
     end
  /\ (exists returns,
        MutualFundService._calculate_returns raw = Returned returns
        /\ detail_performance d
           = Build_PerformanceMetrics
               (Dict.get String.eqb returns "1M")
               (Dict.get String.eqb returns "3M")
               (Dict.get String.eqb returns "6M")
               (Dict.get String.eqb returns "1Y")
               (Dict.get String.eqb returns "3Y")
               (Dict.get String.eqb returns "5Y"))
  /\ match detail_nav_data d with
     | Some points =>
         include_nav_data = true /\ raw <> []
         /\ Forall2 (fun item p =>
                       point_date p = get_date item
                       /\ float_nav item = Returned (point_nav p))
                    (firstn 365 raw) points
     | None => include_nav_data = false \/ raw = []
     end.
Proof.
  unfold MutualFundService.build_detail, and_then.
  destruct (MutualFundService._calculate_returns _) as [returns|];
    [|discriminate].
  destruct (match payload_data data with Some l => l | None => [] end)
    as [|first rest] eqn:Hraw.
  - destruct include_nav_data; intros [= <-]; simpl;
      repeat (split; [reflexivity|]);
      (split; [split; reflexivity|]); (split; [eauto|auto]).
  - destruct (float_nav first) as [v|] eqn:Hv; [|discriminate].
    destruct include_nav_data.
    + destruct (MutualFundService.nav_points (firstn 365 (first :: rest)))
        as [points|] eqn:Hpts; [|discriminate].
      intros [= <-]. cbn [detail_scheme_code detail_scheme_name
        detail_fund_house detail_scheme_type detail_scheme_category
        detail_scheme_nav detail_scheme_nav_date detail_performance
        detail_nav_data].
      repeat (split; [reflexivity|]).
      split; [split; [eauto|reflexivity]|].
      split; [eauto|].
      split; [reflexivity|]. split; [discriminate|].
      now apply nav_points_returned.
    + intros [= <-]. cbn [detail_scheme_code detail_scheme_name
        detail_fund_house detail_scheme_type detail_scheme_category
        detail_scheme_nav detail_scheme_nav_date detail_performance
        detail_nav_data].
      repeat (split; [reflexivity|]).
      split; [split; [eauto|reflexivity]|].
      split; [eauto|auto].
Qed.

(** X8.  [get_fund_details] never raises.  When it returns a detail, the
    repository served a record with status ["SUCCESS"], and every field of
    the detail is fixed by that record: the requested scheme code; the four
    texts of the ["meta"] object, empty when absent; the value and the date
    of the first history entry, [None] for an empty history; the six
    metrics the calculator returns for the history; and the valuation
    points, present only when asked for and when the history is not empty,
    which are the first [min(365, n)] entries of the history in order, each
    with its date and its converted value. *)
Theorem get_fund_details_shape :
  forall E w scheme_code include_nav_data,
    exists result w',
      MutualFundService.get_fund_details scheme_code include_nav_data E w
      = (Returned result, w')
      /\ forall d,
           result = Some d ->
           exists data,
             MFAPIRepository.get_fund scheme_code E w = (Returned (Some data), w')
             /\ payload_status data = Some "SUCCESS"
             /\ (let meta := match payload_meta data with
                             | Some m => m
                             | None => FundMeta None None None None
                             end in
                 let raw := match payload_data data with
                            | Some l => l
                            | None => []
                            end in
                 detail_scheme_code d = scheme_code
                 /\ detail_scheme_name d
                    = text_or (meta_scheme_name meta) EmptyString
                 /\ detail_fund_house d
                    = text_or (meta_fund_house meta) EmptyString
                 /\ detail_scheme_type d
                    = text_or (meta_scheme_type meta) EmptyString
                 /\ detail_scheme_category d
                    = text_or (meta_scheme_category meta) EmptyString
                 /\ match raw with
                    | first :: _ =>
                        (exists v, float_nav first = Returned v
                                   /\ detail_scheme_nav d = Some v)
                        /\ detail_scheme_nav_date d = Some (get_date first)
                    | [] =>
                        detail_scheme_nav d = None
                        /\ detail_scheme_nav_date d = None
                    end
                 /\ (exists returns,
                       MutualFundService._calculate_returns raw
                       = Returned returns
                       /\ detail_performance d
                          = Build_PerformanceMetrics
                              (Dict.get String.eqb returns "1M")
                              (Dict.get String.eqb returns "3M")
                              (Dict.get String.eqb returns "6M")
                              (Dict.get String.eqb returns "1Y")
                              (Dict.get String.eqb returns "3Y")
                              (Dict.get String.eqb returns "5Y"))
                 /\ match detail_nav_data d with
                    | Some points =>
                        include_nav_data = true /\ raw <> []
                        /\ Forall2 (fun item p =>
                                      point_date p = get_date item
                                      /\ float_nav item
                                         = Returned (point_nav p))
                                   (firstn 365 raw) points
                    | None => include_nav_data = false \/ raw = []
                    end).
Proof.
  intros E w scheme_code include_nav_data.
  unfold MutualFundService.get_fund_details, try_except, bind, ret, lift_outcome.
  destruct (MFAPIRepository.get_fund scheme_code E w) as [[[data|]|e] w1].
  - destruct (payload_status data) as [status|] eqn:Hst.
    + destruct (String.eqb_spec status "SUCCESS") as [->|Hne].
      * destruct (MutualFundService.build_detail scheme_code include_nav_data data)
          as [d0|e] eqn:Hb.
        -- do 2 eexists. split; [reflexivity|].
           intros d [= <-]. exists data.
           split; [reflexivity|]. split; [exact Hst|].
           exact (build_detail_returned _ _ _ _ Hb).
        -- do 2 eexists. split; [reflexivity|discriminate].
      * do 2 eexists. split; [reflexivity|discriminate].
    + do 2 eexists. split; [reflexivity|discriminate].
  - do 2 eexists. split; [reflexivity|discriminate].
  - do 2 eexists. split; [reflexivity|discriminate].
Qed.

(** X9.  One value that does not convert hides the fund: when the record
    served has such a value among the first 365 entries of its history,
    [get_fund_details] with the history asked for returns [None], whatever
    the status and the rest of the record. *)
Theorem get_fund_details_malformed_value :
  forall E w w1 scheme_code data raw entry e,
    MFAPIRepository.get_fund scheme_code E w = (Returned (Some data), w1) ->
    payload_data data = Some raw ->
    In entry (firstn 365 raw) ->
    float_nav entry = Raised e ->
    MutualFundService.get_fund_details scheme_code true E w
    = (Returned None, w1).
Proof.
  intros E w w1 scheme_code data raw entry e Hget Hdata Hin Hbad.
  unfold MutualFundService.get_fund_details, try_except, bind, ret, lift_outcome.
  rewrite Hget.
  destruct (payload_status data) as [status|]; [|reflexivity].
  destruct (String.eqb status "SUCCESS"); [|reflexivity].
  assert (Hraise : exists e',
            MutualFundService.build_detail scheme_code true data = Raised e').
  { unfold MutualFundService.build_detail, and_then. rewrite Hdata.
    destruct (MutualFundService._calculate_returns raw); [|eauto].
    destruct raw as [|first rest]; [destruct Hin|].
    destruct (float_nav first); [|eauto].
    destruct (nav_points_malformed _ _ _ Hin Hbad) as [e' ->]. eauto. }
  destruct Hraise as [e' ->]. reflexivity.
Qed.

Lemma get_fund_details_malformed_value_witness :
  MutualFundService.get_fund_details (Some 119010) true damaged_env initial_world
  = (Returned None,
     snd (MFAPIRepository.get_fund (Some 119010) damaged_env initial_world)).
Proof.
  apply (get_fund_details_malformed_value damaged_env initial_world _
           (Some 119010) damaged_payload
           (sample_history ++ [NavEntry (Some (DateText "21-04-2021")) NavMalformed])%list
           (NavEntry (Some (DateText "21-04-2021")) NavMalformed)
           (Exn ValueError "could not convert string to float")).
  - reflexivity.
  - reflexivity.
  - simpl. auto.
  - reflexivity.
Defined.

(** ** More on the result cache *)

(** X10.  A lookup that finds an entry for its key with [now < expiry]
    returns the stored result without sending a request; the cache is left
    as it is and only the hit counter moves. *)
Theorem cached_lookup_hit :
  forall E w q result expiry,
    enable_cache (settings E) = true ->
    Dict.get String.eqb (cached_entries w q) (lookup_key E q)
    = Some (result, expiry) ->
    clock E (clock_reads w) < expiry ->
    exists w',
      call_lookup q E w = (Returned result, w')
      /\ http_calls w' = http_calls w
      /\ cached_entries w' q = cached_entries w q
      /\ cache_info w' q = (fst (cache_info w q) + 1, snd (cache_info w q)).
Proof.
  intros E w q result expiry Hon Hget Hfresh.
  destruct q as [|scheme_code]; cbn [cached_entries] in Hget;
    rewrite dict_get_map in Hget.
  - destruct (Dict.get String.eqb (cache (all_funds_cache w))
                (lookup_key E GetAllFunds)) as [[v e]|] eqn:Hg; [|discriminate].
    injection Hget as <- <-.
    eexists. unfold call_lookup, bind, ret.
    rewrite (get_all_funds_hit E w v e Hon Hg Hfresh).
    repeat split.
  - destruct (Dict.get String.eqb (cache (fund_cache w))
                (lookup_key E (GetFund scheme_code))) as [[v e]|] eqn:Hg;
      [|discriminate].
    injection Hget as <- <-.
    eexists. unfold call_lookup, bind, ret.
    rewrite (get_fund_hit E w scheme_code v e Hon Hg Hfresh).
    repeat split.
Qed.

Lemma lookup_stale {V : Type} (c : list (string * (V * Z))) key now :
  (forall r expiry, Dict.get String.eqb c key = Some (r, expiry) -> expiry <= now) ->
  AsyncCache.lookup c key now = None.
Proof.
  intros H. unfold AsyncCache.lookup.
  destruct (Dict.get String.eqb c key) as [[r expiry]|]; [|reflexivity].
  specialize (H r expiry eq_refl).
  destruct (Z.ltb_spec now expiry); [lia|reflexivity].
Qed.

(** X11.  A lookup whose key has no entry, or an entry with
    [expiry <= now], sends its request again, returns what comes back (the
    failure result when the request fails) and stores it under the key with
    expiry [now + ttl]; the miss counter moves by one. *)
Theorem cached_lookup_refresh :
  forall E w q,
    enable_cache (settings E) = true ->
    1 <= cache_max_size (settings E) ->
    (forall r expiry,
       Dict.get String.eqb (cached_entries w q) (lookup_key E q)
       = Some (r, expiry) ->
       expiry <= clock E (clock_reads w)) ->
    exists w',
      call_lookup q E w
      = (Returned (fetched E (List.length (http_calls w)) q), w')
      /\ http_calls w' = (http_calls w ++ [endpoint_of q])%list
      /\ Dict.get String.eqb (cached_entries w' q) (lookup_key E q)
         = Some (fetched E (List.length (http_calls w)) q,
                 clock E (clock_reads w) + cache_ttl (settings E))
      /\ cache_info w' q = (fst (cache_info w q), snd (cache_info w q) + 1).
Proof.
  intros E w q Hon Hmax Hstale.
  destruct q as [|scheme_code].
  - assert (Hmiss : AsyncCache.lookup (cache (all_funds_cache w))
                      (lookup_key E GetAllFunds) (clock E (clock_reads w)) = None).
    { apply lookup_stale. intros r expiry Hg.
      apply (Hstale (Listing r) expiry). cbn [cached_entries]. rewrite dict_get_map.
      now rewrite Hg. }
    set (result := match http_listing E (List.length (http_calls w)) with
                   | Returned l => l
                   | Raised _ => []
                   end).
    destruct (store_returns (cache_max_size (settings E))
                (cache (all_funds_cache w)) (lookup_key E GetAllFunds)
                (result, clock E (clock_reads w) + cache_ttl (settings E)) Hmax)
      as [c' Hstore].
    pose proof (store_assigns _ _ _ _ _ Hstore) as Hassign.
    eexists. unfold call_lookup, bind, ret. run_coroutine.
    rewrite Hon. simpl. unfold lookup_key in Hmiss, Hstore, Hassign.
    simpl in Hmiss, Hstore, Hassign.
    rewrite Hmiss. simpl. subst result.
    destruct (http_listing E (List.length (http_calls w))) as [l|e]; simpl;
      rewrite Hstore; simpl;
      (split; [reflexivity|]); (split; [reflexivity|]);
      (split; [rewrite dict_get_map; simpl; rewrite Hassign; reflexivity
              |reflexivity]).
  - assert (Hmiss : AsyncCache.lookup (cache (fund_cache w))
                      (lookup_key E (GetFund scheme_code))
                      (clock E (clock_reads w)) = None).
    { apply lookup_stale. intros r expiry Hg.
      apply (Hstale (FundRecord r) expiry). cbn [cached_entries].
      rewrite dict_get_map.
      now rewrite Hg. }
    set (result := match http_fund E (List.length (http_calls w))
                           (endpoint_of (GetFund scheme_code)) with
                   | Returned data => Some data
                   | Raised _ => None
                   end).
    destruct (store_returns (cache_max_size (settings E))
                (cache (fund_cache w)) (lookup_key E (GetFund scheme_code))
                (result, clock E (clock_reads w) + cache_ttl (settings E)) Hmax)
      as [c' Hstore].
    pose proof (store_assigns _ _ _ _ _ Hstore) as Hassign.
    eexists. unfold call_lookup, bind, ret. run_coroutine.
    rewrite Hon. simpl. unfold lookup_key in Hmiss, Hstore, Hassign.
    subst result. simpl in Hmiss, Hstore, Hassign.
    rewrite Hmiss. simpl.
    destruct (http_fund E (List.length (http_calls w))
                (String "/" (MFAPIRepository.str_code scheme_code))) as [data|e];
      simpl; rewrite Hstore; simpl;
      (split; [reflexivity|]); (split; [reflexivity|]);
      (split; [rewrite dict_get_map; simpl; rewrite Hassign; reflexivity
              |reflexivity]).
Qed.

Lemma cached_lookup_hit_witness :
  exists w',
    call_lookup GetAllFunds sample_env
      (snd (call_lookup GetAllFunds sample_env initial_world))
    = (Returned (Listing sample_listing), w')
    /\ http_calls w'
       = http_calls (snd (call_lookup GetAllFunds sample_env initial_world))
    /\ cached_entries w' GetAllFunds
       = cached_entries (snd (call_lookup GetAllFunds sample_env initial_world))
           GetAllFunds
    /\ cache_info w' GetAllFunds
       = (fst (cache_info (snd (call_lookup GetAllFunds sample_env initial_world))
                 GetAllFunds) + 1,
          snd (cache_info (snd (call_lookup GetAllFunds sample_env initial_world))
                 GetAllFunds)).
Proof.
  apply (cached_lookup_hit sample_env
           (snd (call_lookup GetAllFunds sample_env initial_world))
           GetAllFunds (Listing sample_listing) 4600).
  - reflexivity.
  - vm_compute. reflexivity.
  - vm_compute. reflexivity.
Defined.

Lemma cached_lookup_refresh_witness :
  exists w',
    call_lookup (GetFund (Some 119010)) outage_env initial_world
    = (Returned (fetched outage_env 0 (GetFund (Some 119010))), w')
    /\ http_calls w' = ([] ++ [endpoint_of (GetFund (Some 119010))])%list
    /\ Dict.get String.eqb (cached_entries w' (GetFund (Some 119010)))
         (lookup_key outage_env (GetFund (Some 119010)))
       = Some (fetched outage_env 0 (GetFund (Some 119010)), 1000 + 3600)
    /\ cache_info w' (GetFund (Some 119010)) = (0, 0 + 1).
Proof.
  apply (cached_lookup_refresh outage_env initial_world (GetFund (Some 119010))).
  - reflexivity.
  - vm_compute. discriminate.
  - simpl. intros r expiry H. discriminate H.
Defined.

(** X12.  With the cache disabled every lookup goes to the API and returns
    what comes back; the clock is not read and neither closure changes. *)
Theorem cached_lookup_disabled :
  forall E w q,
    enable_cache (settings E) = false ->
    exists w',
      call_lookup q E w
      = (Returned (fetched E (List.length (http_calls w)) q), w')
      /\ http_calls w' = (http_calls w ++ [endpoint_of q])%list
      /\ clock_reads w' = clock_reads w
      /\ all_funds_cache w' = all_funds_cache w
      /\ fund_cache w' = fund_cache w.
Proof.
  intros E w q Hoff. destruct q as [|scheme_code];
    eexists; unfold call_lookup, bind, ret; run_coroutine; rewrite Hoff; simpl.
  - destruct (http_listing E (List.length (http_calls w))); simpl;
      repeat split.
  - destruct (http_fund E (List.length (http_calls w))
                (String "/" (MFAPIRepository.str_code scheme_code))); simpl;
      repeat split.
Qed.

Lemma cached_lookup_disabled_witness :
  exists w',
    call_lookup GetAllFunds disabled_env initial_world
    = (Returned (fetched disabled_env 0 GetAllFunds), w')
    /\ http_calls w' = ([] ++ [endpoint_of GetAllFunds])%list
    /\ clock_reads w' = O
    /\ all_funds_cache w' = empty_cache
    /\ fund_cache w' = empty_cache.
Proof.
  apply (cached_lookup_disabled disabled_env initial_world GetAllFunds).
  reflexivity.
Defined.

(** X13.  When the decorated coroutine raises on a miss, the wrapper raises
    the same exception and writes nothing after it: the world is the one the
    coroutine left, with the miss counted and no entry stored. *)
Theorem wrapper_propagates_raise :
  forall (V : Type) (get_closure : world -> cache_state V)
         (set_closure : cache_state V -> world -> world)
         ttl_seconds max_size func_name (func : M V) args kwargs E w e w_raised,
    enable_cache (settings E) = true ->
    let w_read := snd (time_time E w) in
    let cs := get_closure w_read in
    AsyncCache.lookup (cache cs) (AsyncCache.make_key func_name args kwargs)
      (clock E (clock_reads w)) = None ->
    func E (set_closure (CacheState (cache cs) (hits cs) (misses cs + 1)) w_read)
    = (Raised e, w_raised) ->
    AsyncCache.wrapper get_closure set_closure ttl_seconds max_size func_name
      func args kwargs E w
    = (Raised e, w_raised).
Proof.
  intros V get_closure set_closure ttl_seconds max_size func_name func args
    kwargs E w e w_raised Hon w_read cs Hmiss Hfunc.
  unfold AsyncCache.wrapper, bind, ask, time_time, AsyncCache.read_closure,
    AsyncCache.write_closure, ret.
  rewrite Hon. cbn [negb]. cbv beta iota.
  subst w_read cs. unfold time_time in Hmiss, Hfunc. cbn [snd] in Hmiss, Hfunc.
  rewrite Hmiss. rewrite Hfunc. reflexivity.
Qed.

Lemma wrapper_propagates_raise_witness :
  AsyncCache.wrapper fund_cache MFAPIRepository.set_fund_cache None None
    "get_fund" (raise (Exn HTTPError "503 Service Unavailable"))
    ["119010"] [] sample_env initial_world
  = (Raised (Exn HTTPError "503 Service Unavailable"),
     World 1 [] [] empty_cache (CacheState [] 0 1)).
Proof.
  apply (wrapper_propagates_raise (option fund_payload) fund_cache
           MFAPIRepository.set_fund_cache None None "get_fund"
           (raise (Exn HTTPError "503 Service Unavailable")) ["119010"] []
           sample_env initial_world).
  - reflexivity.
  - reflexivity.
  - reflexivity.
Defined.

Lemma join_cons_cons sep a b rest :
  Str.join sep (a :: b :: rest)
  = (a ++ sep ++ Str.join sep (b :: rest))%string.
Proof.
  reflexivity.
Qed.

(** X14.  Cache keys join the arguments with [":"] and so do not tell where
    one argument ends: two consecutive arguments [a], [b] and the single
    argument [a:b] give the same key. *)
Theorem make_key_joins_arguments :
  forall func_name a b rest kwargs,
    AsyncCache.make_key func_name (a :: b :: rest) kwargs
    = AsyncCache.make_key func_name ((a ++ ":" ++ b) :: rest) kwargs.
Proof.
  intros func_name a b rest kwargs. unfold AsyncCache.make_key.
  do 2 f_equal.
  set (kw := map (fun kv : string * string => (fst kv ++ ":" ++ snd kv)%string)
                 (AsyncCache.sorted kwargs)).
  change ((a :: b :: rest) ++ kw)%list with (a :: b :: (rest ++ kw))%list.
  change (((a ++ ":" ++ b)%string :: rest) ++ kw)%list
    with ((a ++ ":" ++ b)%string :: (rest ++ kw))%list.
  rewrite join_cons_cons.
  destruct (rest ++ kw)%list as [|c tail].
  - reflexivity.
  - rewrite (join_cons_cons ":" b c tail), (join_cons_cons ":" _ c tail).
    now rewrite !append_assoc_str.
Qed.

(** X15.  An insert touches at most two keys: every key other than the one
    inserted and, when the cache is full, the one [oldest_key] names keeps
    its entry. *)
Theorem store_keeps_other_entries :
  forall (V : Type) max_items (c c' : list (string * (V * Z))) cache_key item k,
    AsyncCache.store max_items c cache_key item = Returned c' ->
    k <> cache_key ->
    (max_items <= Z.of_nat (List.length c) ->
     AsyncCache.oldest_key c <> Returned k) ->
    Dict.get String.eqb c' k = Dict.get String.eqb c k.
Proof.
  intros V max_items c c' cache_key item k Hstore Hkey Hold.
  unfold AsyncCache.store in Hstore.
  destruct (Z.leb_spec max_items (Z.of_nat (List.length c))) as [Hfull|_].
  - destruct (AsyncCache.oldest_key c) as [oldest|] eqn:Ho; [|discriminate].
    injection Hstore as <-.
    rewrite dict_get_set_other by congruence.
    apply dict_get_del_other. intros ->. now apply Hold.
  - injection Hstore as <-. apply dict_get_set_other. congruence.
Qed.

Lemma store_keeps_other_entries_witness :
  Dict.get String.eqb [("a", (1, 10)); ("c", (3, 20))] "a"
  = Dict.get String.eqb [("a", (1, 10)); ("b", (2, 5))] "a".
Proof.
  apply (store_keeps_other_entries Z 2 [("a", (1, 10)); ("b", (2, 5))]
           [("a", (1, 10)); ("c", (3, 20))] "c" (3, 20) "a").
  - reflexivity.
  - discriminate.
  - intros _. discriminate.
Defined.

(** X16.  With the cache enabled and [cache_max_size] at zero or below,
    nothing can be stored: on an empty cache every lookup sends its request
    and then raises out of the wrapper, so [search_funds] returns no fund
    and [get_fund_details] returns [None] whatever the API answers, and the
    caches stay empty. *)
Theorem nonpositive_cache_size_blocks_service :
  forall E w query limit scheme_code include_nav_data,
    enable_cache (settings E) = true ->
    cache_max_size (settings E) <= 0 ->
    cache (all_funds_cache w) = [] ->
    cache (fund_cache w) = [] ->
    (exists w',
       MutualFundService.search_funds query limit E w = (Returned [], w')
       /\ http_calls w' = (http_calls w ++ [EmptyString])%list
       /\ cache (all_funds_cache w') = [] /\ cache (fund_cache w') = [])
    /\ (exists w',
          MutualFundService.get_fund_details scheme_code include_nav_data E w
          = (Returned None, w')
          /\ http_calls w'
             = (http_calls w ++ [endpoint_of (GetFund scheme_code)])%list
          /\ cache (all_funds_cache w') = [] /\ cache (fund_cache w') = []).
Proof.
  intros E w query limit scheme_code include_nav_data Hon Hmax Ha Hf.
  assert (Hfull : forall V (item : V * Z) key,
            AsyncCache.store (cache_max_size (settings E)) [] key item
            = Raised (Exn ValueError "min() arg is an empty sequence")).
  { intros V item key. unfold AsyncCache.store. simpl.
    destruct (Z.leb_spec (cache_max_size (settings E)) 0); [reflexivity|lia]. }
  split.
  - eexists.
    unfold MutualFundService.search_funds, try_except, bind, ret.
    run_coroutine. rewrite Hon. simpl. rewrite Ha. simpl.
    destruct (http_listing E (List.length (http_calls w))); simpl;
      rewrite Hfull; simpl; (split; [reflexivity|]); simpl;
      rewrite ?Ha, ?Hf; repeat split.
  - eexists.
    unfold MutualFundService.get_fund_details, try_except, bind, ret.
    run_coroutine. rewrite Hon. simpl. rewrite Hf. simpl.
    destruct (http_fund E (List.length (http_calls w))
                (String "/" (MFAPIRepository.str_code scheme_code))); simpl;
      rewrite Hfull; simpl; (split; [reflexivity|]); simpl;
      rewrite ?Ha, ?Hf; repeat split.
Qed.

Lemma nonpositive_cache_size_blocks_service_witness :
  (exists w',
     MutualFundService.search_funds "hdfc" 5 zero_size_env initial_world
     = (Returned [], w')
     /\ http_calls w' = ([] ++ [EmptyString])%list
     /\ cache (all_funds_cache w') = [] /\ cache (fund_cache w') = [])
  /\ (exists w',
        MutualFundService.get_fund_details (Some 119010) true zero_size_env
          initial_world
        = (Returned None, w')
        /\ http_calls w'
           = ([] ++ [endpoint_of (GetFund (Some 119010))])%list
        /\ cache (all_funds_cache w') = [] /\ cache (fund_cache w') = []).
Proof.
  apply (nonpositive_cache_size_blocks_service zero_size_env initial_world
           "hdfc" 5 (Some 119010) true).
  - reflexivity.
  - simpl. lia.
  - reflexivity.
  - reflexivity.
Defined.

(** ** More on the return calculator *)

(** What the body of the inner loop leaves in [min_diff]. *)
Lemma scan_entry_min_diff target acc e acc' :
  MutualFundService.scan_entry target acc e = Returned acc' ->
  fst acc' = match MutualFundService.strptime_date e with
             | Returned d => Z.min (fst acc) (Z.abs (d - target))
             | Raised _ => fst acc
             end.
Proof.
  unfold MutualFundService.scan_entry. destruct acc as [md cn].
  destruct (MutualFundService.strptime_date e) as [d|x] eqn:Hd.
  - simpl. destruct (Z.ltb_spec (Z.abs (d - target)) md).
    + destruct (float_nav e) as [v|y].
      * intros [= <-]. simpl. lia.
      * unfold MutualFundService.except_continue.
        destruct (exn_class_of y); intros [= <-]; simpl; lia.
    + intros [= <-]. simpl. lia.
  - rewrite (strptime_date_caught _ _ _ Hd). now intros [= <-].
Qed.

(** The body of the inner loop raises on one kind of entry only. *)
Lemma scan_entry_raises target acc e :
  (exists x, MutualFundService.scan_entry target acc e = Raised x)
  <-> exists d,
        entry_nav e = NavTooLarge
        /\ MutualFundService.strptime_date e = Returned d
        /\ Z.abs (d - target) < fst acc.
Proof.
  unfold MutualFundService.scan_entry. destruct acc as [md cn].
  destruct (MutualFundService.strptime_date e) as [d|x] eqn:Hd.
  - simpl. destruct (Z.ltb_spec (Z.abs (d - target)) md) as [Hlt|Hge].
    + unfold float_nav. destruct (entry_nav e); simpl; split;
        try (intros [y Hy]; discriminate Hy);
        try (intros (d' & Hbad & _); discriminate Hbad).
      * intros _. exists d. auto.
      * intros _. eexists. reflexivity.
    + split; [intros [y Hy]; discriminate Hy|].
      intros (d' & _ & [= <-] & Hlt). lia.
  - rewrite (strptime_date_caught _ _ _ Hd). split.
    + intros [y Hy]; discriminate Hy.
    + intros (d' & _ & Hd' & _). discriminate Hd'.
Qed.

(** The inner loop raises exactly when it comes to convert a value that is
    too large. *)
Lemma scan_raises_iff target :
  forall h acc,
    (exists x, MutualFundService.scan target h acc = Raised x)
    <-> converts_too_large target (fst acc) h.
Proof.
  unfold converts_too_large.
  induction h as [|e h IH]; intros acc; simpl.
  - split; [intros [x Hx]; discriminate Hx|].
    intros (pre & e0 & post & d & Hh & _). destruct pre; discriminate Hh.
  - destruct (MutualFundService.scan_entry target acc e) as [acc'|x] eqn:He.
    + pose proof (scan_entry_min_diff _ _ _ _ He) as Hmin.
      rewrite IH. split.
      * intros (pre & e0 & post & d & -> & Hbig & Hd & Hnear & Hpre).
        exists (e :: pre), e0, post, d. split; [reflexivity|].
        split; [exact Hbig|]. split; [exact Hd|].
        destruct (MutualFundService.strptime_date e) as [de|] eqn:Hde.
        -- split; [lia|]. intros e' d' [<-|Hin] Hd'.
           ++ rewrite Hde in Hd'. injection Hd' as <-. lia.
           ++ eauto.
        -- split; [lia|]. intros e' d' [<-|Hin] Hd'.
           ++ rewrite Hde in Hd'. discriminate Hd'.
           ++ eauto.
      * intros (pre & e0 & post & d & Hh & Hbig & Hd & Hnear & Hpre).
        destruct pre as [|e1 pre]; simpl in Hh; injection Hh as <- ->.
        -- exfalso.
           assert (Hr : exists x,
                     MutualFundService.scan_entry target acc e = Raised x).
           { apply scan_entry_raises. eauto. }
           destruct Hr as [x Hx]. rewrite He in Hx. discriminate Hx.
        -- exists pre, e0, post, d. split; [reflexivity|].
           split; [exact Hbig|]. split; [exact Hd|]. split.
           ++ rewrite Hmin.
              destruct (MutualFundService.strptime_date e) as [d1|] eqn:Hd1;
                [|exact Hnear].
              specialize (Hpre e d1 (or_introl eq_refl) Hd1). lia.
           ++ intros e' d' Hin Hd'. apply (Hpre e' d'); [now right|exact Hd'].
    + split; [|eauto]. intros _.
      assert (Hr : exists x,
                MutualFundService.scan_entry target acc e = Raised x) by eauto.
      apply scan_entry_raises in Hr as (d & Hbig & Hd & Hnear).
      exists [], e, h, d. repeat split; auto. intros e' d' [].
Qed.

(** The outer loop raises exactly when a target is no date or a scan
    raises. *)
Lemma returns_loop_raises_iff latest_nav latest_date nav_data :
  forall ps acc,
    (exists x,
       MutualFundService.returns_loop latest_nav latest_date nav_data ps acc
       = Raised x)
    <-> exists k d,
          In (k, d) ps
          /\ (latest_date - d < Dates.min_ordinal
              \/ converts_too_large (latest_date - d) 365 nav_data).
Proof.
  induction ps as [|[k0 d0] ps IH]; intros acc; simpl.
  - split; [intros [x Hx]; discriminate Hx|intros (k & d & [] & _)].
  - destruct (Z.ltb_spec (latest_date - d0) Dates.min_ordinal) as [Hlt|Hge].
    + split; [|eauto]. intros _. exists k0, d0. auto.
    + pose proof (scan_raises_iff (latest_date - d0) nav_data (365, None))
        as Hscan.
      unfold MutualFundService.window_return, MutualFundService.find_closest.
      simpl fst in Hscan.
      destruct (MutualFundService.scan (latest_date - d0) nav_data (365, None))
        as [found|x] eqn:Hfound; simpl.
      * assert (Hno : ~ converts_too_large (latest_date - d0) 365 nav_data).
        { intros Hc. apply Hscan in Hc as [y Hy]. discriminate Hy. }
        assert (Hrest : forall acc',
                  (exists x,
                     MutualFundService.returns_loop latest_nav latest_date
                       nav_data ps acc' = Raised x)
                  <-> exists k d,
                        (((k0, d0) = (k, d)) \/ In (k, d) ps)
                        /\ (latest_date - d < Dates.min_ordinal
                            \/ converts_too_large (latest_date - d) 365
                                 nav_data)).
        { intros acc'. rewrite IH. split.
          - intros (k & d & Hin & Hc). exists k, d. auto.
          - intros (k & d & [Heq|Hin] & Hc).
            + injection Heq as <- <-. destruct Hc as [Hc|Hc]; [lia|tauto].
            + eauto. }
        destruct (MutualFundService.period_return latest_nav (snd found));
          apply Hrest.
      * split; [|eauto]. intros _. exists k0, d0. split; [now left|].
        right. apply Hscan. eauto.
Qed.

(** X17.  On a history of fewer than two entries [_calculate_returns]
    returns.  On a longer one it raises in four cases only: the first
    entry's value does not convert; the first entry's date is not text; the
    first entry's date parses to one of the first 1825 days of the calendar,
    from which the five-year target cannot be represented; or the scan of
    some window comes to convert a value that is an integer beyond the
    range of a float.  In every other case it returns a metrics map. *)
Theorem calculate_returns_raises_iff :
  forall h,
    (exists e, MutualFundService._calculate_returns h = Raised e)
    <-> match h with
        | first :: _ :: _ =>
            (exists e, float_nav first = Raised e)
            \/ get_date first = DateNotText
            \/ exists d,
                 MutualFundService.strptime_date first = Returned d
                 /\ (d <= 1825
                     \/ exists k delta,
                          In (k, delta) MutualFundService.periods
                          /\ converts_too_large (d - delta) 365 h)
        | _ => False
        end.
Proof.
  intros h. destruct h as [|first [|second rest]].
  - simpl. split; [intros [e H]; discriminate H|tauto].
  - simpl. split; [intros [e H]; discriminate H|tauto].
  - unfold MutualFundService._calculate_returns.
    destruct (float_nav first) as [v|x] eqn:Hv; [|split; eauto].
    destruct (MutualFundService.strptime_date first) as [d|y] eqn:Hd.
    + rewrite returns_loop_raises_iff. split.
      * intros (k & delta & Hin & Hc). right. right. exists d.
        split; [reflexivity|]. destruct Hc as [Hc|Hc].
        -- left. apply periods_bound in Hin.
           unfold Dates.min_ordinal in Hc. lia.
        -- right. eauto.
      * intros [[e He]|[Hnt|(d' & Hd' & Hc)]].
        -- discriminate He.
        -- unfold MutualFundService.strptime_date in Hd. rewrite Hnt in Hd.
           discriminate Hd.
        -- injection Hd' as <-. destruct Hc as [Hc|(k & delta & Hin & Hc)].
           ++ exists "5Y", 1825. split; [simpl; tauto|].
              left. unfold Dates.min_ordinal. lia.
           ++ exists k, delta. auto.
    + unfold MutualFundService.strptime_date in Hd.
      destruct (get_date first) as [s|] eqn:Hg.
      * destruct (Dates.strptime s); [discriminate Hd|].
        injection Hd as <-. simpl. split; [intros [e H]; discriminate H|].
        intros [[e He]|[Hnt|(d' & Hd' & _)]]; discriminate.
      * injection Hd as <-. simpl. split; [auto|eauto].
Qed.

(** A float above zero is not zero. *)
Lemma positive_truthy c :
  PrimFloat.ltb 0%float c = true -> Flt.truthy c = true.
Proof.
  unfold Flt.truthy. rewrite ltb_spec, eqb_spec.
  change (Prim2SF 0%float) with (S754_zero false).
  destruct (Prim2SF c) as [s|s| |s m e]; simpl; try discriminate;
    destruct s; simpl; intros H; try discriminate; reflexivity.
Qed.

Lemma nearest_acc_some target pts :
  forall best b, best = Some b -> exists p, nearest_acc target best pts = Some p.
Proof.
  induction pts as [|x pts IH]; intros best b ->; simpl; [eauto|].
  destruct (distance target x <? distance target b); eapply IH; reflexivity.
Qed.

Lemma nearest_in target pts p :
  nearest target pts = Some p -> In p pts.
Proof.
  intros H. destruct (nearest_first _ _ _ H) as (l1 & l2 & -> & _).
  apply in_or_app. right. now left.
Qed.

Lemma nearest_none target pts : nearest target pts = None -> pts = [].
Proof.
  destruct pts as [|x pts]; [reflexivity|]. unfold nearest. simpl.
  destruct (nearest_acc_some target pts (Some x) x eq_refl) as [p ->].
  discriminate.
Qed.

(** X18.  For a history of at least two valid points with positive values,
    latest first, a window is reported exactly when some point lies less
    than 365 days from the window's target date. *)
Theorem window_reported_iff_point_within_year :
  forall h latest_date latest_nav pts m key delta,
    as_points h = Some ((latest_date, latest_nav) :: pts) ->
    pts <> [] ->
    (forall p, In p ((latest_date, latest_nav) :: pts) ->
               PrimFloat.ltb 0%float (snd p) = true) ->
    MutualFundService._calculate_returns h = Returned m ->
    In (key, delta) MutualFundService.periods ->
    (Dict.get String.eqb m key <> None
     <-> exists p, In p ((latest_date, latest_nav) :: pts)
                   /\ distance (latest_date - delta) p < 365).
Proof.
  intros h latest_date latest_nav pts m key delta Hpts Hne Hpos Hcalc Hin.
  destruct h as [|first rest]; [discriminate|].
  assert (Hall := Hpts). simpl in Hpts. unfold point_of in Hpts.
  destruct (MutualFundService.strptime_date first) as [d|] eqn:Hd;
    [|discriminate].
  destruct (float_nav first) as [v|] eqn:Hv; [|discriminate].
  destruct (as_points rest) as [ps|] eqn:Hrest; [|discriminate].
  injection Hpts as -> -> ->.
  destruct rest as [|second rest]; [simpl in Hrest; congruence|].
  unfold MutualFundService._calculate_returns in Hcalc.
  rewrite Hv, Hd in Hcalc.
  rewrite (returns_loop_lookup _ _ _ _ _ _ periods_nodup Hcalc key).
  rewrite (periods_get _ _ Hin). simpl Dict.get.
  rewrite (window_return_points _ _ _ _ delta Hall).
  destruct (nearest (latest_date - delta)
              (within_year (latest_date - delta)
                 ((latest_date, latest_nav) :: pts))) as [b|] eqn:Hn.
  - apply nearest_in in Hn. apply filter_In in Hn as [Hb Hnear].
    apply Z.ltb_lt in Hnear. simpl option_map.
    unfold MutualFundService.period_return.
    rewrite (Hpos b Hb), (positive_truthy _ (Hpos b Hb)). simpl.
    split; [intros _; eauto|discriminate].
  - apply nearest_none in Hn. simpl. split; [congruence|].
    intros (p & Hp & Hnear). exfalso.
    assert (Hf : In p (within_year (latest_date - delta)
                         ((latest_date, latest_nav) :: pts))).
    { apply filter_In. split; [exact Hp|now apply Z.ltb_lt]. }
    rewrite Hn in Hf. destruct Hf.
Qed.

Lemma window_reported_iff_point_within_year_witness :
  Dict.get String.eqb
    [("1M", 0%float); ("3M", 0%float); ("6M", 0%float); ("1Y", 5.64%float)] "3Y"
  <> None
  <-> exists p, In p [(738631, 845.123%float); (738266, 800%float)]
                /\ distance (738631 - 1095) p < 365.
Proof.
  apply (window_reported_iff_point_within_year sample_history 738631
           845.123 [(738266, 800%float)] _ "3Y" 1095).
  - reflexivity.
  - discriminate.
  - simpl. intros p [<-|[<-|[]]]; reflexivity.
  - vm_compute. reflexivity.
  - simpl. tauto.
Defined.

(** X19.  For such a history the one-month, three-month and six-month
    windows are always reported, however short the history: the latest
    point itself lies within a year of their targets. *)
Theorem short_windows_always_reported :
  forall h latest_date latest_nav pts m key delta,
    as_points h = Some ((latest_date, latest_nav) :: pts) ->
    pts <> [] ->
    (forall p, In p ((latest_date, latest_nav) :: pts) ->
               PrimFloat.ltb 0%float (snd p) = true) ->
    MutualFundService._calculate_returns h = Returned m ->
    In (key, delta) [("1M", 30); ("3M", 91); ("6M", 182)] ->
    exists r, Dict.get String.eqb m key = Some r.
Proof.
  intros h latest_date latest_nav pts m key delta Hpts Hne Hpos Hcalc Hin.
  assert (Hper : In (key, delta) MutualFundService.periods).
  { simpl in Hin |- *. tauto. }
  assert (Hsmall : 0 <= delta < 365).
  { simpl in Hin. destruct Hin as [H|[H|[H|[]]]]; injection H as <- <-; lia. }
  destruct h as [|first rest]; [discriminate|].
  assert (Hall := Hpts). simpl in Hpts. unfold point_of in Hpts.
  destruct (MutualFundService.strptime_date first) as [d|] eqn:Hd;
    [|discriminate].
  destruct (float_nav first) as [v|] eqn:Hv; [|discriminate].
  destruct (as_points rest) as [ps|] eqn:Hrest; [|discriminate].
  injection Hpts as -> -> ->.
  unfold MutualFundService._calculate_returns in Hcalc.
  destruct rest as [|second rest]; [simpl in Hrest; congruence|].
  rewrite Hv, Hd in Hcalc.
  rewrite (returns_loop_lookup _ _ _ _ _ _ periods_nodup Hcalc key).
  rewrite (periods_get _ _ Hper). simpl Dict.get.
  rewrite (window_return_points _ _ _ _ delta Hall).
  destruct (nearest (latest_date - delta)
              (within_year (latest_date - delta)
                 ((latest_date, latest_nav) :: pts))) as [b|] eqn:Hn.
  - apply nearest_in in Hn. apply filter_In in Hn as [Hb _].
    simpl option_map. unfold MutualFundService.period_return.
    rewrite (Hpos b Hb), (positive_truthy _ (Hpos b Hb)). simpl. eauto.
  - apply nearest_none in Hn. exfalso.
    assert (Hf : In (latest_date, latest_nav)
                   (within_year (latest_date - delta)
                      ((latest_date, latest_nav) :: pts))).
    { apply filter_In. split; [now left|].
      apply Z.ltb_lt. unfold distance. simpl. lia. }
    rewrite Hn in Hf. destruct Hf.
Qed.

Lemma short_windows_always_reported_witness :
  exists r,
    Dict.get String.eqb
      [("1M", 0%float); ("3M", 0%float); ("6M", 0%float); ("1Y", 5.64%float)]
      "6M" = Some r.
Proof.
  apply (short_windows_always_reported sample_history 738631 845.123
           [(738266, 800%float)] _ "6M" 182).
  - reflexivity.
  - discriminate.
  - simpl. intros p [<-|[<-|[]]]; reflexivity.
  - vm_compute. reflexivity.
  - simpl. tauto.
Defined.

(** ** The search stage's de-duplication *)

Lemma code_eqb_eq a b : Nodes.code_eqb a b = true <-> a = b.
Proof.
  destruct a as [x|], b as [y|]; simpl; try (split; congruence).
  rewrite Z.eqb_eq. split; congruence.
Qed.

Section DictByCode.
Context {V : Type}.
Implicit Types d : list (option Z * V).

Lemma code_set_in d k v k' v' :
  In (k', v') (Dict.set Nodes.code_eqb d k v) ->
  (k' = k /\ v' = v) \/ In (k', v') d.
Proof.
  induction d as [|[k0 v0] d IH]; simpl.
  - intros [[= <- <-]|[]]. now left.
  - destruct (Nodes.code_eqb k0 k) eqn:Hk.
    + apply code_eqb_eq in Hk as ->.
      intros [[= <- <-]|Hin]; [now left|right; now right].
    + intros [Heq|Hin]; [right; now left|].
      destruct (IH Hin) as [H|H]; [now left|right; now right].
Qed.

Lemma code_set_member d k v : In (k, v) (Dict.set Nodes.code_eqb d k v).
Proof.
  induction d as [|[k0 v0] d IH]; simpl; [now left|].
  destruct (Nodes.code_eqb k0 k) eqn:Hk.
  - apply code_eqb_eq in Hk as ->. now left.
  - now right.
Qed.

Lemma code_set_other d k v k' v' :
  In (k', v') d -> k' <> k -> In (k', v') (Dict.set Nodes.code_eqb d k v).
Proof.
  intros Hin Hne. induction d as [|[k0 v0] d IH]; simpl; [destruct Hin|].
  destruct (Nodes.code_eqb k0 k) eqn:Hk.
  - apply code_eqb_eq in Hk as ->.
    destruct Hin as [[= -> ->]|Hin]; [contradiction|now right].
  - destruct Hin as [Heq|Hin]; [now left|right; auto].
Qed.

Lemma code_set_nodup d k v :
  NoDup (map fst d) -> NoDup (map fst (Dict.set Nodes.code_eqb d k v)).
Proof.
  induction d as [|[k0 v0] d IH]; simpl; intros Hnd.
  - repeat constructor. intros [].
  - inversion Hnd as [|? ? Hnotin Hnd']; subst.
    destruct (Nodes.code_eqb k0 k) eqn:Hk; simpl.
    + constructor; assumption.
    + constructor; [|auto]. intros Hin.
      apply in_map_iff in Hin as ([k1 v1] & Hfst & Hin). simpl in Hfst. subst k1.
      apply code_set_in in Hin as [[-> _]|Hin].
      * assert (Nodes.code_eqb k k = true) by now apply code_eqb_eq.
        congruence.
      * apply Hnotin. apply in_map_iff. exists (k0, v1). auto.
Qed.
End DictByCode.

(** The dictionary built by [unique_by_code], read from any start. *)
Lemma unique_fold_invariant results :
  forall d,
    NoDup (map fst d) ->
    (forall k v, In (k, v) d -> k = summary_scheme_code v) ->
    let d' := fold_left
                (fun d result =>
                   Dict.set Nodes.code_eqb d (summary_scheme_code result) result)
                results d in
    NoDup (map fst d')
    /\ (forall k v, In (k, v) d' -> k = summary_scheme_code v)
    /\ (forall k v, In (k, v) d' -> In (k, v) d \/ In v results)
    /\ (forall r before after,
          results = (before ++ r :: after)%list ->
          (forall x, In x after ->
                     summary_scheme_code x <> summary_scheme_code r) ->
          In (summary_scheme_code r, r) d').
Proof.
  induction results as [|x results IH]; intros d Hnd Hkey; simpl.
  - repeat split; auto. intros r before after Heq.
    destruct before; discriminate.
  - destruct (IH (Dict.set Nodes.code_eqb d (summary_scheme_code x) x))
      as (Hnd' & Hkey' & Hfrom & Hlast).
    + now apply code_set_nodup.
    + intros k v Hin. apply code_set_in in Hin as [[-> ->]|Hin]; auto.
    + repeat split; auto.
      * intros k v Hin. destruct (Hfrom k v Hin) as [H|H]; [|right; now right].
        apply code_set_in in H as [[-> ->]|H]; [right; now left|now left].
      * intros r before after Heq Hafter.
        destruct before as [|b before]; simpl in Heq; injection Heq as -> ->.
        -- clear -Hafter.
           assert (Hmem := code_set_member d (summary_scheme_code r) r).
           revert Hmem.
           generalize (Dict.set Nodes.code_eqb d (summary_scheme_code r) r).
           induction after as [|y after IHa]; intros d0 Hmem; simpl; [exact Hmem|].
           apply IHa.
           ++ intros z Hz. apply Hafter. now right.
           ++ apply code_set_other; [exact Hmem|].
              intros Heq. apply (Hafter y (or_introl eq_refl)). congruence.
        -- eapply Hlast; eauto.
Qed.

Lemma values_codes (d : list (option Z * FundSummary)) :
  (forall k v, In (k, v) d -> k = summary_scheme_code v) ->
  map summary_scheme_code (Dict.values d) = map fst d.
Proof.
  intros Hkey. unfold Dict.values. rewrite map_map. apply map_ext_in.
  intros [k v] Hin. simpl. symmetry. now apply Hkey.
Qed.

(** X20.  [unique_by_code] keeps one summary per scheme code, the last one
    seen for it: the codes of the result are pairwise distinct, every
    result is one of the summaries given, and a summary followed by no
    other with its code is in the result. *)
Theorem unique_by_code_last_seen_wins :
  forall search_results,
    let unique := Dict.values (Nodes.unique_by_code search_results) in
    NoDup (map summary_scheme_code unique)
    /\ (forall r, In r unique -> In r search_results)
    /\ (forall r before after,
          search_results = (before ++ r :: after)%list ->
          (forall x, In x after ->
                     summary_scheme_code x <> summary_scheme_code r) ->
          In r unique).
Proof.
  intros search_results unique. subst unique. unfold Nodes.unique_by_code.
  destruct (unique_fold_invariant search_results [])
    as (Hnd & Hkey & Hfrom & Hlast).
  { constructor. }
  { intros k v []. }
  repeat split.
  - now rewrite (values_codes _ Hkey).
  - intros r Hin. unfold Dict.values in Hin.
    apply in_map_iff in Hin as ([k v] & <- & Hin).
    destruct (Hfrom k v Hin) as [[]|H]. exact H.
  - intros r before after Heq Hafter. unfold Dict.values.
    apply in_map_iff. exists (summary_scheme_code r, r).
    split; [reflexivity|]. eapply Hlast; eauto.
Qed.

(** X21.  Whatever happens inside it, the search stage returns a state
    whose search results carry pairwise distinct scheme codes. *)
Theorem search_stage_results_distinct :
  forall s E w,
    exists s' w' results,
      Nodes.search_funds s E w = (Returned s', w')
      /\ st_search_results s' = Some results
      /\ NoDup (map summary_scheme_code results).
Proof.
  intros s E w. unfold Nodes.search_funds, try_except, bind, ret.
  match goal with
  | |- context [match ?m E w with _ => _ end] =>
      destruct (m E w) as [[search_results|e] w1]
  end.
  - do 3 eexists. split; [reflexivity|]. split; [reflexivity|].
    destruct (unique_fold_invariant search_results [])
      as (Hnd & Hkey & _).
    { constructor. }
    { intros k v []. }
    unfold Nodes.unique_by_code. now rewrite (values_codes _ Hkey).
  - do 3 eexists. split; [reflexivity|]. split; [reflexivity|]. constructor.
Qed.

(** ** The fetch stage *)

Lemma get_fund_http_step E w scheme_code :
  let w' := snd (MFAPIRepository.get_fund scheme_code E w) in
  http_calls w' = http_calls w
  \/ http_calls w' = (http_calls w ++ [endpoint_of (GetFund scheme_code)])%list.
Proof.
  run_coroutine.
  destruct (enable_cache (settings E)); simpl.
  - destruct (AsyncCache.lookup _ _ _); simpl; [auto|].
    destruct (http_fund E _ _); simpl;
      match goal with
      | |- context [AsyncCache.store ?m ?c ?k ?i] =>
          destruct (AsyncCache.store m c k i)
      end; simpl; auto.
  - destruct (http_fund E _ _); simpl; auto.
Qed.

(** One call of [get_fund_details]: it returns, sends at most one request,
    and a detail it returns carries the code asked for. *)
Lemma get_fund_details_step E w scheme_code include_nav_data :
  exists result w',
    MutualFundService.get_fund_details scheme_code include_nav_data E w
    = (Returned result, w')
    /\ (List.length (http_calls w') <= S (List.length (http_calls w)))%nat
    /\ forall d, result = Some d -> detail_scheme_code d = scheme_code.
Proof.
  pose proof (get_fund_http_step E w scheme_code) as Hhttp.
  unfold MutualFundService.get_fund_details, try_except, bind, ret, lift_outcome.
  destruct (MFAPIRepository.get_fund scheme_code E w) as [[[data|]|e] w1];
    simpl in Hhttp.
  2,3: do 2 eexists; split; [reflexivity|]; split; [|discriminate];
       destruct Hhttp as [->| ->]; rewrite ?length_app; simpl; lia.
  assert (Hlen : (List.length (http_calls w1) <= S (List.length (http_calls w)))%nat).
  { destruct Hhttp as [->| ->]; rewrite ?length_app; simpl; lia. }
  destruct (payload_status data) as [status|].
  - destruct (String.eqb status "SUCCESS").
    + destruct (MutualFundService.build_detail scheme_code include_nav_data data)
        as [d0|e] eqn:Hb.
      * do 2 eexists. split; [reflexivity|]. split; [exact Hlen|].
        intros d [= <-]. now destruct (build_detail_returned _ _ _ _ Hb).
      * do 2 eexists. split; [reflexivity|]. split; [exact Hlen|discriminate].
    + do 2 eexists. split; [reflexivity|]. split; [exact Hlen|discriminate].
  - do 2 eexists. split; [reflexivity|]. split; [exact Hlen|discriminate].
Qed.

(** The loop of the fetch stage over [funds]. *)
Lemma fetch_loop_bound :
  forall funds acc E w,
    exists new w',
      for_each
        (fun acc fund =>
           bind (MutualFundService.get_fund_details
                   (summary_scheme_code fund) true)
                (fun details =>
                   match details with
                   | Some d => ret (acc ++ [d])%list
                   | None => ret acc
                   end))
        funds acc E w
      = (Returned (acc ++ new)%list, w')
      /\ (List.length new <= List.length funds)%nat
      /\ (List.length (http_calls w')
          <= List.length (http_calls w) + List.length funds)%nat
      /\ forall d, In d new ->
           exists fund, In fund funds
                        /\ detail_scheme_code d = summary_scheme_code fund.
Proof.
  induction funds as [|fund funds IH]; intros acc E w; simpl.
  - exists [], w. unfold ret. rewrite app_nil_r.
    repeat split; auto; try lia. intros d [].
  - unfold bind at 1.
    destruct (get_fund_details_step E w (summary_scheme_code fund) true)
      as (result & w1 & Hcall & Hhttp & Hcode).
    unfold bind at 1. rewrite Hcall.
    destruct result as [d0|]; unfold ret at 1.
    + destruct (IH (acc ++ [d0])%list E w1) as (new & w' & Hrun & Hlen & Hh & Hin).
      exists (d0 :: new), w'. rewrite Hrun, <- app_assoc. simpl.
      repeat split; try lia.
      intros d [<-|Hd].
      * exists fund. split; [now left|]. now apply Hcode.
      * destruct (Hin d Hd) as (f & Hf & Hc). exists f. split; [now right|exact Hc].
    + destruct (IH acc E w1) as (new & w' & Hrun & Hlen & Hh & Hin).
      exists new, w'. rewrite Hrun.
      repeat split; try lia.
      intros d Hd. destruct (Hin d Hd) as (f & Hf & Hc).
      exists f. split; [now right|exact Hc].
Qed.

(** X22.  The fetch stage always returns; it fetches details for at most
    the first three search results, sending at most three requests, and
    every detail it stores carries the scheme code of one of those three. *)
Theorem fetch_stage_at_most_three :
  forall s E w,
    exists s' w' details,
      Nodes.fetch_fund_details s E w = (Returned s', w')
      /\ st_fund_details s' = Some details
      /\ (List.length details <= 3)%nat
      /\ (List.length (http_calls w') <= List.length (http_calls w) + 3)%nat
      /\ forall d, In d details ->
           exists fund,
             In fund (firstn 3 (match st_search_results s with
                                | Some l => l
                                | None => []
                                end))
             /\ detail_scheme_code d = summary_scheme_code fund.
Proof.
  intros s E w. unfold Nodes.fetch_fund_details.
  set (search_results := match st_search_results s with
                         | Some l => l
                         | None => []
                         end).
  destruct (Nat.min (List.length search_results) 3) as [|n] eqn:Hmin.
  - unfold try_except, ret. do 3 eexists.
    split; [reflexivity|]. split; [reflexivity|].
    simpl. split; [lia|]. split; [lia|]. intros d [].
  - unfold try_except, bind at 1.
    destruct (fetch_loop_bound (firstn (S n) search_results) [] E w)
      as (new & w' & Hrun & Hlen & Hhttp & Hin).
    rewrite Hrun. unfold ret. simpl app.
    assert (Hn : (List.length (firstn (S n) search_results) <= 3)%nat).
    { rewrite length_firstn. lia. }
    do 3 eexists. split; [reflexivity|]. split; [reflexivity|].
    repeat split; try lia.
    intros d Hd. destruct (Hin d Hd) as (f & Hf & Hc).
    exists f. split; [|exact Hc].
    assert (Hle : (S n <= 3)%nat) by lia.
    clear -Hf Hle. revert Hf. generalize search_results.
    assert (Hgen : forall (k : nat) (l : list FundSummary),
              (k <= 3)%nat -> In f (firstn k l) -> In f (firstn 3 l)).
    { intros k l Hk Hfk.
      replace 3%nat with (k + (3 - k))%nat by lia.
      rewrite <- (firstn_skipn k l) at 1.
      rewrite firstn_app. apply in_or_app. left.
      rewrite firstn_firstn.
      replace (Nat.min (k + (3 - k)) k) with k by lia. exact Hfk. }
    intros l. now apply Hgen.
Qed.

(** ** The stages when the text generation is down *)

(** X24.  When every call of the text generation fails, the five stages,
    run in the order of the graph's edges from the state [process_query]
    builds, each on the state the one before returned, end with the fixed
    sentence of [generate_final_response]'s short cut as the response.
    Exactly two prompts were attempted, the query-analysis prompt and then
    the search-term prompt, both at the default temperature; the last three
    stages leave the world as it is, and no request was sent to the fund
    API. *)
Theorem text_generation_outage :
  forall query chat_history E w,
    (forall n messages temperature,
       exists e, llm_generate E n messages temperature = Raised e) ->
    exists s1 w1 s2 w2 s3 s4 s5,
      Nodes.analyze_query
        (FundAdvisorAgent.initial_state query chat_history) E w
      = (Returned s1, w1)
      /\ Nodes.search_funds s1 E w1 = (Returned s2, w2)
      /\ Nodes.fetch_fund_details s2 E w2 = (Returned s3, w2)
      /\ Nodes.analyze_funds s3 E w2 = (Returned s4, w2)
      /\ Nodes.generate_final_response s4 E w2 = (Returned s5, w2)
      /\ st_response s5 = Some Nodes.analysis_failed_response
      /\ llm_calls w2
         = (llm_calls w
            ++ [(QUERY_ANALYSIS_PROMPT query, default_temperature (settings E));
                (FUND_SEARCH_PROMPT query
                   ((match chat_history with Some h => h | None => [] end)
                    ++ [HumanMessage query]),
                 default_temperature (settings E))])%list
      /\ http_calls w2 = http_calls w
      /\ clock_reads w2 = clock_reads w.
Proof.
  intros query chat_history E w Hdown.
  unfold Nodes.analyze_query, try_except, bind, ret, generate_response.
  destruct (Hdown (List.length (llm_calls w)) (QUERY_ANALYSIS_PROMPT query)
              (default_temperature (settings E))) as [e1 He1].
  destruct (Hdown
              (List.length
                 (llm_calls w
                  ++ [(QUERY_ANALYSIS_PROMPT query,
                       default_temperature (settings E))])%list)
              (FUND_SEARCH_PROMPT query
                 ((match chat_history with Some h => h | None => [] end)
                  ++ [HumanMessage query])%list)
              (default_temperature (settings E))) as [e2 He2].
  simpl. rewrite He1.
  do 7 eexists. split; [reflexivity|].
  unfold Nodes.search_funds, try_except, bind, ret, generate_response. simpl.
  cbn [get_chat_history Nodes.with_chat_history Nodes.with_error
       FundAdvisorAgent.initial_state st_chat_history].
  rewrite He2.
  split; [reflexivity|].
  split; [reflexivity|]. split; [reflexivity|].
  split; [reflexivity|]. split; [reflexivity|].
  simpl. rewrite <- app_assoc. simpl. repeat split.
Qed.

Lemma text_generation_outage_witness :
  exists s1 w1 s2 w2 s3 s4 s5,
    Nodes.analyze_query
      (FundAdvisorAgent.initial_state sample_query None) silent_env initial_world
    = (Returned s1, w1)
    /\ Nodes.search_funds s1 silent_env w1 = (Returned s2, w2)
    /\ Nodes.fetch_fund_details s2 silent_env w2 = (Returned s3, w2)
    /\ Nodes.analyze_funds s3 silent_env w2 = (Returned s4, w2)
    /\ Nodes.generate_final_response s4 silent_env w2 = (Returned s5, w2)
    /\ st_response s5 = Some Nodes.analysis_failed_response
    /\ llm_calls w2
       = (llm_calls initial_world
          ++ [(QUERY_ANALYSIS_PROMPT sample_query,
               default_temperature (settings silent_env));
              (FUND_SEARCH_PROMPT sample_query
                 ((match @None (list turn) with Some h => h | None => [] end)
                  ++ [HumanMessage sample_query]),
               default_temperature (settings silent_env))])%list
    /\ http_calls w2 = http_calls initial_world
    /\ clock_reads w2 = clock_reads initial_world.
Proof.
  apply (text_generation_outage sample_query None silent_env initial_world).
  intros n messages temperature. simpl. eexists. reflexivity.
Defined.

(** X25.  With at least one detail, [analyze_funds] sends exactly one
    prompt, at the default temperature: the comparison prompt, about the
    first two details, when there are at least two details and the query is
    a comparison query, and the single-fund prompt about the first detail
    otherwise.  The text generated is stored unchanged as the fund analysis;
    when the call fails the fixed technical-error sentence is stored and the
    error recorded. *)
Theorem analyze_funds_routes_prompt :
  forall s E w first others,
    st_fund_details s = Some (first :: others) ->
    let messages :=
      match others with
      | second :: _ =>
          if QueryAnalyzer.is_comparison_query (st_query s)
          then FUND_COMPARISON_PROMPT (st_query s) first second
                 (get_chat_history s)
          else FUND_ANALYSIS_PROMPT (st_query s) first (get_chat_history s)
      | [] => FUND_ANALYSIS_PROMPT (st_query s) first (get_chat_history s)
      end in
    exists s' w',
      Nodes.analyze_funds s E w = (Returned s', w')
      /\ llm_calls w'
         = (llm_calls w ++ [(messages, default_temperature (settings E))])%list
      /\ st_response s' = st_response s
      /\ match llm_generate E (List.length (llm_calls w)) messages
                 (default_temperature (settings E)) with
         | Returned text =>
             st_fund_analysis s' = Some text /\ st_error s' = st_error s
         | Raised e =>
             st_fund_analysis s'
             = Some "I couldn't analyze the fund data due to a technical error."
             /\ st_error s' = Some ("Fund analysis failed: " ++ exn_str e)
         end.
Proof.
  intros s E w first others Hdetails messages. subst messages.
  unfold Nodes.analyze_funds. rewrite Hdetails.
  unfold try_except, bind, ret.
  destruct others as [|second rest].
  - unfold generate_response.
    destruct (llm_generate E (List.length (llm_calls w)) _ _);
      do 2 eexists; repeat split.
  - destruct (QueryAnalyzer.is_comparison_query (st_query s));
      unfold generate_response;
      destruct (llm_generate E (List.length (llm_calls w)) _ _);
      do 2 eexists; repeat split.
Qed.

Lemma analyze_funds_routes_prompt_witness :
  exists s' w',
    Nodes.analyze_funds comparison_state sample_env initial_world
    = (Returned s', w')
    /\ llm_calls w'
       = ([] ++ [(FUND_COMPARISON_PROMPT "compare these two" sample_detail
                    sample_detail [], 0.1%float)])%list
    /\ st_response s' = None
    /\ (st_fund_analysis s' = Some "No specific scheme is mentioned."
        /\ st_error s' = None).
Proof.
  apply (analyze_funds_routes_prompt comparison_state sample_env initial_world
           sample_detail [sample_detail]).
  reflexivity.
Defined.

(** ** Keywords and query terms *)

Lemma prefix_contains needle hay :
  String.prefix needle hay = true -> Str.contains needle hay = true.
Proof.
  intros H. rewrite contains_unfold, H. reflexivity.
Qed.

Lemma contains_drop_head x needle : forall hay,
  Str.contains (String x needle) hay = true -> Str.contains needle hay = true.
Proof.
  induction hay as [|y hay IH]; intros H; rewrite contains_unfold in H;
    apply orb_true_iff in H as [H|H]; try discriminate.
  - simpl in H. destruct (Ascii.ascii_dec x y); [|discriminate].
    rewrite contains_unfold. rewrite (prefix_contains _ _ H). apply orb_true_r.
  - rewrite contains_unfold. rewrite (IH H). apply orb_true_r.
Qed.

Lemma contains_append_r a b : forall hay,
  Str.contains (a ++ b) hay = true -> Str.contains b hay = true.
Proof.
  induction a as [|x a IH]; intros hay H; [exact H|].
  apply IH. exact (contains_drop_head _ _ _ H).
Qed.

(** X26.  Three of the eleven comparison keywords never decide: "vs.",
    "differences" and "which is better" occur only where "vs",
    "difference" and "better" occur.  The test is the one over the eight
    others. *)
Theorem comparison_keywords_redundant :
  forall query,
    QueryAnalyzer.is_comparison_query query
    = existsb (fun keyword => Str.contains keyword (Str.lower query))
              ["compare"; "comparison"; "versus"; "vs"; "better";
               "difference"; "contrast"; "against"].
Proof.
  intros query. unfold QueryAnalyzer.is_comparison_query,
    QueryAnalyzer.comparison_keywords. simpl.
  set (q := Str.lower query).
  pose proof (contains_append_l "vs" "." q) as Hvs.
  pose proof (contains_append_l "difference" "s" q) as Hdiff.
  pose proof (contains_append_r "which is " "better" q) as Hbetter.
  simpl in Hvs, Hdiff, Hbetter.
  destruct (Str.contains "compare" q); [reflexivity|].
  destruct (Str.contains "comparison" q); [reflexivity|].
  destruct (Str.contains "versus" q); [reflexivity|].
  destruct (Str.contains "vs" q).
  { simpl. reflexivity. }
  destruct (Str.contains "vs." q); [discriminate (Hvs eq_refl)|].
  destruct (Str.contains "better" q).
  { simpl. reflexivity. }
  destruct (Str.contains "difference" q).
  { simpl. reflexivity. }
  destruct (Str.contains "differences" q); [discriminate (Hdiff eq_refl)|].
  destruct (Str.contains "which is better" q);
    [discriminate (Hbetter eq_refl)|].
  reflexivity.
Qed.

Lemma matches_same_terms terms1 terms2 fund :
  (forall t, In t terms1 <-> In t terms2) ->
  MutualFundService.matches terms1 fund = MutualFundService.matches terms2 fund.
Proof.
  intros Hsame. unfold MutualFundService.matches.
  set (test := fun term : string => Str.contains term _).
  destruct (forallb test terms1) eqn:H1, (forallb test terms2) eqn:H2;
    try reflexivity.
  - rewrite forallb_forall in H1.
    assert (forallb test terms2 = true)
      by (apply forallb_forall; intros t Ht; apply H1, Hsame, Ht).
    congruence.
  - rewrite forallb_forall in H2.
    assert (forallb test terms1 = true)
      by (apply forallb_forall; intros t Ht; apply H2, Hsame, Ht).
    congruence.
Qed.

Lemma filter_loop_same_terms terms1 terms2 limit :
  (forall t, In t terms1 <-> In t terms2) ->
  forall funds acc,
    MutualFundService.filter_loop terms1 limit funds acc
    = MutualFundService.filter_loop terms2 limit funds acc.
Proof.
  intros Hsame. induction funds as [|f funds IH]; intros acc; simpl;
    [reflexivity|].
  rewrite (matches_same_terms _ _ f Hsame).
  destruct (MutualFundService.matches terms2 f); [|apply IH].
  destruct (limit <=? _); [reflexivity|apply IH].
Qed.

(** X27.  Only the set of lowercase terms of a query matters to
    [search_funds]: two queries with the same terms, in any order, with any
    repetition, letter case or spacing, give the same result and leave the
    same world. *)
Theorem search_funds_term_set :
  forall query1 query2 limit E w,
    (forall t, In t (Str.split (Str.lower query1))
               <-> In t (Str.split (Str.lower query2))) ->
    MutualFundService.search_funds query1 limit E w
    = MutualFundService.search_funds query2 limit E w.
Proof.
  intros query1 query2 limit E w Hsame.
  unfold MutualFundService.search_funds, try_except, bind, ret.
  destruct (MFAPIRepository.get_all_funds E w) as [[all_funds|e] w1];
    [|reflexivity].
  now rewrite (filter_loop_same_terms _ _ limit Hsame).
Qed.

Lemma search_funds_term_set_witness :
  MutualFundService.search_funds "Top  HDFC top" 5 sample_env initial_world
  = MutualFundService.search_funds "hdfc TOP" 5 sample_env initial_world.
Proof.
  apply (search_funds_term_set "Top  HDFC top" "hdfc TOP" 5 sample_env
           initial_world).
  intros t. simpl. tauto.
Defined.

(** ** One listing for many searches *)

Lemma get_all_funds_miss E w :
  enable_cache (settings E) = true ->
  1 <= cache_max_size (settings E) ->
  AsyncCache.lookup (cache (all_funds_cache w)) (lookup_key E GetAllFunds)
    (clock E (clock_reads w)) = None ->
  let listing := match http_listing E (List.length (http_calls w)) with
                 | Returned l => l
                 | Raised _ => []
                 end in
  exists c',
    MFAPIRepository.get_all_funds E w
    = (Returned listing,
       World (S (clock_reads w)) (llm_calls w)
             (http_calls w ++ [EmptyString])%list
             (CacheState c' (hits (all_funds_cache w))
                         (misses (all_funds_cache w) + 1))
             (fund_cache w))
    /\ Dict.get String.eqb c' (lookup_key E GetAllFunds)
       = Some (listing, clock E (clock_reads w) + cache_ttl (settings E)).
Proof.
  intros Hon Hmax Hmiss listing.
  destruct (store_returns (cache_max_size (settings E))
              (cache (all_funds_cache w)) (lookup_key E GetAllFunds)
              (listing, clock E (clock_reads w) + cache_ttl (settings E)) Hmax)
    as [c' Hstore].
  exists c'. split; [|exact (store_assigns _ _ _ _ _ Hstore)].
  run_coroutine. rewrite Hon. simpl.
  unfold lookup_key in Hmiss, Hstore. subst listing.
  simpl in Hmiss, Hstore. rewrite Hmiss. simpl.
  destruct (http_listing E (List.length (http_calls w))); simpl;
    rewrite Hstore; reflexivity.
Qed.

(** X28.  One request serves every search within the TTL.  After a search
    that missed the cache, a second search, for any query and limit, made
    while [now < expiry] is answered from the same listing (the empty one
    if the request failed) and sends no request. *)
Theorem searches_share_one_listing :
  forall E w query1 limit1 query2 limit2,
    enable_cache (settings E) = true ->
    1 <= cache_max_size (settings E) ->
    is_miss E w GetAllFunds (clock E (clock_reads w)) ->
    clock E (S (clock_reads w))
    < clock E (clock_reads w) + cache_ttl (settings E) ->
    let listing := match http_listing E (List.length (http_calls w)) with
                   | Returned l => l
                   | Raised _ => []
                   end in
    exists w1 w2,
      MutualFundService.search_funds query1 limit1 E w
      = (Returned (MutualFundService.filter_loop
                     (Str.split (Str.lower query1)) limit1 listing []), w1)
      /\ MutualFundService.search_funds query2 limit2 E w1
         = (Returned (MutualFundService.filter_loop
                        (Str.split (Str.lower query2)) limit2 listing []), w2)
      /\ http_calls w1 = (http_calls w ++ [EmptyString])%list
      /\ http_calls w2 = http_calls w1.
Proof.
  intros E w query1 limit1 query2 limit2 Hon Hmax Hmiss Hfresh listing.
  destruct (get_all_funds_miss E w Hon Hmax Hmiss) as (c' & Hcall & Hget).
  fold listing in Hcall, Hget.
  do 2 eexists.
  unfold MutualFundService.search_funds, try_except, bind, ret.
  rewrite Hcall. split; [reflexivity|].
  erewrite get_all_funds_hit; [|exact Hon|exact Hget|exact Hfresh].
  repeat split.
Qed.

Lemma searches_share_one_listing_witness :
  exists w1 w2,
    MutualFundService.search_funds "hdfc" 5 sample_env initial_world
    = (Returned (MutualFundService.filter_loop
                   (Str.split (Str.lower "hdfc")) 5 sample_listing []), w1)
    /\ MutualFundService.search_funds "icici" 1 sample_env w1
       = (Returned (MutualFundService.filter_loop
                      (Str.split (Str.lower "icici")) 1 sample_listing []), w2)
    /\ http_calls w1 = ([] ++ [EmptyString])%list
    /\ http_calls w2 = http_calls w1.
Proof.
  apply (searches_share_one_listing sample_env initial_world "hdfc" 5 "icici" 1).
  - reflexivity.
  - vm_compute. discriminate.
  - reflexivity.
  - vm_compute. reflexivity.
Defined.
